(** * TJ Shell: the job-control engine of [tj_shell.c]

    A shallow embedding of the command interpreter: the tokenizer, the
    pipeline loop [exec_cmdline], the dispatcher [exec_cmd], the spawner
    [fork_exec_wait], the synchronous wait [c_wait], the reaping sweep
    [sigchld_handler] and the built-ins, written as computations over an
    explicit shell state.  The operating system is a collaborator: what it
    answers is read from a [world] record, what the shell asks of it is
    appended to a [trace] of events.

    Three things are left out.  Time: a child's state change is entered in
    the kernel's table when the child is created and stays there until a
    wait collects it, and a blocking [waitpid] is taken at the moment it
    returns.  Preemption: the handler of SIGCHLD is the same sweep that
    polling calls, run between two steps of the main flow.  Buffers: a line
    stays within [STR_LEN] characters, [MAX_CMDS] stages and [MAX_ARGS]
    arguments a stage, beyond which the C program overruns its arrays. *)

From Stdlib Require Import ZArith List String Ascii Bool Arith Lia.
Import ListNotations.

Local Open Scope string_scope.
Local Open Scope list_scope.
Local Open Scope Z_scope.

(** ** Constants of the source and of the C library *)

Definition STR_LEN : nat := 1023.
Definition MAX_CMDS : nat := 63.
Definition MAX_ARGS : nat := 63.
Definition EXIT_SUCCESS : Z := 0.
Definition EXIT_FAILURE : Z := 1.
Definition STDIN_FILENO : Z := 0.
Definition STDOUT_FILENO : Z := 1.
Definition SIGKILL : Z := 9.
Definition SIGCONT : Z := 18.

(** Wait-status macros, as glibc defines them on an [int] status. *)

Definition W_EXITCODE (ret sig : Z) : Z := Z.lor (Z.shiftl ret 8) sig.
Definition W_STOPCODE (sig : Z) : Z := Z.lor (Z.shiftl sig 8) 127.
Definition WEXITSTATUS (status : Z) : Z := Z.shiftr (Z.land status 65280) 8.
Definition WTERMSIG (status : Z) : Z := Z.land status 127.
Definition WIFEXITED (status : Z) : bool := WTERMSIG status =? 0.
(* ((signed char) ((status & 0x7f) + 1) >> 1) > 0 : the low seven bits lie
   strictly between 0 and 127. *)
Definition WIFSIGNALED (status : Z) : bool :=
  (1 <=? WTERMSIG status) && (WTERMSIG status <=? 126).
Definition WIFSTOPPED (status : Z) : bool := Z.land status 255 =? 127.

(** ** Strings *)

Fixpoint is_delim (delim : string) (c : ascii) : bool :=
  match delim with
  | EmptyString => false
  | String d rest => Ascii.eqb c d || is_delim rest c
  end.

Definition flush (tok : string) : list string :=
  match tok with
  | EmptyString => []
  | _ => [tok]
  end.

(** The [strtok] loop of [tokenize]: [tok] is the token being read.  A run of
    delimiters ends the current token; empty tokens are never produced. *)
Fixpoint strtok (delim : string) (input : string) (tok : string) : list string :=
  match input with
  | EmptyString => flush tok
  | String c rest =>
      if is_delim delim c
      then flush tok ++ strtok delim rest EmptyString
      else strtok delim rest (tok ++ String c EmptyString)%string
  end.

(** [tokenize strs no_strs input delim]: the strings are the result, their
    number is its length, the slot after the last one is NULL. *)
Definition tokenize (input delim : string) : list string :=
  strtok delim input EmptyString.

(** [args[k]], where [None] is the NULL that ends the vector. *)
Definition arg (args : list string) (k : nat) : option string := nth_error args k.

(** A read of [args[k]] as a string ([strcmp], [%s]). *)
Definition arg_str (args : list string) (k : nat) : string := nth k args EmptyString.

(** The conversions of the scanf family, as glibc reads them on a 64-bit
    Linux.  [%d]: blanks, an optional sign, at least one digit; the digits
    are read as a [long], which saturates, and the low 32 bits go to the
    [int].  [%s]: blanks, then the characters up to the next blank, at least
    one.  [%c] after a blank of the format: blanks, then one character.  Each
    gives the input that is left, or fails. *)
Definition is_space (c : ascii) : bool :=
  let k := nat_of_ascii c in (k =? 32)%nat || ((9 <=? k)%nat && (k <=? 13)%nat).

Definition digit_of (c : ascii) : option Z :=
  let k := nat_of_ascii c in
  if ((48 <=? k)%nat && (k <=? 57)%nat) then Some (Z.of_nat (k - 48)) else None.

Fixpoint scan_digits (s : string) (acc : Z) : Z :=
  match s with
  | EmptyString => acc
  | String c rest =>
      match digit_of c with
      | Some d => scan_digits rest (10 * acc + d)
      | None => acc
      end
  end.

Fixpoint skip_digits (s : string) : string :=
  match s with
  | EmptyString => EmptyString
  | String c rest =>
      match digit_of c with
      | Some _ => skip_digits rest
      | None => s
      end
  end.

Definition scan_unsigned (s : string) : option Z :=
  match s with
  | EmptyString => None
  | String c _ =>
      match digit_of c with
      | Some _ => Some (scan_digits s 0)
      | None => None
      end
  end.

Fixpoint skip_spaces (s : string) : string :=
  match s with
  | EmptyString => EmptyString
  | String c rest => if is_space c then skip_spaces rest else s
  end.

Definition LONG_MAX : Z := 9223372036854775807.
Definition LONG_MIN : Z := -9223372036854775808.

(** [strtol]'s saturation. *)
Definition to_long (z : Z) : Z := Z.max LONG_MIN (Z.min LONG_MAX z).

(** The conversion of a [long] to [int]: the low 32 bits, signed. *)
Definition to_int (z : Z) : Z := (z + 2147483648) mod 4294967296 - 2147483648.

Definition scan_d (s : string) : option (Z * string) :=
  let signed (negative : bool) (t : string) :=
    match scan_unsigned t with
    | Some v => Some (to_int (to_long (if negative then - v else v)), skip_digits t)
    | None => None
    end in
  match skip_spaces s with
  | String "-"%char rest => signed true rest
  | String "+"%char rest => signed false rest
  | t => signed false t
  end.

Fixpoint skip_word (s : string) : string :=
  match s with
  | EmptyString => EmptyString
  | String c rest => if is_space c then s else skip_word rest
  end.

Definition scan_s (s : string) : option string :=
  match skip_spaces s with
  | EmptyString => None
  | t => Some (skip_word t)
  end.

Definition scan_c (s : string) : option string :=
  match skip_spaces s with
  | EmptyString => None
  | String _ rest => Some rest
  end.

(** [sscanf(s, "%d", &x)]. *)
Definition sscanf_d (s : string) : option Z := option_map fst (scan_d s).

(** [fscanf(fp, "%d %*s %*c %d", &pid, &ppid)] on the text of a stat file:
    what was stored in [pid] and in [ppid], [None] for a variable the call
    left as it was because the input stopped matching before.  With [%*d] for
    the first conversion, as [child_process] has it, the second component is
    the same. *)
Definition scan_stat (content : string) : option Z * option Z :=
  match scan_d content with
  | None => (None, None)
  | Some (pid, r1) =>
      match scan_s r1 with
      | None => (Some pid, None)
      | Some r2 =>
          match scan_c r2 with
          | None => (Some pid, None)
          | Some r3 =>
              match scan_d r3 with
              | None => (Some pid, None)
              | Some (ppid, _) => (Some pid, Some ppid)
              end
          end
      end
  end.

(** What a variable holds after a conversion that may have left it alone. *)
Definition stored (new : option Z) (old : Z) : Z :=
  match new with
  | Some v => v
  | None => old
  end.

(** ** Events *)

(** What the shell prints.  Process ids stay numbers. *)
Inductive message : Type :=
| Spawned_in_foreground (pid : Z)
| Spawned_in_background (pid : Z)
| Terminated_normally (pid : Z)
| Terminated_by_a_signal (pid : Z)
| Stopped (pid : Z)
| Run_time
| Actual_command_line (line : string)
| Closing
| Empty_command
| Command_failed (cmd : string)
| Could_not_pipe
| Could_not_fork
| Could_not_open_proc
| No_such_directory
| No_such_child
| Perror (what : string).

(** What a freshly forked child does before its program runs. *)
Inductive child_action : Type :=
| C_setpgid (pid pgid : Z)
| C_tcsetpgrp (pgid : Z)
| C_signals_default
| C_close (fd : Z)
| C_dup2 (fd target : Z)
| C_execvp (argv : list string).

(** What the shell process itself does. *)
Inductive event : Type :=
| Stdout (m : message)
| Stderr (m : message)
| Pipe (read_end write_end : Z)
| Fork (pid : Z) (cmd : nat) (child : list child_action)
| Close (fd : Z)
| Waitpid (pid : Z)
| Tcsetpgrp (pgid : Z)
| Kill (pid sig : Z)
| Chdir (path : string)
| Free_pipe_fds
| Sleep.

(** ** The operating system as the shell sees it *)

Record world : Type := {
  shell_pid : Z;
  (* compiled with SIGDET=1: signal-driven detection; otherwise polling *)
  sigdet : bool;
  getenv : string -> option string;
  (* pipe(2), asked when the next free descriptor is [fd] *)
  pipe_ok : Z -> bool;
  (* fork(2), asked when the next process id is [pid] *)
  fork_ok : Z -> bool;
  (* execvp(argv[0], argv) replaces the image *)
  execvp_ok : list string -> bool;
  (* wait status the program delivers once it runs *)
  program_status : Z -> list string -> Z;
  tcsetpgrp_ok : Z -> bool;
  getpgid : Z -> Z;
  kill_ok : Z -> Z -> bool;
  chdir_ok : string -> bool;
  (* /proc as [readdir] lists it: the name of each entry and, for
     /proc/[name]/stat, the text [fopen] gives access to or [None] where it
     returns NULL; [None] if /proc itself cannot be opened *)
  proc : option (list (string * option string));
  (* the text of /proc/[pid]/stat, [None] if it cannot be opened *)
  proc_stat : Z -> option string;
  (* what an [int] holds when it is read before it was written *)
  uninit : Z;
  (* the same for the targets [pid] and [ppid] of the [fscanf] calls *)
  uninit_pid : Z;
  uninit_ppid : Z
}.

(** The shell's state: the trace so far, the kernel's record of the children
    (state changes not yet collected by a wait, oldest first), the kernel's
    counters, the terminal's foreground group, and the two [static] variables
    of [fork_exec_wait]. *)
Record state : Type := {
  trace : list event;
  pending : list (Z * Z);
  next_pid : Z;
  next_fd : Z;
  tty_fg : Z;
  pipe_fds : list (Z * Z);
  pipe_n : nat
}.

Definition with_trace (s : state) (t : list event) : state :=
  {| trace := t; pending := pending s; next_pid := next_pid s;
     next_fd := next_fd s; tty_fg := tty_fg s;
     pipe_fds := pipe_fds s; pipe_n := pipe_n s |}.

Definition with_pending (s : state) (q : list (Z * Z)) : state :=
  {| trace := trace s; pending := q; next_pid := next_pid s;
     next_fd := next_fd s; tty_fg := tty_fg s;
     pipe_fds := pipe_fds s; pipe_n := pipe_n s |}.

Definition with_next_pid (s : state) (p : Z) : state :=
  {| trace := trace s; pending := pending s; next_pid := p;
     next_fd := next_fd s; tty_fg := tty_fg s;
     pipe_fds := pipe_fds s; pipe_n := pipe_n s |}.

Definition with_next_fd (s : state) (f : Z) : state :=
  {| trace := trace s; pending := pending s; next_pid := next_pid s;
     next_fd := f; tty_fg := tty_fg s;
     pipe_fds := pipe_fds s; pipe_n := pipe_n s |}.

Definition with_tty_fg (s : state) (g : Z) : state :=
  {| trace := trace s; pending := pending s; next_pid := next_pid s;
     next_fd := next_fd s; tty_fg := g;
     pipe_fds := pipe_fds s; pipe_n := pipe_n s |}.

Definition with_pipe_fds (s : state) (l : list (Z * Z)) : state :=
  {| trace := trace s; pending := pending s; next_pid := next_pid s;
     next_fd := next_fd s; tty_fg := tty_fg s;
     pipe_fds := l; pipe_n := pipe_n s |}.

Definition with_pipe_n (s : state) (k : nat) : state :=
  {| trace := trace s; pending := pending s; next_pid := next_pid s;
     next_fd := next_fd s; tty_fg := tty_fg s;
     pipe_fds := pipe_fds s; pipe_n := k |}.

(** ** Computations of the shell

    A C function either returns, or ends the shell process with [exit].  The
    third outcome belongs to the model only: the nesting budget of
    [exec_cmdline] (see there) ran out.  The fourth is a read through a null
    [FILE] pointer, after which C defines nothing (with glibc the process
    dies of a segmentation fault). *)
Inductive outcome (A : Type) : Type :=
| Returned (a : A) (s : state)
| Exited (code : Z) (s : state)
| Out_of_fuel
| Undefined.

Arguments Returned {A} a s.
Arguments Exited {A} code s.
Arguments Out_of_fuel {A}.
Arguments Undefined {A}.

Definition M (A : Type) : Type := state -> outcome A.

Definition ret {A : Type} (a : A) : M A := fun s => Returned a s.

Definition bind {A B : Type} (m : M A) (k : A -> M B) : M B :=
  fun s =>
    match m s with
    | Returned a s' => k a s'
    | Exited code s' => Exited code s'
    | Out_of_fuel => Out_of_fuel
    | Undefined => Undefined
    end.

Notation "x <- m ;; k" := (bind m (fun x => k))
  (at level 61, m at next level, right associativity).
Notation "m ;; k" := (bind m (fun _ => k))
  (at level 61, right associativity).

Definition exit {A : Type} (code : Z) : M A := fun s => Exited code s.
Definition get : M state := fun s => Returned s s.
Definition emit (e : event) : M unit :=
  fun s => Returned tt (with_trace s (trace s ++ [e])).
Definition stdout (m : message) : M unit := emit (Stdout m).
Definition stderr (m : message) : M unit := emit (Stderr m).
Definition when (b : bool) (m : M unit) : M unit := if b then m else ret tt.

Section Shell.

Variable w : world.

(** ** System calls *)

Definition sys_pipe : M (option (Z * Z)) :=
  fun s =>
    let fd := next_fd s in
    if pipe_ok w fd
    then Returned (Some (fd, fd + 1))
           (with_trace (with_next_fd s (fd + 2)) (trace s ++ [Pipe fd (fd + 1)]))
    else Returned None s.

(** The terminal requests a child makes while it sets itself up take effect
    when it is created. *)
Fixpoint child_effect (acts : list child_action) (s : state) : state :=
  match acts with
  | [] => s
  | C_tcsetpgrp g :: rest =>
      child_effect rest (if tcsetpgrp_ok w g then with_tty_fg s g else s)
  | _ :: rest => child_effect rest s
  end.

(** [fork]: [child] is the code the child runs, [status] the state change it
    will deliver to a wait.  The kernel records it among the pending ones. *)
Definition sys_fork (cmd : nat) (child : Z -> list child_action)
    (status : Z -> Z) : M (option Z) :=
  fun s =>
    let pid := next_pid s in
    if fork_ok w pid
    then
      let s1 := with_next_pid s (pid + 1) in
      let s2 := with_pending s1 (pending s ++ [(pid, status pid)]) in
      let s3 := with_trace s2 (trace s ++ [Fork pid cmd (child pid)]) in
      Returned (Some pid) (child_effect (child pid) s3)
    else Returned None s.

Definition sys_close (fd : Z) : M unit := emit (Close fd).

Definition sys_tcsetpgrp (pgid : Z) : M bool :=
  fun s =>
    let s1 := with_trace s (trace s ++ [Tcsetpgrp pgid]) in
    if tcsetpgrp_ok w pgid
    then Returned true (with_tty_fg s1 pgid)
    else Returned false s1.

Definition sys_kill (pid sig : Z) : M bool :=
  emit (Kill pid sig) ;; ret (kill_ok w pid sig).

Fixpoint take_pid (pid : Z) (q : list (Z * Z)) : option (Z * list (Z * Z)) :=
  match q with
  | [] => None
  | (p, st) :: q' =>
      if p =? pid then Some (st, q')
      else
        match take_pid pid q' with
        | Some (st', q'') => Some (st', (p, st) :: q'')
        | None => None
        end
  end.

(** [waitpid(pid, &status, WUNTRACED)], at the moment it returns: the state
    change of that child, which the kernel then forgets; or a failure when
    the kernel has nothing to report for it. *)
Definition sys_waitpid (pid : Z) : M (option Z) :=
  fun s =>
    let s1 := with_trace s (trace s ++ [Waitpid pid]) in
    match take_pid pid (pending s) with
    | Some (st, q) => Returned (Some st) (with_pending s1 q)
    | None => Returned None s1
    end.

(** [waitpid(WAIT_ANY, &status, WUNTRACED | WNOHANG)]: some child with a
    state change not yet collected (here the oldest), if there is one. *)
Definition sys_waitpid_any_nohang : M (option (Z * Z)) :=
  fun s =>
    match pending s with
    | [] => Returned None s
    | (p, st) :: q => Returned (Some (p, st)) (with_pending s q)
    end.

Definition perror (what : string) : M unit := stderr (Perror what).

(** ** Helper functions *)

Definition print_status (c_pid status : Z) : M unit :=
  if WIFEXITED status then stdout (Terminated_normally c_pid)
  else if WIFSIGNALED status then stdout (Terminated_by_a_signal c_pid)
  else if WIFSTOPPED status then stdout (Stopped c_pid)
  else ret tt.

Definition stdout_to_pipe (pipe_fd : Z * Z) : list child_action :=
  [C_close (fst pipe_fd); C_close STDOUT_FILENO; C_dup2 (snd pipe_fd) STDOUT_FILENO].

Definition pipe_to_stdin (pipe_fd : Z * Z) : list child_action :=
  [C_close (snd pipe_fd); C_close STDIN_FILENO; C_dup2 (fst pipe_fd) STDIN_FILENO].

Definition get_env_cmd (args : list string) (pager : string) : string :=
  match arg args 1 with
  | None => "printenv | sort | " ++ pager
  | Some a1 => "printenv | sort | grep " ++ a1 ++ " | " ++ pager
  end%string.

(** [child_process]: the stat file of [c_pid] can be opened, and the parent
    read from it, or what [ppid] held if the read stopped short, is the
    shell. *)
Definition child_process (c_pid : Z) : bool :=
  match proc_stat w c_pid with
  | None => false
  | Some content =>
      let ppid := stored (snd (scan_stat content)) (uninit_ppid w) in
      ppid =? shell_pid w
  end.

(** ** Signal handler *)

(** The loop of [sigchld_handler]; [k] bounds the number of iterations. *)
Fixpoint sigchld_loop (k : nat) : M unit :=
  match k with
  | O => fun _ => Out_of_fuel
  | S k' =>
      r <- sys_waitpid_any_nohang ;;
      match r with
      | Some (c_pid, status) => print_status c_pid status ;; sigchld_loop k'
      | None => ret tt
      end
  end.

Definition sigchld_handler : M unit :=
  fun s => sigchld_loop (S (List.length (pending s))) s.

(** ** Waiting for a foreground child *)

(** [t0] tells whether a stopwatch was passed ([t0 != NULL]). *)
Definition c_wait (c_pid : Z) (t0 : bool) (cont : bool) : M Z :=
  when cont
    (ok <- sys_tcsetpgrp (getpgid w c_pid) ;;
     when (negb ok) (perror "tcsetpgrp") ;;
     ok' <- sys_kill c_pid SIGCONT ;;
     when (negb ok') (perror "kill")) ;;
  r <- sys_waitpid c_pid ;;
  status <- match r with
            | Some status =>
                print_status c_pid status ;;
                when t0 (stdout Run_time) ;;
                ret status
            | None => ret (uninit w)
            end ;;
  (* Reclaim the terminal *)
  ok <- sys_tcsetpgrp (getpgid w (shell_pid w)) ;;
  when (negb ok) (perror "tcsetpgrp") ;;
  ret status.

(** ** Fork, exec, wait *)

(** [c_init], in the child: a group of its own, the terminal if it runs in
    the foreground, default signal dispositions. *)
Definition c_init (c_pid : Z) (foreground : bool) : list child_action :=
  [C_setpgid c_pid c_pid]
  ++ (if foreground then [C_tcsetpgrp c_pid] else [])
  ++ [C_signals_default].

Definition PIPING (no_cmds : nat) : bool := (1 <? no_cmds)%nat.
Definition FIRST_CMD (cmd : nat) : bool := (cmd =? 1)%nat.
Definition MIDDLE_CMD (cmd no_cmds : nat) : bool := ((1 <? cmd) && (cmd <? no_cmds))%nat.
Definition LAST_CMD (cmd no_cmds : nat) : bool := (cmd =? no_cmds)%nat.

Definition pipe_at (fds : list (Z * Z)) (k : nat) : Z * Z := nth k fds (0, 0).

(** The branch [c_pid == 0] of [fork_exec_wait], with the copies of the two
    statics the child holds. *)
Definition child_branch (args : list string) (cmd no_cmds : nat)
    (background : bool) (fds : list (Z * Z)) (n : nat) (c_pid : Z)
    : list child_action :=
  c_init c_pid (negb background)
  ++ (if PIPING no_cmds then
        (if FIRST_CMD cmd then stdout_to_pipe (pipe_at fds n) else [])
        ++ (if MIDDLE_CMD cmd no_cmds
            then pipe_to_stdin (pipe_at fds (n - 1)) ++ stdout_to_pipe (pipe_at fds n)
            else [])
        ++ (if LAST_CMD cmd no_cmds then pipe_to_stdin (pipe_at fds n) else [])
      else [])
  ++ [C_execvp args].

(** What a wait on the child will see: the program's own status, or the exit
    code [EXIT_FAILURE] of [_exit] when [execvp] fails. *)
Definition child_status (args : list string) (c_pid : Z) : Z :=
  if execvp_ok w args then program_status w c_pid args
  else W_EXITCODE EXIT_FAILURE 0.

(** The loop that fills [pipe_fds] with [k] more pipes. *)
Fixpoint alloc_pipes (k : nat) : M unit :=
  match k with
  | O => ret tt
  | S k' =>
      r <- sys_pipe ;;
      match r with
      | None => stderr Could_not_pipe ;; exit EXIT_FAILURE
      | Some fd =>
          (fun s => Returned tt (with_pipe_fds s (pipe_fds s ++ [fd]))) ;;
          alloc_pipes k'
      end
  end.

Definition fork_exec_wait (args : list string) (cmd no_cmds : nat)
    (background : bool) : M Z :=
  when (PIPING no_cmds && FIRST_CMD cmd)
    ((fun s => Returned tt (with_pipe_fds s [])) ;;
     alloc_pipes (no_cmds - 1) ;;
     (fun s => Returned tt (with_pipe_n s 0))) ;;
  when (PIPING no_cmds && MIDDLE_CMD cmd no_cmds)
    (fun s => Returned tt (with_pipe_n s (S (pipe_n s)))) ;;
  s0 <- get ;;
  r <- sys_fork cmd
         (child_branch args cmd no_cmds background (pipe_fds s0) (pipe_n s0))
         (child_status args) ;;
  match r with
  | None => stderr Could_not_fork ;; exit EXIT_FAILURE
  | Some c_pid =>
      when (PIPING no_cmds)
        (sys_close (snd (pipe_at (pipe_fds s0) (pipe_n s0)))) ;;
      status <- (if negb background && LAST_CMD cmd no_cmds
                 then stdout (Spawned_in_foreground c_pid) ;; c_wait c_pid true false
                 else stdout (Spawned_in_background c_pid) ;; ret 0) ;;
      let return_value :=
        if negb background && (WEXITSTATUS status =? EXIT_FAILURE) then -1 else 0 in
      when (PIPING no_cmds && (LAST_CMD cmd no_cmds || (return_value =? -1)))
        (emit Free_pipe_fds) ;;
      ret return_value
  end.

(** ** Built-in commands *)

Definition string_tail (s : string) : string :=
  match s with
  | EmptyString => EmptyString
  | String _ rest => rest
  end.

Definition starts_with_tilde (s : string) : bool :=
  match s with
  | String "~"%char _ => true
  | _ => false
  end.

(** A missing HOME is printed by [%s] as glibc prints a null pointer. *)
Definition change_dir (path : string) : M unit :=
  let exec_path :=
    if starts_with_tilde path
    then (match getenv w "HOME" with Some h => h | None => "(null)" end
          ++ string_tail path)%string
    else path in
  emit (Chdir exec_path) ;;
  when (negb (chdir_ok w exec_path)) (stderr No_such_directory).

Definition check_env (exec_cmdline : string -> M nat) (args : list string) : M unit :=
  let no_cmds := match arg args 1 with None => 3%nat | Some _ => 4%nat end in
  let pager := match getenv w "PAGER" with Some p => p | None => "less" end in
  let line := get_env_cmd args pager in
  stdout (Actual_command_line line) ;;
  r <- exec_cmdline line ;;
  if (r =? no_cmds)%nat && String.eqb pager "less" then
    (* If less failed *)
    let line := get_env_cmd args "more" in
    stdout (Actual_command_line line) ;;
    exec_cmdline line ;;
    ret tt
  else ret tt.

Definition starts_with_digit (name : string) : bool :=
  match name with
  | String c _ => match digit_of c with Some _ => true | None => false end
  | EmptyString => false
  end.

(** The [readdir] loop of [term_all]; [pid] and [ppid] are the two locals,
    which keep their values from one entry to the next.  The result of
    [fopen] is passed to [fscanf] unchecked. *)
Fixpoint kill_children (entries : list (string * option string)) (pid ppid : Z)
    : M unit :=
  match entries with
  | [] => ret tt
  | (d_name, file) :: rest =>
      if starts_with_digit d_name then
        match file with
        | None => fun _ => Undefined
        | Some content =>
            let pid' := stored (fst (scan_stat content)) pid in
            let ppid' := stored (snd (scan_stat content)) ppid in
            when (shell_pid w =? ppid')
              (ok <- sys_kill pid' SIGKILL ;; when (negb ok) (perror "kill")) ;;
            kill_children rest pid' ppid'
        end
      else kill_children rest pid ppid
  end.

Definition term_all : M unit :=
  stdout Closing ;;
  match proc w with
  | None => stderr Could_not_open_proc ;; exit EXIT_FAILURE
  | Some entries =>
      kill_children entries (uninit_pid w) (uninit_ppid w) ;;
      emit Sleep ;;
      when (negb (sigdet w)) sigchld_handler ;;
      exit EXIT_SUCCESS
  end.

Definition put_fg (s : string) : M unit :=
  let c_pid := match sscanf_d s with Some p => p | None => uninit w end in
  if child_process c_pid
  then c_wait c_pid false true ;; ret tt
  else stderr No_such_child.

(** ** Execute commands *)

Definition exec_cmd (exec_cmdline : string -> M nat)
    (args : list string) (no_args cmd no_cmds : nat) : M Z :=
  let spawn (args : list string) (background : bool) :=
    fork_exec_wait args cmd no_cmds background in
  if (no_cmds =? 1)%nat then
    if String.eqb (arg_str args 0) "cd" then
      if (no_args =? 1)%nat then change_dir "~" ;; ret 0
      else if (no_args =? 2)%nat then change_dir (arg_str args 1) ;; ret 0
      else ret (-1)
    else if String.eqb (arg_str args 0) "checkEnv" then
      if (no_args <=? 2)%nat then check_env exec_cmdline args ;; ret 0
      else ret (-1)
    else if String.eqb (arg_str args 0) "exit" then
      if (no_args =? 1)%nat then term_all ;; ret 0
      else ret (-1)
    else if String.eqb (arg_str args 0) "fg" then
      if (no_args =? 2)%nat then put_fg (arg_str args 1) ;; ret 0
      else ret (-1)
    else if String.eqb (arg_str args (no_args - 1)) "&" then
      (* If background mode *)
      if (2 <=? no_args)%nat
      then spawn (firstn (no_args - 1) args) true (* "&" replaced with NULL *)
      else ret (-1)
    else spawn args false
  else spawn args false.

(** The text [exec_cmdline] rebuilds for its failure report. *)
Definition command_text (args : list string) : string := String.concat " " args.

(** The [for] loop of [exec_cmdline] from index [i] on; [cmds] holds
    [cmds[i]], [cmds[i+1]], ... *)
Fixpoint exec_cmds (exec_cmdline : string -> M nat) (cmds : list string)
    (i no_cmds : nat) : M nat :=
  match cmds with
  | [] => ret 0%nat
  | c :: rest =>
      let args := tokenize c " " in
      let no_args := List.length args in
      if (no_args =? 0)%nat then
        stderr Empty_command ;; ret (i + 1)%nat
      else
        r <- exec_cmd exec_cmdline args no_args (i + 1) no_cmds ;;
        if r =? -1 then
          stderr (Command_failed (command_text args)) ;; ret (i + 1)%nat
        else exec_cmds exec_cmdline rest (i + 1) no_cmds
  end.

(** [exec_cmdline] calls itself through [check_env]; [fuel] bounds the depth
    of that nesting.  Two levels are all the program ever uses
    ([exec_cmdline_fuel] below). *)
Fixpoint exec_cmdline (fuel : nat) (line : string) : M nat :=
  match fuel with
  | O => fun _ => Out_of_fuel
  | S fuel' =>
      let cmds := tokenize line "|" in
      exec_cmds (exec_cmdline fuel') cmds 0 (List.length cmds)
  end.

(** [prompt], once the line is read. *)
Definition prompt (line : string) : M unit :=
  if (0 <? String.length line)%nat then exec_cmdline 2 line ;; ret tt else ret tt.

End Shell.

(** * The vocabulary of the properties *)

(** ** What was spawned *)

(** The spawning steps of a trace: which pipes were made and which stages
    were forked, in the order it happened. *)
Inductive spawn_step : Type :=
| Made_pipe
| Forked (cmd : nat).

Definition spawn_of (e : event) : list spawn_step :=
  match e with
  | Pipe _ _ => [Made_pipe]
  | Fork _ cmd _ => [Forked cmd]
  | _ => []
  end.

Definition spawn_view (t : list event) : list spawn_step := flat_map spawn_of t.

(** What an [N]-stage pipeline is to do: [N-1] pipes, then stages 1..N. *)
Definition spawn_plan (N : nat) : list spawn_step :=
  repeat Made_pipe (N - 1) ++ map Forked (seq 1 N).

Definition is_forked (x : spawn_step) : bool :=
  match x with
  | Forked _ => true
  | Made_pipe => false
  end.

Definition is_wait (e : event) : bool :=
  match e with
  | Waitpid _ => true
  | _ => false
  end.

Definition quiet (new : list event) : Prop :=
  Forall (fun e => is_wait e = false) new.

(** A line is spawned as planned: its run returns, and the pipes and the
    forks of the run are those of the plan for its number of stages. *)
Definition spawns_as_planned (w : world) (fuel : nat) (line : string) (s : state) : Prop :=
  exists r s' new,
    exec_cmdline w fuel line s = Returned r s'
    /\ trace s' = trace s ++ new
    /\ spawn_view new = spawn_plan (List.length (tokenize line "|")).

(** The state after a single command was spawned in the background: the
    child, in a group of its own, does not ask for the terminal and runs
    [args]; the shell announces it and does not wait. *)
Definition background_spawned (w : world) (args : list string) (s : state) : state :=
  let pid := next_pid s in
  with_trace
    (with_pending (with_next_pid s (pid + 1))
       (pending s ++ [(pid, child_status w args pid)]))
    (trace s ++ [Fork pid 1 [C_setpgid pid pid; C_signals_default; C_execvp args];
                 Stdout (Spawned_in_background pid)]).

(** ** States, worlds and lines the properties speak of *)

(** The kernel hands out fresh process ids. *)
Definition well_formed (s : state) : Prop :=
  Forall (fun e => fst e < next_pid s) (pending s).

(** Pipes and processes can be had. *)
Definition resources_ok (w : world) : Prop :=
  (forall fd, pipe_ok w fd = true) /\ (forall pid, fork_ok w pid = true).

(** The stage has a program name. *)
Definition has_args (c : string) : Prop := tokenize c " " <> [].

Definition builtin_name (name : string) : bool :=
  String.eqb name "cd" || String.eqb name "checkEnv"
  || String.eqb name "exit" || String.eqb name "fg".

(** A program that is not a built-in and not the lone marker. *)
Definition external_command (args : list string) : Prop :=
  builtin_name (arg_str args 0) = false /\ args <> ["&"].

(** The argument counts the built-ins are invoked with, program name
    included, in the words of the specification: [cd] with 1 or 2,
    [checkEnv] with 1 or 2, [exit] with 1, [fg] with 2. *)
Definition builtin_arities (name : string) : list nat :=
  if String.eqb name "cd" then [1; 2]%nat
  else if String.eqb name "checkEnv" then [1; 2]%nat
  else if String.eqb name "exit" then [1]%nat
  else if String.eqb name "fg" then [2]%nat
  else [].

Definition recognized (name : string) (no_args : nat) : bool :=
  existsb (Nat.eqb no_args) (builtin_arities name).

(** What a recognized built-in does. *)
Definition builtin_action (w : world) (nested : string -> M nat)
    (args : list string) (no_args : nat) : M unit :=
  let name := arg_str args 0 in
  if String.eqb name "cd" then
    change_dir w (if (no_args =? 1)%nat then "~" else arg_str args 1)
  else if String.eqb name "checkEnv" then check_env w nested args
  else if String.eqb name "exit" then term_all w
  else put_fg w (arg_str args 1).

(** ** What a wait and a sweep leave in the trace *)

(** What the wait itself reports, given what the kernel answers. *)
Definition report_of (c_pid status : Z) : list event :=
  if WIFEXITED status then [Stdout (Terminated_normally c_pid)]
  else if WIFSIGNALED status then [Stdout (Terminated_by_a_signal c_pid)]
  else if WIFSTOPPED status then [Stdout (Stopped c_pid)]
  else [].

(** The events of the terminal reclaim that ends [c_wait]. *)
Definition reclaim_events (w : world) : list event :=
  let g := getpgid w (shell_pid w) in
  Tcsetpgrp g :: (if tcsetpgrp_ok w g then [] else [Stderr (Perror "tcsetpgrp")]).

(** The events of the hand-over that [c_wait] starts with when [cont] is set. *)
Definition resume_events (w : world) (c_pid : Z) (cont : bool) : list event :=
  if cont then
    Tcsetpgrp (getpgid w c_pid)
    :: (if tcsetpgrp_ok w (getpgid w c_pid) then [] else [Stderr (Perror "tcsetpgrp")])
    ++ Kill c_pid SIGCONT
    :: (if kill_ok w c_pid SIGCONT then [] else [Stderr (Perror "kill")])
  else [].

Definition wait_events (c_pid : Z) (t0 : bool) (answer : option Z) : list event :=
  Waitpid c_pid ::
  match answer with
  | Some status => report_of c_pid status ++ (if t0 then [Stdout Run_time] else [])
  | None => []
  end.

(** What one sweep prints for the state changes [q] it collects. *)
Definition sweep_reports (q : list (Z * Z)) : list event :=
  flat_map (fun e => report_of (fst e) (snd e)) q.

Definition swept (s : state) : state :=
  with_pending (with_trace s (trace s ++ sweep_reports (pending s))) [].

(** The pid a report is about. *)
Definition report_about (pid : Z) (e : event) : bool :=
  match e with
  | Stdout (Terminated_normally p)
  | Stdout (Terminated_by_a_signal p)
  | Stdout (Stopped p) => p =? pid
  | _ => false
  end.

Definition reports_about (pid : Z) (t : list event) : nat :=
  List.length (filter (report_about pid) t).

Definition changes_of (pid : Z) (q : list (Z * Z)) : nat :=
  List.length (filter (fun e => fst e =? pid) q).

(** ** The environment listing *)

(** No character of [word] is a delimiter. *)
Definition free_of (delim word : string) : bool :=
  forallb (fun c => negb (is_delim delim c)) (list_ascii_of_string word).

(** The pager [check_env] settles on: PAGER when it is set, else [less]. *)
Definition pager_of (w : world) : string :=
  match getenv w "PAGER" with
  | Some p => p
  | None => "less"
  end.

(** The number of stages [check_env] expects its line to have. *)
Definition env_stages (args : list string) : nat :=
  match arg args 1 with
  | None => 3
  | Some _ => 4
  end.

(** The filter, when there is one, has no bar in it (it was a token). *)
Definition filter_ok (args : list string) : Prop :=
  forall f, arg args 1 = Some f -> free_of "|" f = true.

(** The lines [check_env] composes. *)
Definition env_line (line : string) : Prop :=
  exists args pager, line = get_env_cmd args pager.

(** A computation that keeps the states well formed, however it ends. *)
Definition keeps {A : Type} (m : M A) : Prop :=
  forall s, well_formed s ->
    match m s with
    | Returned _ s' => well_formed s'
    | Exited _ s' => well_formed s'
    | Out_of_fuel => True
    | Undefined => True
    end.

(** ** The nesting budget *)

(** A computation that does not run out of budget. *)
Definition runs {A : Type} (m : M A) : Prop := forall s, m s <> Out_of_fuel.

(** ** A session to try things on *)

(** Neither [nosuch] nor [less] can be run; [false] exits with 1; writes to
    the terminal group succeed. *)
Definition demo_world : world :=
  {| shell_pid := 100;
     sigdet := false;
     getenv := fun _ => None;
     pipe_ok := fun _ => true;
     fork_ok := fun _ => true;
     execvp_ok := fun argv =>
       negb (String.eqb (arg_str argv 0) "nosuch" || String.eqb (arg_str argv 0) "less");
     program_status := fun _ argv =>
       if String.eqb (arg_str argv 0) "false" then W_EXITCODE 1 0 else W_EXITCODE 0 0;
     tcsetpgrp_ok := fun _ => true;
     getpgid := fun pid => pid;
     kill_ok := fun _ _ => true;
     chdir_ok := fun _ => true;
     proc := Some [("1", Some "1 (init) S 0 1 1");
                   ("100", Some "100 (tjsh) S 1 100 100");
                   ("101", Some "101 (sleep) S 100 101 101"); ("self", None)];
     proc_stat := fun pid =>
       if pid =? 100 then Some "100 (tjsh) S 1 100 100"
       else if pid =? 101 then Some "101 (sleep) S 100 101 101"
       else None;
     uninit := 0;
     uninit_pid := 0;
     uninit_ppid := 0 |}.

Definition demo_state : state :=
  {| trace := []; pending := []; next_pid := 101; next_fd := 3; tty_fg := 100;
     pipe_fds := []; pipe_n := 0 |}.

(** ** The events of a whole pipeline *)

(** The pipes [alloc_pipes] makes when the next free descriptor is [fd]. *)
Fixpoint pipes_from (fd : Z) (k : nat) : list (Z * Z) :=
  match k with
  | O => []
  | S k' => (fd, fd + 1) :: pipes_from (fd + 2) k'
  end.

Definition pipe_events (fds : list (Z * Z)) : list event :=
  map (fun p => Pipe (fst p) (snd p)) fds.

(** What the child of stage [k] (counted from 0) of [N] does: it takes the
    terminal, reads from the pipe before it unless it is the first, writes
    to the pipe behind it unless it is the last, and runs [args]. *)
Definition stage_child (fds : list (Z * Z)) (N k : nat) (args : list string)
    (pid : Z) : list child_action :=
  c_init pid true
  ++ (if (0 <? k)%nat then pipe_to_stdin (pipe_at fds (k - 1)) else [])
  ++ (if (S k <? N)%nat then stdout_to_pipe (pipe_at fds k) else [])
  ++ [C_execvp args].

(** The events of a stage that is not the last. *)
Definition spawn_events (fds : list (Z * Z)) (N k : nat) (args : list string)
    (pid : Z) : list event :=
  [Fork pid (S k) (stage_child fds N k args pid);
   Close (snd (pipe_at fds k));
   Stdout (Spawned_in_background pid)].

Fixpoint early_events (fds : list (Z * Z)) (N k : nat) (pid : Z)
    (stages : list string) : list event :=
  match stages with
  | [] => []
  | c :: rest =>
      spawn_events fds N k (tokenize c " ") pid
      ++ early_events fds N (S k) (pid + 1) rest
  end.

(** What the stages that are not waited for leave with the kernel. *)
Fixpoint early_posted (w : world) (pid : Z) (stages : list string) : list (Z * Z) :=
  match stages with
  | [] => []
  | c :: rest =>
      (pid, child_status w (tokenize c " ") pid) :: early_posted w (pid + 1) rest
  end.

(** The events of the last stage [c] of [N], whose child is [pid]. *)
Definition last_events (w : world) (fds : list (Z * Z)) (N : nat) (pid : Z)
    (c : string) : list event :=
  let args := tokenize c " " in
  let status := child_status w args pid in
  [Fork pid N (stage_child fds N (N - 1) args pid);
   Close (snd (pipe_at fds (N - 2)));
   Stdout (Spawned_in_foreground pid)]
  ++ wait_events pid true (Some status)
  ++ reclaim_events w
  ++ [Free_pipe_fds]
  ++ (if WEXITSTATUS status =? EXIT_FAILURE
      then [Stderr (Command_failed (command_text args))] else []).

(** The forks of a pipeline, stage by stage. *)
Fixpoint pipeline_forks (fds : list (Z * Z)) (N k : nat) (pid : Z)
    (stages : list string) : list event :=
  match stages with
  | [] => []
  | c :: rest =>
      Fork pid (S k) (stage_child fds N k (tokenize c " ") pid)
      :: pipeline_forks fds N (S k) (pid + 1) rest
  end.

Definition is_fork (e : event) : bool :=
  match e with
  | Fork _ _ _ => true
  | _ => false
  end.

(** The descriptors the shell closes, in order. *)
Definition closes_of (t : list event) : list Z :=
  flat_map (fun e => match e with Close fd => [fd] | _ => [] end) t.

(** The signals the shell sends, in order. *)
Definition kills_of (t : list event) : list (Z * Z) :=
  flat_map (fun e => match e with Kill pid sig => [(pid, sig)] | _ => [] end) t.

(** *** The text of a stat file *)

(** The fields [fscanf] is after: "pid (comm) state ppid rest". *)
Record stat_fields : Type := {
  f_pid : string;
  f_comm : string;
  f_state : ascii;
  f_ppid : string;
  f_rest : string
}.

Definition stat_text (f : stat_fields) : string :=
  (f_pid f ++ " (" ++ f_comm f ++ ") "
   ++ String (f_state f) (" " ++ f_ppid f ++ " " ++ f_rest f))%string.

Fixpoint all_chars (p : ascii -> bool) (t : string) : bool :=
  match t with
  | EmptyString => true
  | String c rest => p c && all_chars p rest
  end.

Definition is_digit (c : ascii) : bool :=
  match digit_of c with
  | Some _ => true
  | None => false
  end.


(** A decimal numeral, and the [int] it is read as. *)
Definition numeral (d : string) : bool :=
  match d with
  | EmptyString => false
  | _ => all_chars is_digit d
  end.

Definition number (d : string) : Z := to_int (to_long (scan_digits d 0)).

(** No blank in it. *)
Definition plain (t : string) : bool := all_chars (fun c => negb (is_space c)) t.

(** The stat file of a process whose name holds no blank. *)
Definition well_formed_stat (f : stat_fields) : Prop :=
  numeral (f_pid f) = true /\ plain (f_comm f) = true
  /\ is_space (f_state f) = false /\ numeral (f_ppid f) = true.

(** No digit starts [t]. *)
Definition no_digit (t : string) : bool :=
  match t with
  | EmptyString => true
  | String c _ => negb (is_digit c)
  end.




(** An entry of /proc: the directory of a process, or something else. *)
Inductive proc_entry : Type :=
| Process_dir (name : string) (f : stat_fields)
| Other_entry (name : string) (file : option string).

Definition entry_text (e : proc_entry) : string * option string :=
  match e with
  | Process_dir name f => (name, Some (stat_text f))
  | Other_entry name file => (name, file)
  end.


(** Process directories have numeric names and well-formed stat files, the
    other entries start with no digit. *)
Definition regular (e : proc_entry) : Prop :=
  match e with
  | Process_dir name f => starts_with_digit name = true /\ well_formed_stat f
  | Other_entry name _ => starts_with_digit name = false
  end.

(** The children of the shell in a listing of /proc. *)
Definition children_in (w : world) (es : list proc_entry) : list Z :=
  flat_map (fun e =>
              match e with
              | Process_dir _ f =>
                  if shell_pid w =? number (f_ppid f) then [number (f_pid f)] else []
              | Other_entry _ _ => []
              end) es.

(** *** The limits of the arrays *)

(** The line fits the buffers of the source: [STR_LEN] characters,
    [MAX_CMDS] stages, [MAX_ARGS] arguments a stage. *)
Definition within_limits (line : string) : Prop :=
  (String.length line <= STR_LEN)%nat
  /\ (List.length (tokenize line "|") <= MAX_CMDS)%nat
  /\ Forall (fun c => (List.length (tokenize c " ") <= MAX_ARGS)%nat)
       (tokenize line "|").

(** *** What a run made, by the run's own record *)

(** The pipes a run made, in the order it made them. *)
Definition pipes_of (t : list event) : list (Z * Z) :=
  flat_map (fun e => match e with Pipe r wr => [(r, wr)] | _ => [] end) t.

(** The processes a run forked, in the order it forked them. *)
Definition fork_pids (t : list event) : list Z :=
  flat_map (fun e => match e with Fork pid _ _ => [pid] | _ => [] end) t.

(** The forks of the stages from [k] on, of [N], given the pipes [fds] and
    the process ids the kernel answered: stage by stage, what the child has
    been set to do. *)
Fixpoint forks_wired (fds : list (Z * Z)) (N k : nat) (stages : list string)
    (pids : list Z) : list event :=
  match stages, pids with
  | c :: stages', pid :: pids' =>
      Fork pid (S k) (stage_child fds N k (tokenize c " ") pid)
      :: forks_wired fds N (S k) stages' pids'
  | _, _ => []
  end.

(** The forks and the closes of a run, in the order they happened. *)
Inductive plumbing_step : Type :=
| Fork_of (cmd : nat)
| Close_of (fd : Z).

Definition plumbing (t : list event) : list plumbing_step :=
  flat_map (fun e =>
              match e with
              | Fork _ cmd _ => [Fork_of cmd]
              | Close fd => [Close_of fd]
              | _ => []
              end) t.

(** The slot of [pipe_fds] the shell closes after the fork of stage [k]
    (from 0) of [N]: the stage's own pipe, and for the last stage the slot of
    the stage before it. *)
Definition closed_slot (N k : nat) : nat := Nat.min k (N - 2).

(** The forks and the blocking waits of a run, in the order they happened. *)
Inductive job_step : Type :=
| Forked_pid (pid : Z)
| Waited_pid (pid : Z).

Definition job_view (t : list event) : list job_step :=
  flat_map (fun e =>
              match e with
              | Fork pid _ _ => [Forked_pid pid]
              | Waitpid pid => [Waited_pid pid]
              | _ => []
              end) t.

(** Every character of [s] is a delimiter. *)
Definition all_delims (delim s : string) : bool :=
  forallb (is_delim delim) (list_ascii_of_string s).

(** A token: not empty, and free of delimiters. *)
Definition is_word (delim t : string) : Prop :=
  t <> EmptyString /\ free_of delim t = true.

(** What [exec_cmdline] prints when the stage [c] fails. *)
Definition failure_report (c : string) : message :=
  match tokenize c " " with
  | [] => Empty_command
  | args => Command_failed (command_text args)
  end.

(** A world short of descriptors: the second pipe cannot be made. *)
Definition scarce_world : world :=
  {| shell_pid := 100;
     sigdet := true;
     getenv := fun name => if String.eqb name "HOME" then Some "/home/tj" else None;
     pipe_ok := fun fd => fd <? 5;
     fork_ok := fun _ => true;
     execvp_ok := fun _ => true;
     program_status := fun _ _ => W_EXITCODE 0 0;
     tcsetpgrp_ok := fun _ => true;
     getpgid := fun pid => pid;
     kill_ok := fun _ _ => true;
     chdir_ok := fun path => String.eqb path "/home/tj";
     proc := Some [("1", Some "1 (init) S 0 1 1");
                   ("100", Some "100 (tjsh) S 1 100 100");
                   ("101", Some "101 (sleep) S 100 101 101");
                   ("102", Some "102 (cron) S 1 102 102");
                   ("103", Some "103 (cat) T 100 103 103")];
     proc_stat := fun pid =>
       if pid =? 102 then Some "102 (cron) S 1 102 102"
       else if pid =? 103 then Some "103 (cat) T 100 103 103"
       else None;
     uninit := 0;
     uninit_pid := 0;
     uninit_ppid := 0 |}.

(** A world short of processes: none can be created once pid 101 is taken. *)
Definition crowded_world : world :=
  {| shell_pid := 100;
     sigdet := true;
     getenv := fun name => if String.eqb name "HOME" then Some "/home/tj" else None;
     pipe_ok := fun _ => true;
     fork_ok := fun pid => pid <? 102;
     execvp_ok := fun _ => true;
     program_status := fun _ _ => W_EXITCODE 0 0;
     tcsetpgrp_ok := fun _ => true;
     getpgid := fun pid => pid;
     kill_ok := fun _ _ => true;
     chdir_ok := fun path => String.eqb path "/home/tj";
     proc := Some [("1", Some "1 (init) S 0 1 1");
                   ("100", Some "100 (tjsh) S 1 100 100");
                   ("101", Some "101 (sleep) S 100 101 101");
                   ("102", Some "102 (cron) S 1 102 102");
                   ("103", Some "103 (cat) T 100 103 103")];
     proc_stat := fun pid =>
       if pid =? 102 then Some "102 (cron) S 1 102 102"
       else if pid =? 103 then Some "103 (cat) T 100 103 103"
       else None;
     uninit := 0;
     uninit_pid := 0;
     uninit_ppid := 0 |}.


(** * Properties *)

(** Discharges [within_limits] for a given line. *)
Ltac in_limits :=
  split; [apply Nat.leb_le; reflexivity|];
  split; [apply Nat.leb_le; reflexivity|];
  repeat (constructor; [apply Nat.leb_le; reflexivity|]); constructor.

Lemma spawn_view_app t1 t2 : spawn_view (t1 ++ t2) = spawn_view t1 ++ spawn_view t2.
Proof. apply flat_map_app. Qed.

(** ** The tokenizer *)

Lemma strtok_word delim (word input tok : string) :
  (forall c, is_delim delim c = true -> In c (list_ascii_of_string word) -> False) ->
  strtok delim (word ++ input)%string tok = strtok delim input (tok ++ word)%string.
Proof.
  revert tok. induction word as [|c word IH]; intros tok H; simpl.
  - f_equal. clear. induction tok; simpl; congruence.
  - destruct (is_delim delim c) eqn:E.
    + exfalso. apply (H c E). now left.
    + rewrite IH.
      * f_equal. clear. induction tok; simpl; congruence.
      * intros d Hd Hin. apply (H d Hd). now right.
Qed.

Lemma tokenize_nil_length c : tokenize c " " = [] <-> List.length (tokenize c " ") = 0%nat.
Proof. destruct (tokenize c " "); simpl; split; congruence. Qed.

(** ** The kernel's table of pending state changes *)

Lemma take_pid_fresh pid st q :
  Forall (fun e => fst e < pid) q ->
  take_pid pid (q ++ [(pid, st)]) = Some (st, q).
Proof.
  induction q as [|[p x] q IH]; intros H; simpl.
  - now rewrite Z.eqb_refl.
  - inversion H as [|? ? Hp Hq]; subst. simpl in Hp.
    destruct (p =? pid) eqn:E; [apply Z.eqb_eq in E; lia|].
    now rewrite (IH Hq).
Qed.

(** ** Running computations *)

Lemma bind_returned {A B : Type} (m : M A) (k : A -> M B) s a s1 :
  m s = Returned a s1 -> bind m k s = k a s1.
Proof. intros H. unfold bind. now rewrite H. Qed.

(** One step of a run: the first computation returned, as [E] says. *)
Ltac step E := rewrite (bind_returned _ _ _ _ _ E).

Lemma bind_assoc {A B C : Type} (m : M A) (f : A -> M B) (g : B -> M C) s :
  bind (bind m f) g s = bind m (fun x => bind (f x) g) s.
Proof. unfold bind. now destruct (m s). Qed.

Lemma with_trace_nil s : with_trace s (trace s ++ []) = s.
Proof. destruct s; unfold with_trace; simpl. now rewrite app_nil_r. Qed.

(** ** The synchronous wait *)

Section Wait.

Variable w : world.

Lemma print_status_report c_pid status s :
  print_status c_pid status s
  = Returned tt (with_trace s (trace s ++ report_of c_pid status)).
Proof.
  unfold print_status, report_of.
  destruct (WIFEXITED status); [reflexivity|].
  destruct (WIFSIGNALED status); [reflexivity|].
  destruct (WIFSTOPPED status); [reflexivity|].
  unfold ret. now rewrite with_trace_nil.
Qed.

Lemma c_wait_spec c_pid t0 cont s :
  let answer := option_map fst (take_pid c_pid (pending s)) in
  exists s',
    c_wait w c_pid t0 cont s
    = Returned (match answer with Some st => st | None => uninit w end) s'
    /\ trace s' = trace s ++ (resume_events w c_pid cont ++ wait_events c_pid t0 answer)
                 ++ reclaim_events w
    /\ (tcsetpgrp_ok w (getpgid w (shell_pid w)) = true ->
        tty_fg s' = getpgid w (shell_pid w))
    /\ pending s' = match take_pid c_pid (pending s) with
                    | Some (_, q) => q
                    | None => pending s
                    end
    /\ next_pid s' = next_pid s.
Proof.
  unfold c_wait, resume_events, wait_events, reclaim_events.
  unfold bind, when, sys_tcsetpgrp, sys_kill, sys_waitpid, perror, stderr, stdout,
    emit, ret, bind; simpl.
  destruct cont; simpl.
  - destruct (tcsetpgrp_ok w (getpgid w c_pid)); simpl;
      destruct (kill_ok w c_pid SIGCONT); simpl;
      (destruct (take_pid c_pid (pending s)) as [[st q]|]; simpl;
       [ rewrite print_status_report; simpl; destruct t0; simpl | ];
       destruct (tcsetpgrp_ok w (getpgid w (shell_pid w))); simpl;
       eexists; (split; [reflexivity|]); simpl;
       repeat split; try reflexivity; try discriminate;
       rewrite <- ?app_assoc; simpl; reflexivity).
  - destruct (take_pid c_pid (pending s)) as [[st q]|]; simpl;
      [ rewrite print_status_report; simpl; destruct t0; simpl | ];
      destruct (tcsetpgrp_ok w (getpgid w (shell_pid w))); simpl;
      eexists; (split; [reflexivity|]); simpl;
      repeat split; try reflexivity; try discriminate;
      rewrite <- ?app_assoc; simpl; reflexivity.
Qed.

End Wait.

(** ** The spawner *)

Section Spawn.

Variable w : world.

Lemma child_effect_fields acts s :
  trace (child_effect w acts s) = trace s
  /\ pending (child_effect w acts s) = pending s
  /\ next_pid (child_effect w acts s) = next_pid s
  /\ next_fd (child_effect w acts s) = next_fd s
  /\ pipe_fds (child_effect w acts s) = pipe_fds s
  /\ pipe_n (child_effect w acts s) = pipe_n s.
Proof.
  revert s. induction acts as [|a acts IH]; intros s; simpl; [tauto|].
  destruct a; try apply IH.
  destruct (tcsetpgrp_ok w pgid); [|apply IH].
  destruct (IH (with_tty_fg s pgid)) as (H1 & H2 & H3 & H4 & H5 & H6).
  now rewrite H1, H2, H3, H4, H5, H6.
Qed.

Lemma alloc_pipes_spec k :
  (forall fd, pipe_ok w fd = true) ->
  forall s, exists s' new,
    alloc_pipes w k s = Returned tt s'
    /\ trace s' = trace s ++ new
    /\ spawn_view new = repeat Made_pipe k
    /\ quiet new
    /\ pending s' = pending s
    /\ next_pid s' = next_pid s.
Proof.
  intros Hp. induction k as [|k IH]; intros s; simpl.
  - exists s, []. unfold ret. rewrite app_nil_r. repeat split. constructor.
  - unfold bind at 1. unfold sys_pipe. rewrite Hp.
    unfold bind at 1.
    match goal with |- context [alloc_pipes w k ?s1] =>
      destruct (IH s1) as (s' & new & E & T & V & Q & P & N) end.
    exists s', (Pipe (next_fd s) (next_fd s + 1) :: new).
    rewrite E. simpl in T, P, N. rewrite T, <- app_assoc. simpl.
    repeat split; try assumption.
    + now rewrite <- V.
    + constructor; [reflexivity | assumption].
Qed.

(** A stage that is not waited for: any stage but the last, or a background
    command.  The call returns 0 whatever becomes of the child. *)
Lemma fork_exec_wait_spawn args cmd no_cmds background s :
  resources_ok w ->
  negb background && LAST_CMD cmd no_cmds = false ->
  exists s' new,
    fork_exec_wait w args cmd no_cmds background s = Returned 0 s'
    /\ trace s' = trace s ++ new
    /\ spawn_view new
       = (if PIPING no_cmds && FIRST_CMD cmd then repeat Made_pipe (no_cmds - 1) else [])
         ++ [Forked cmd]
    /\ quiet new
    /\ pending s' = pending s ++ [(next_pid s, child_status w args (next_pid s))]
    /\ next_pid s' = next_pid s + 1.
Proof.
  intros [Hp Hf] Hnw. unfold fork_exec_wait. rewrite Hnw.
  assert (Pro : exists s0 new0,
    (when (PIPING no_cmds && FIRST_CMD cmd)
       ((fun s => Returned tt (with_pipe_fds s [])) ;;
        alloc_pipes w (no_cmds - 1) ;;
        (fun s => Returned tt (with_pipe_n s 0)))) s = Returned tt s0
    /\ trace s0 = trace s ++ new0
    /\ spawn_view new0
       = (if PIPING no_cmds && FIRST_CMD cmd then repeat Made_pipe (no_cmds - 1) else [])
    /\ quiet new0 /\ pending s0 = pending s /\ next_pid s0 = next_pid s).
  { destruct (PIPING no_cmds && FIRST_CMD cmd); simpl.
    - unfold bind at 1. unfold bind at 1.
      destruct (alloc_pipes_spec (no_cmds - 1) Hp (with_pipe_fds s []))
        as (s1 & new & E & T & V & Q & P & N).
      rewrite E. eexists _, new. split; [reflexivity|]. simpl. tauto.
    - exists s, []. unfold ret. rewrite app_nil_r. repeat split. constructor. }
  destruct Pro as (s0 & new0 & E0 & T0 & V0 & Q0 & P0 & N0).
  step E0.
  set (s1 := if PIPING no_cmds && MIDDLE_CMD cmd no_cmds
             then with_pipe_n s0 (S (pipe_n s0)) else s0).
  assert (E1 : when (PIPING no_cmds && MIDDLE_CMD cmd no_cmds)
                 (fun s => Returned tt (with_pipe_n s (S (pipe_n s)))) s0
               = Returned tt s1).
  { unfold s1. now destruct (PIPING no_cmds && MIDDLE_CMD cmd no_cmds). }
  step E1.
  assert (F1 : trace s1 = trace s0 /\ pending s1 = pending s0 /\ next_pid s1 = next_pid s0).
  { unfold s1. now destruct (PIPING no_cmds && MIDDLE_CMD cmd no_cmds). }
  destruct F1 as (T1 & P1 & N1).
  unfold bind at 1. unfold get. unfold bind at 1. unfold sys_fork. rewrite Hf.
  match goal with |- context [child_effect w ?a ?x] =>
    destruct (child_effect_fields a x) as (CT & CP & CN & _);
    set (s2 := child_effect w a x) in * end.
  simpl in CT, CP, CN.
  unfold bind, when, sys_close, stdout, emit, ret.
  change (WEXITSTATUS 0 =? EXIT_FAILURE) with false.
  rewrite andb_false_r. change (0 =? -1) with false. rewrite orb_false_r.
  destruct (PIPING no_cmds) eqn:EP; simpl;
    [destruct (LAST_CMD cmd no_cmds) eqn:EL; simpl|];
    eexists; eexists; (split; [reflexivity|]); simpl;
    rewrite ?CT, ?CP, ?CN, ?T1, ?P1, ?N1, ?T0, ?P0, ?N0, <- ?app_assoc;
    (split; [reflexivity|]);
    rewrite ?spawn_view_app, ?V0; simpl;
    (split; [reflexivity|]);
    (split; [|split; reflexivity]);
    apply Forall_app; (split; [assumption|]); repeat constructor.
Qed.

(** The stage the shell waits for: the last one of a foreground pipeline.
    The status its wait delivers decides the result. *)
Lemma fork_exec_wait_last args no_cmds s :
  resources_ok w ->
  exists s' new st,
    fork_exec_wait w args no_cmds no_cmds false s
    = Returned (if WEXITSTATUS st =? EXIT_FAILURE then -1 else 0) s'
    /\ trace s' = trace s ++ new
    /\ spawn_view new = [Forked no_cmds]
    /\ In (Waitpid (next_pid s)) new
    /\ next_pid s' = next_pid s + 1
    /\ (well_formed s ->
        st = child_status w args (next_pid s) /\ pending s' = pending s).
Proof.
  intros [Hp Hf]. unfold fork_exec_wait.
  assert (EF : PIPING no_cmds && FIRST_CMD no_cmds = false).
  { unfold PIPING, FIRST_CMD. destruct (Nat.eqb_spec no_cmds 1); subst;
      [reflexivity | apply andb_false_r]. }
  assert (EM : PIPING no_cmds && MIDDLE_CMD no_cmds no_cmds = false).
  { unfold MIDDLE_CMD. rewrite Nat.ltb_irrefl. now rewrite !andb_false_r. }
  assert (EL : LAST_CMD no_cmds no_cmds = true) by apply Nat.eqb_refl.
  rewrite EF, EM, EL. cbn [when negb andb orb].
  unfold bind at 1. unfold ret at 1. unfold bind at 1. unfold ret at 1.
  unfold bind at 1. unfold get. unfold bind at 1. unfold sys_fork. rewrite Hf.
  match goal with |- context [child_effect w ?a ?x] =>
    destruct (child_effect_fields a x) as (CT & CP & CN & _);
    set (s2 := child_effect w a x) in * end.
  simpl in CT, CP, CN.
  set (pre := if PIPING no_cmds
              then [Close (snd (pipe_at (pipe_fds s) (pipe_n s)))] else []).
  set (s3 := with_trace s2
               (trace s2 ++ pre ++ [Stdout (Spawned_in_foreground (next_pid s))])).
  assert (E3 : forall k : Z -> M Z,
    (when (PIPING no_cmds) (sys_close (snd (pipe_at (pipe_fds s) (pipe_n s)))) ;;
     status <- (stdout (Spawned_in_foreground (next_pid s)) ;;
                c_wait w (next_pid s) true false) ;; k status) s2
    = (status <- c_wait w (next_pid s) true false ;; k status) s3).
  { intros k. unfold s3, pre, bind, when, sys_close, stdout, emit, ret.
    destruct (PIPING no_cmds); simpl; [now rewrite <- app_assoc | reflexivity]. }
  rewrite E3.
  destruct (c_wait_spec w (next_pid s) true false s3) as (s4 & E4 & T4 & _ & P4 & N4).
  assert (P3 : pending s3 = pending s ++ [(next_pid s, child_status w args (next_pid s))]).
  { unfold s3. simpl. now rewrite CP. }
  step E4.
  assert (WF : well_formed s ->
    take_pid (next_pid s) (pending s3)
    = Some (child_status w args (next_pid s), pending s)).
  { intros Hwf. rewrite P3. now apply take_pid_fresh. }
  unfold bind, when, emit, ret.
  destruct (take_pid (next_pid s) (pending s3)) as [[st q]|];
    simpl in T4, P4 |- *;
    destruct (PIPING no_cmds) eqn:EP; simpl;
    eexists; eexists; eexists; (split; [reflexivity|]); simpl;
    rewrite ?T4, ?P4, ?N4; unfold s3, pre; simpl; rewrite ?CT, ?CN, <- ?app_assoc;
    simpl; (split; [reflexivity|]);
    (split; [rewrite ?spawn_view_app; simpl;
             unfold report_of;
             try (destruct (WIFEXITED st); [|destruct (WIFSIGNALED st);
               [|destruct (WIFSTOPPED st)]]); simpl;
             unfold reclaim_events;
             destruct (tcsetpgrp_ok w (getpgid w (shell_pid w))); reflexivity|]);
    (split; [simpl; tauto|]); (split; [reflexivity|]);
    intros Hwf; specialize (WF Hwf); inversion WF; split; reflexivity.
Qed.

End Spawn.

(** ** The pipeline loop *)

Section Pipeline.

Variable w : world.
Variable nested : string -> M nat.

(** In a pipeline of several stages every stage is spawned, whatever its
    name. *)
Lemma exec_cmd_piping args no_args cmd no_cmds :
  no_cmds <> 1%nat ->
  exec_cmd w nested args no_args cmd no_cmds = fork_exec_wait w args cmd no_cmds false.
Proof.
  intros H. unfold exec_cmd. apply Nat.eqb_neq in H. now rewrite H.
Qed.

Lemma well_formed_spawn s s' st :
  well_formed s ->
  pending s' = pending s ++ [(next_pid s, st)] ->
  next_pid s' = next_pid s + 1 ->
  well_formed s'.
Proof.
  unfold well_formed. intros H P N. rewrite P, N. apply Forall_app. split.
  - eapply Forall_impl; [|exact H]. simpl. intros; lia.
  - repeat constructor. simpl. lia.
Qed.

(** The stages before the last are spawned one after the other; the loop
    goes on behind them. *)
Lemma exec_cmds_spawn_prefix no_cmds pre :
  resources_ok w ->
  forall rest i s,
    Forall has_args pre ->
    (i + List.length pre < no_cmds)%nat ->
    exists s1 new,
      exec_cmds w nested (pre ++ rest) i no_cmds s
      = exec_cmds w nested rest (i + List.length pre) no_cmds s1
      /\ trace s1 = trace s ++ new
      /\ spawn_view new
         = (if (i =? 0)%nat && negb (List.length pre =? 0)%nat
            then repeat Made_pipe (no_cmds - 1) else [])
           ++ map Forked (seq (i + 1) (List.length pre))
      /\ quiet new
      /\ next_pid s1 = next_pid s + Z.of_nat (List.length pre)
      /\ (well_formed s -> well_formed s1).
Proof.
  intros Hr. induction pre as [|c pre IH]; intros rest i s Hargs Hlt.
  - exists s, []. simpl. rewrite Nat.add_0_r, app_nil_r, andb_false_r, Z.add_0_r.
    repeat split; try tauto. constructor.
  - inversion Hargs as [|? ? Hc Hpre]; subst. simpl in Hlt.
    cbn [app exec_cmds].
    destruct (Nat.eqb_spec (List.length (tokenize c " ")) 0) as [E|_].
    { exfalso. apply Hc. now apply tokenize_nil_length. }
    rewrite exec_cmd_piping by lia.
    destruct (fork_exec_wait_spawn w (tokenize c " ") (i + 1) no_cmds false s Hr)
      as (s' & new & E & T & V & Q & P & N).
    { simpl. apply Nat.eqb_neq. lia. }
    step E. change (0 =? -1) with false. cbn iota.
    destruct (IH rest (i + 1)%nat s' Hpre) as (s1 & new1 & E1 & T1 & V1 & Q1 & N1 & W1).
    { lia. }
    exists s1, (new ++ new1). rewrite E1. split.
    { f_equal. simpl. lia. }
    split. { now rewrite T1, T, app_assoc. }
    split.
    { rewrite spawn_view_app, V, V1.
      replace ((i + 1 =? 0)%nat) with false by (symmetry; apply Nat.eqb_neq; lia).
      unfold PIPING, FIRST_CMD.
      replace (1 <? no_cmds)%nat with true by (symmetry; apply Nat.ltb_lt; lia).
      replace (i + 1 =? 1)%nat with (i =? 0)%nat
        by (destruct i; simpl; [reflexivity | now rewrite Nat.add_1_r]).
      cbn [andb negb Nat.eqb List.length app seq map].
      rewrite andb_true_r, <- app_assoc. simpl.
      now replace (S (i + 1)) with (i + 1 + 1)%nat by lia. }
    split. { now apply Forall_app. }
    split. { rewrite N1, N. simpl List.length. lia. }
    intros Hwf. apply W1. eapply well_formed_spawn; eassumption.
Qed.

Lemma spawn_plan_split k :
  (1 <= k)%nat ->
  (repeat Made_pipe (k + 1 - 1) ++ map Forked (seq 1 k)) ++ [Forked (k + 1)]
  = spawn_plan (k + 1).
Proof.
  intros _. unfold spawn_plan. rewrite <- app_assoc. f_equal.
  replace (k + 1)%nat with (S k) by lia. rewrite seq_S, map_app. reflexivity.
Qed.

(** A whole pipeline of two or more stages, each with a program name. *)
Lemma exec_cmds_pipeline pre cl s :
  resources_ok w ->
  pre <> [] -> Forall has_args pre -> has_args cl ->
  let no_cmds := (List.length pre + 1)%nat in
  exists s' new st,
    exec_cmds w nested (pre ++ [cl]) 0 no_cmds s
    = Returned (if WEXITSTATUS st =? EXIT_FAILURE then no_cmds else 0%nat) s'
    /\ trace s' = trace s ++ new
    /\ spawn_view new = spawn_plan no_cmds
    /\ In (Waitpid (next_pid s + Z.of_nat (List.length pre))) new
    /\ next_pid s' = next_pid s + Z.of_nat no_cmds
    /\ (well_formed s ->
        st = child_status w (tokenize cl " ") (next_pid s + Z.of_nat (List.length pre))
        /\ well_formed s').
Proof.
  intros Hr Hne Hpre Hcl no_cmds.
  assert (Hlen : (1 <= List.length pre)%nat).
  { destruct pre; [congruence | simpl; lia]. }
  destruct (exec_cmds_spawn_prefix no_cmds pre Hr [cl] 0%nat s Hpre)
    as (s1 & new1 & E1 & T1 & V1 & Q1 & N1 & W1).
  { unfold no_cmds. lia. }
  rewrite E1. cbn [exec_cmds Nat.add].
  destruct (Nat.eqb_spec (List.length (tokenize cl " ")) 0) as [E|_].
  { exfalso. apply Hcl. now apply tokenize_nil_length. }
  rewrite exec_cmd_piping by (unfold no_cmds; lia).
  fold no_cmds.
  destruct (fork_exec_wait_last w (tokenize cl " ") no_cmds s1 Hr)
    as (s2 & new2 & st & E2 & T2 & V2 & I2 & N2 & W2).
  step E2.
  assert (V : spawn_view (new1 ++ new2) = spawn_plan no_cmds).
  { rewrite spawn_view_app, V1, V2.
    replace (List.length pre =? 0)%nat with false by (symmetry; apply Nat.eqb_neq; lia).
    cbn [Nat.eqb andb negb Nat.add]. unfold no_cmds. now apply spawn_plan_split. }
  assert (W : well_formed s ->
    st = child_status w (tokenize cl " ") (next_pid s + Z.of_nat (List.length pre))
    /\ Forall (fun e => fst e < next_pid s2) (pending s2)).
  { intros Hwf. destruct (W2 (W1 Hwf)) as [Est P2]. split.
    - now rewrite Est, N1.
    - rewrite P2, N2. eapply Forall_impl; [|exact (W1 Hwf)]. simpl. intros; lia. }
  exists (if WEXITSTATUS st =? EXIT_FAILURE
          then with_trace s2 (trace s2 ++ [Stderr (Command_failed (command_text (tokenize cl " ")))])
          else s2).
  exists (new1 ++ new2 ++
          (if WEXITSTATUS st =? EXIT_FAILURE
           then [Stderr (Command_failed (command_text (tokenize cl " ")))] else [])).
  exists st.
  destruct (WEXITSTATUS st =? EXIT_FAILURE); cbn [Z.eqb Pos.eqb].
  - unfold bind, stderr, emit, ret. simpl.
    split. { reflexivity. }
    split. { now rewrite T2, T1, <- !app_assoc. }
    split. { rewrite app_assoc, spawn_view_app, V. simpl. apply app_nil_r. }
    split. { apply in_or_app. right. apply in_or_app. left. now rewrite <- N1. }
    split. { rewrite N2, N1. unfold no_cmds. lia. }
    exact W.
  - unfold ret. simpl. rewrite app_nil_r.
    split. { reflexivity. }
    split. { now rewrite T2, T1, <- !app_assoc. }
    split. { exact V. }
    split. { apply in_or_app. right. now rewrite <- N1. }
    split. { rewrite N2, N1. unfold no_cmds. lia. }
    exact W.
Qed.

(** A line with a stage that has no arguments: the loop stops there. *)
Lemma exec_cmds_empty_stage pre e post s :
  resources_ok w ->
  Forall has_args pre -> tokenize e " " = [] ->
  let no_cmds := List.length (pre ++ e :: post) in
  exists s' new,
    exec_cmds w nested (pre ++ e :: post) 0 no_cmds s
    = Returned (List.length pre + 1)%nat s'
    /\ trace s' = trace s ++ new ++ [Stderr Empty_command]
    /\ spawn_view new
       = (if (List.length pre =? 0)%nat then [] else repeat Made_pipe (no_cmds - 1))
         ++ map Forked (seq 1 (List.length pre))
    /\ quiet new.
Proof.
  intros Hr Hpre He no_cmds.
  destruct (exec_cmds_spawn_prefix no_cmds pre Hr (e :: post) 0%nat s Hpre)
    as (s1 & new1 & E1 & T1 & V1 & Q1 & N1 & W1).
  { unfold no_cmds. rewrite length_app. simpl. lia. }
  rewrite E1. cbn [exec_cmds Nat.add]. rewrite He. cbn [List.length Nat.eqb].
  unfold bind, stderr, emit, ret. simpl.
  eexists. exists new1. split; [reflexivity|]. simpl.
  split. { now rewrite T1, <- app_assoc. }
  split; [|exact Q1]. rewrite V1. cbn [Nat.eqb andb Nat.add].
  now destruct (List.length pre =? 0)%nat.
Qed.

End Pipeline.

(** ** The sweep, in closed form *)

Lemma sigchld_loop_spec q :
  forall k s, pending s = q -> (List.length q < k)%nat ->
    sigchld_loop k s = Returned tt (swept s).
Proof.
  induction q as [|[p st] q IH]; intros k s Hq Hk; (destruct k as [|k]; [simpl in Hk; lia|]).
  - simpl. unfold bind, sys_waitpid_any_nohang, swept, sweep_reports. rewrite Hq. simpl.
    unfold ret. f_equal. destruct s; unfold with_pending, with_trace; simpl in *.
    now rewrite app_nil_r, Hq.
  - simpl. unfold bind at 1. unfold sys_waitpid_any_nohang. rewrite Hq.
    unfold bind at 1. rewrite print_status_report.
    rewrite IH with (k := k); [|reflexivity | simpl in Hk; lia].
    unfold swept, sweep_reports. simpl. rewrite Hq. simpl.
    now rewrite <- app_assoc.
Qed.

Lemma sigchld_handler_spec s : sigchld_handler s = Returned tt (swept s).
Proof. unfold sigchld_handler. apply (sigchld_loop_spec (pending s)); [reflexivity | lia]. Qed.

Lemma swept_swept s : swept (swept s) = swept s.
Proof.
  unfold swept, sweep_reports. simpl. destruct s; unfold with_pending, with_trace; simpl.
  now rewrite app_nil_r.
Qed.

Lemma report_of_about pid p st :
  (reports_about pid (report_of p st) <= (if (p =? pid)%Z then 1 else 0))%nat.
Proof.
  unfold reports_about, report_of.
  destruct (WIFEXITED st); [|destruct (WIFSIGNALED st); [|destruct (WIFSTOPPED st)]];
    simpl; destruct (p =? pid); simpl; lia.
Qed.

Lemma sweep_reports_about pid q :
  (reports_about pid (sweep_reports q) <= changes_of pid q)%nat.
Proof.
  induction q as [|[p st] q IH]; simpl; [unfold reports_about; simpl; lia|].
  unfold reports_about, changes_of in *. simpl.
  rewrite filter_app, length_app.
  pose proof (report_of_about pid p st) as H. unfold reports_about in H.
  destruct (p =? pid); simpl; lia.
Qed.

(** A stopped child is reported as stopped. *)
Lemma report_of_stopped c_pid st :
  WIFSTOPPED st = true -> report_of c_pid st = [Stdout (Stopped c_pid)].
Proof.
  unfold report_of, WIFSTOPPED, WIFEXITED, WIFSIGNALED, WTERMSIG. intros H.
  apply Z.eqb_eq in H.
  assert (E : Z.land st 127 = 127).
  { change 127 with (Z.land 255 127) at 1. rewrite Z.land_assoc, H. reflexivity. }
  rewrite E, H. reflexivity.
Qed.

Lemma exec_cmdline_unfold w fuel line :
  exec_cmdline w (S fuel) line
  = exec_cmds w (exec_cmdline w fuel) (tokenize line "|") 0
      (List.length (tokenize line "|")).
Proof. reflexivity. Qed.

(** ** Fresh process ids are an invariant *)

Section Invariant.

Variable w : world.

Lemma keeps_ret {A : Type} (a : A) : keeps (ret a).
Proof. intros s H. exact H. Qed.

Lemma keeps_exit {A : Type} code : keeps (@exit A code).
Proof. intros s H. exact H. Qed.

Lemma keeps_bind {A B : Type} (m : M A) (k : A -> M B) :
  keeps m -> (forall a, keeps (k a)) -> keeps (bind m k).
Proof.
  intros Hm Hk s H. unfold bind. specialize (Hm s H).
  destruct (m s) as [a s'| | |]; [apply Hk; exact Hm | exact Hm | exact I | exact I].
Qed.

Lemma keeps_when b m : keeps m -> keeps (when b m).
Proof. destruct b; [auto | intros _; apply keeps_ret]. Qed.

(** A step that touches neither the kernel's table nor its pid counter. *)
Lemma keeps_same {A : Type} (m : M A) :
  (forall s, exists a s', m s = Returned a s'
     /\ pending s' = pending s /\ next_pid s' = next_pid s) ->
  keeps m.
Proof.
  intros H s Hwf. destruct (H s) as (a & s' & E & P & N). rewrite E.
  unfold well_formed. now rewrite P, N.
Qed.

Lemma keeps_emit e : keeps (emit e).
Proof. apply keeps_same. intros s. now eexists _, _. Qed.

Lemma take_pid_sublist pid q st q' :
  take_pid pid q = Some (st, q') -> forall e, In e q' -> In e q.
Proof.
  revert q'. induction q as [|[p x] q IH]; intros q' H e He; simpl in H; [discriminate|].
  destruct (p =? pid).
  - inversion H; subst. now right.
  - destruct (take_pid pid q) as [[st' q'']|]; [|discriminate].
    inversion H; subst. destruct He as [<-|He]; [now left | right; eauto].
Qed.

Lemma keeps_sys_waitpid pid : keeps (sys_waitpid pid).
Proof.
  intros s H. unfold sys_waitpid.
  destruct (take_pid pid (pending s)) as [[st q]|] eqn:E; [|exact H].
  unfold well_formed in *. simpl. rewrite Forall_forall in *.
  intros e He. apply H. eapply take_pid_sublist; eassumption.
Qed.

Lemma keeps_sys_fork cmd child status : keeps (sys_fork w cmd child status).
Proof.
  intros s H. unfold sys_fork. destruct (fork_ok w (next_pid s)); [|exact H].
  match goal with |- context [child_effect w ?a ?x] =>
    destruct (child_effect_fields w a x) as (_ & P & N & _) end.
  unfold well_formed. rewrite P, N. simpl.
  apply Forall_app. split.
  - eapply Forall_impl; [|exact H]. simpl. intros; lia.
  - repeat constructor. simpl. lia.
Qed.

Lemma keeps_sys_tcsetpgrp pgid : keeps (sys_tcsetpgrp w pgid).
Proof.
  apply keeps_same. intros s. unfold sys_tcsetpgrp.
  destruct (tcsetpgrp_ok w pgid); now eexists _, _.
Qed.

Lemma keeps_print_status c_pid status : keeps (print_status c_pid status).
Proof.
  apply keeps_same. intros s. rewrite print_status_report. now eexists _, _.
Qed.

Lemma keeps_sigchld_handler : keeps sigchld_handler.
Proof. intros s _. rewrite sigchld_handler_spec. constructor. Qed.

Lemma keeps_c_wait c_pid t0 cont : keeps (c_wait w c_pid t0 cont).
Proof.
  unfold c_wait, sys_kill, perror, stderr, stdout.
  repeat first
    [ apply keeps_ret | apply keeps_emit | apply keeps_when
    | apply keeps_sys_tcsetpgrp | apply keeps_sys_waitpid | apply keeps_print_status
    | apply keeps_bind; [|intros ?]
    | match goal with |- keeps (match ?x with _ => _ end) => destruct x end ].
Qed.

Lemma keeps_alloc_pipes k : keeps (alloc_pipes w k).
Proof.
  induction k as [|k IH]; simpl; [apply keeps_ret|].
  apply keeps_bind.
  - apply keeps_same. intros s. unfold sys_pipe.
    destruct (pipe_ok w (next_fd s)); now eexists _, _.
  - intros [fd|].
    + apply keeps_bind; [|intros _; exact IH].
      apply keeps_same. intros s. now eexists _, _.
    + apply keeps_bind; [apply keeps_emit | intros _; apply keeps_exit].
Qed.

Lemma keeps_fork_exec_wait args cmd no_cmds background :
  keeps (fork_exec_wait w args cmd no_cmds background).
Proof.
  unfold fork_exec_wait, sys_close, stdout, stderr, get.
  repeat first
    [ apply keeps_ret | apply keeps_exit | apply keeps_emit | apply keeps_when
    | apply keeps_alloc_pipes | apply keeps_sys_fork | apply keeps_c_wait
    | apply keeps_bind; [|intros ?]
    | match goal with |- keeps (match ?x with _ => _ end) => destruct x end
    | (apply keeps_same; intros ?; now eexists _, _) ].
Qed.

Lemma keeps_kill_children tbl : forall pid ppid, keeps (kill_children w tbl pid ppid).
Proof.
  induction tbl as [|[d_name file] tbl IH]; intros pid ppid; simpl; [apply keeps_ret|].
  destruct (starts_with_digit d_name); [|apply IH].
  destruct file as [content|]; [|intros s _; exact I].
  unfold sys_kill, perror, stderr.
  repeat first
    [ apply IH | apply keeps_ret | apply keeps_emit | apply keeps_when
    | apply keeps_bind; [|intros ?] ].
Qed.

Section Below.

Variable nested : string -> M nat.
Hypothesis nested_keeps : forall line, keeps (nested line).

Lemma keeps_exec_cmd args no_args cmd no_cmds :
  keeps (exec_cmd w nested args no_args cmd no_cmds).
Proof.
  unfold exec_cmd, check_env, change_dir, term_all, put_fg, stdout, stderr.
  repeat first
    [ apply keeps_ret | apply keeps_exit | apply keeps_emit | apply keeps_when
    | apply keeps_fork_exec_wait | apply keeps_c_wait | apply keeps_kill_children
    | apply keeps_sigchld_handler | apply nested_keeps
    | apply keeps_bind; [|intros ?]
    | match goal with |- keeps (match ?x with _ => _ end) => destruct x end ].
Qed.

Lemma keeps_exec_cmds cmds :
  forall i no_cmds, keeps (exec_cmds w nested cmds i no_cmds).
Proof.
  induction cmds as [|c cmds IH]; intros i no_cmds; simpl; [apply keeps_ret|].
  unfold stderr.
  repeat first
    [ apply IH | apply keeps_ret | apply keeps_emit | apply keeps_exec_cmd
    | apply keeps_bind; [|intros ?]
    | match goal with |- keeps (match ?x with _ => _ end) => destruct x end ].
Qed.

End Below.

(** Whatever line is run, in a state where the pending children have pids
    below the next one, the state it leaves is such a state again. *)
Lemma exec_cmdline_keeps fuel : forall line, keeps (exec_cmdline w fuel line).
Proof.
  induction fuel as [|fuel IH]; intros line.
  - intros s _. exact I.
  - rewrite exec_cmdline_unfold. now apply keeps_exec_cmds.
Qed.

End Invariant.

(** ** The dispatcher on a single stage *)

Section Dispatch.

Variable w : world.
Variable nested : string -> M nat.

Lemma builtin_name_false name :
  builtin_name name = false ->
  String.eqb name "cd" = false /\ String.eqb name "checkEnv" = false
  /\ String.eqb name "exit" = false /\ String.eqb name "fg" = false.
Proof.
  unfold builtin_name. intros H.
  apply orb_false_elim in H. destruct H as [H H4].
  apply orb_false_elim in H. destruct H as [H H3].
  apply orb_false_elim in H. tauto.
Qed.

Lemma arg_str_head (pre post : list string) :
  pre <> [] -> arg_str (pre ++ post) 0 = arg_str pre 0.
Proof. destruct pre; [congruence | reflexivity]. Qed.

(** A command that ends in the marker: the marker goes, the rest is spawned
    in the background. *)
Lemma exec_cmd_background pre cmd :
  pre <> [] -> builtin_name (arg_str pre 0) = false ->
  exec_cmd w nested (pre ++ ["&"]) (List.length (pre ++ ["&"])) cmd 1
  = fork_exec_wait w pre cmd 1 true.
Proof.
  intros Hne Hb. unfold exec_cmd. rewrite arg_str_head by assumption.
  destruct (builtin_name_false _ Hb) as (H1 & H2 & H3 & H4).
  rewrite H1, H2, H3, H4. cbn [Nat.eqb].
  rewrite length_app. cbn [List.length].
  replace (List.length pre + 1 - 1)%nat with (List.length pre) by lia.
  unfold arg_str at 1. rewrite nth_middle. cbn [String.eqb Ascii.eqb Bool.eqb].
  replace (2 <=? List.length pre + 1)%nat with true.
  - now rewrite firstn_app, firstn_all, Nat.sub_diag, app_nil_r.
  - symmetry. apply Nat.leb_le. destruct pre; [congruence | simpl; lia].
Qed.

(** A command that does not end in the marker is spawned as it is. *)
Lemma exec_cmd_foreground args cmd :
  builtin_name (arg_str args 0) = false ->
  String.eqb (arg_str args (List.length args - 1)) "&" = false ->
  exec_cmd w nested args (List.length args) cmd 1 = fork_exec_wait w args cmd 1 false.
Proof.
  intros Hb Hm. unfold exec_cmd.
  destruct (builtin_name_false _ Hb) as (H1 & H2 & H3 & H4).
  now rewrite H1, H2, H3, H4, Hm.
Qed.

(** Every list that ends in the marker and is more than the marker. *)
Lemma ends_in_marker args :
  args <> [] -> args <> ["&"] ->
  String.eqb (arg_str args (List.length args - 1)) "&" = true ->
  exists pre, pre <> [] /\ args = pre ++ ["&"].
Proof.
  intros Hne Hlone Hm.
  destruct (exists_last Hne) as (pre & a & E). subst args.
  rewrite length_app in Hm. cbn [List.length] in Hm.
  replace (List.length pre + 1 - 1)%nat with (List.length pre) in Hm by lia.
  unfold arg_str in Hm. rewrite nth_middle in Hm. apply String.eqb_eq in Hm. subst a.
  exists pre. split; [|reflexivity]. intros ->. now apply Hlone.
Qed.

Lemma exec_cmd_external args s :
  resources_ok w -> args <> [] -> external_command args ->
  exists s' new rv,
    exec_cmd w nested args (List.length args) 1 1 s = Returned rv s'
    /\ trace s' = trace s ++ new
    /\ spawn_view new = [Forked 1%nat].
Proof.
  intros Hr Hne [Hb Hlone].
  destruct (String.eqb (arg_str args (List.length args - 1)) "&") eqn:Hm.
  - destruct (ends_in_marker args Hne Hlone Hm) as (pre & Hpre & ->).
    rewrite arg_str_head in Hb by assumption.
    rewrite exec_cmd_background by assumption.
    destruct (fork_exec_wait_spawn w pre 1 1 true s Hr eq_refl)
      as (s' & new & E & T & V & _).
    exists s', new, 0. now rewrite E.
  - rewrite exec_cmd_foreground by assumption.
    destruct (fork_exec_wait_last w args 1 s Hr)
      as (s' & new & st & E & T & V & _).
    exists s', new. eexists. split; [exact E|]. now split.
Qed.

End Dispatch.

Lemma demo_resources : resources_ok demo_world.
Proof. split; reflexivity. Qed.

Lemma demo_well_formed : well_formed demo_state.
Proof. constructor. Qed.

(** ** Pipelines: what is reported, what is spawned *)

Lemma fork_in_spawn_view pid cmd child t :
  In (Fork pid cmd child) t -> In (Forked cmd) (spawn_view t).
Proof.
  intros H. unfold spawn_view. apply in_flat_map.
  exists (Fork pid cmd child). split; [assumption | now left].
Qed.

Lemma forked_in_plan cmd k (pipes : list spawn_step) :
  Forall (fun x => x = Made_pipe) pipes ->
  In (Forked cmd) (pipes ++ map Forked (seq 1 k)) -> (1 <= cmd <= k)%nat.
Proof.
  intros Hp H. apply in_app_or in H. destruct H as [H|H].
  - rewrite Forall_forall in Hp. specialize (Hp _ H). discriminate.
  - apply in_map_iff in H. destruct H as (x & E & Hx). inversion E; subst.
    apply in_seq in Hx. lia.
Qed.

(** C1. For a foreground pipeline of two or more stages, each with a program
    name, [exec_cmdline] waits for the last stage and reports failure (a
    non-zero result, then the number of the last stage) exactly when the
    status that wait delivers has exit status [EXIT_FAILURE].  Whether an
    earlier stage could replace its program image plays no part: with a last
    stage that does not fail the result is 0 even if an earlier [execvp]
    failed. *)
Theorem pipeline_failed_iff_last_stage_failed w fuel line pre cl s :
  tokenize line "|" = pre ++ [cl] ->
  pre <> [] -> Forall has_args pre -> has_args cl ->
  resources_ok w -> well_formed s ->
  exists r s' new,
    exec_cmdline w (S fuel) line s = Returned r s'
    /\ trace s' = trace s ++ new
    /\ In (Waitpid (next_pid s + Z.of_nat (List.length pre))) new
    /\ (r <> 0%nat <->
        WEXITSTATUS (child_status w (tokenize cl " ")
                       (next_pid s + Z.of_nat (List.length pre))) = EXIT_FAILURE)
    /\ (r <> 0%nat -> r = List.length (pre ++ [cl]))
    /\ (forall c, In c pre -> execvp_ok w (tokenize c " ") = false ->
        WEXITSTATUS (child_status w (tokenize cl " ")
                       (next_pid s + Z.of_nat (List.length pre))) <> EXIT_FAILURE ->
        r = 0%nat).
Proof.
  intros Hline Hne Hpre Hcl Hr Hwf.
  rewrite exec_cmdline_unfold, Hline, length_app. cbn [List.length].
  destruct (exec_cmds_pipeline w (exec_cmdline w fuel) pre cl s Hr Hne Hpre Hcl)
    as (s' & new & st & E & T & _ & I & _ & W).
  destruct (W Hwf) as [Est _]. subst st.
  eexists _, s', new. split; [exact E|]. split; [exact T|]. split; [exact I|].
  destruct (Z.eqb_spec
    (WEXITSTATUS (child_status w (tokenize cl " ")
                    (next_pid s + Z.of_nat (List.length pre)))) EXIT_FAILURE) as [F|F].
  - split; [split; [intros _; exact F | intros _; lia]|].
    split; [reflexivity | intros; contradiction].
  - split; [split; [intros H; now elim H | intros; contradiction]|].
    split; [intros H; now elim H | reflexivity].
Qed.

Lemma pipeline_first_stage_not_found :
  exists s',
    exec_cmdline demo_world 1 "nosuch | sort | wc" demo_state = Returned 0%nat s'
    /\ execvp_ok demo_world (tokenize "nosuch " " ") = false.
Proof.
  destruct (pipeline_failed_iff_last_stage_failed demo_world 0
              "nosuch | sort | wc" ["nosuch "; " sort "] " wc" demo_state)
    as (r & s' & new & E & _ & _ & _ & _ & H).
  - reflexivity.
  - discriminate.
  - repeat constructor; discriminate.
  - discriminate.
  - split; reflexivity.
  - constructor.
  - exists s'. split; [|reflexivity].
    rewrite E. f_equal. apply (H "nosuch "); [now left | reflexivity | discriminate].
Defined.

(** C2, as stated, fails on lines of one stage, N = 1.  The built-in [cd] is
    run by the shell itself and the lone marker is refused: for neither is a
    process forked, where the plan for one stage has one fork.  It fails as
    well on a line with a stage that has no program name, here the second of
    two, for which nothing is forked; and where the kernel refuses a pipe,
    here the second of two, the shell exits before any fork. *)
Lemma unspawned_stages :
  List.length (tokenize "cd" "|") = 1%nat
  /\ ~ spawns_as_planned demo_world 2 "cd" demo_state
  /\ List.length (tokenize "&" "|") = 1%nat
  /\ ~ spawns_as_planned demo_world 2 "&" demo_state
  /\ List.length (tokenize "ls | " "|") = 2%nat
  /\ ~ spawns_as_planned demo_world 2 "ls | " demo_state
  /\ List.length (tokenize "ls | sort | wc" "|") = 3%nat
  /\ ~ spawns_as_planned scarce_world 2 "ls | sort | wc" demo_state.
Proof.
  repeat split; try reflexivity;
    intros (r & s' & new & E & T & V);
    vm_compute in E; inversion E; subst; simpl in T;
    subst new; vm_compute in V; discriminate.
Qed.

(** C2, amended. For every N in [1,63], a line of N stages that keeps
    within the limits of the shell's arrays (at most [MAX_ARGS] arguments a
    stage, [STR_LEN] characters in all), each stage with a program name and,
    when N = 1, neither a built-in nor the lone marker, makes exactly N-1
    pipes, all before the first fork, and then forks exactly the stages 1..N
    in this order, provided the kernel grants every pipe and every fork. *)
Theorem external_pipeline_spawns_as_planned w fuel line s :
  (1 <= List.length (tokenize line "|") <= MAX_CMDS)%nat ->
  within_limits line ->
  Forall has_args (tokenize line "|") ->
  (forall c, tokenize line "|" = [c] -> external_command (tokenize c " ")) ->
  resources_ok w ->
  spawns_as_planned w (S fuel) line s.
Proof.
  intros [Hn _] _ Hargs Hext Hr. unfold spawns_as_planned.
  rewrite exec_cmdline_unfold.
  destruct (tokenize line "|") as [|c0 stages] eqn:Hline; [simpl in Hn; lia|].
  destruct stages as [|c1 stages].
  - (* one stage *)
    inversion Hargs as [|? ? Hc _]; subst.
    cbn [exec_cmds List.length Nat.add].
    destruct (Nat.eqb_spec (List.length (tokenize c0 " ")) 0) as [E0|_].
    { exfalso. apply Hc. now apply tokenize_nil_length. }
    destruct (exec_cmd_external w (exec_cmdline w fuel) (tokenize c0 " ") s Hr Hc
                (Hext c0 eq_refl)) as (s' & new & rv & E & T & V).
    step E.
    destruct (rv =? -1).
    + unfold bind, stderr, emit, ret. simpl.
      eexists _, _, (new ++ [_]). split; [reflexivity|]. simpl.
      split; [now rewrite T, <- app_assoc|].
      rewrite spawn_view_app, V. reflexivity.
    + eexists _, s', new. split; [reflexivity|]. now split.
  - (* several stages *)
    assert (Hne : c0 :: c1 :: stages <> []) by discriminate.
    destruct (exists_last Hne) as (pre & cl & E). rewrite E in *.
    apply Forall_app in Hargs. destruct Hargs as [Hpre Hcl].
    inversion Hcl; subst.
    assert (Hpre_ne : pre <> []).
    { intros ->. discriminate. }
    rewrite length_app. cbn [List.length].
    destruct (exec_cmds_pipeline w (exec_cmdline w fuel) pre cl s Hr Hpre_ne Hpre)
      as (s' & new & st & E' & T & V & _); [assumption|].
    eexists _, s', new. split; [exact E'|]. now split.
Qed.

Lemma external_pipeline_spawns_as_planned_demo :
  spawns_as_planned demo_world 1 "ls -l | grep rocq | wc" demo_state.
Proof.
  apply external_pipeline_spawns_as_planned.
  - vm_compute. split; apply Nat.leb_le; reflexivity.
  - in_limits.
  - repeat constructor; discriminate.
  - discriminate.
  - split; reflexivity.
Defined.

Lemma filter_forked_pipes l :
  Forall (fun x => x = Made_pipe) l -> filter is_forked l = [].
Proof. induction 1 as [|x l Hx _ IH]; [reflexivity | now subst x]. Qed.

Lemma filter_forked_map l : filter is_forked (map Forked l) = map Forked l.
Proof. induction l as [|a l IH]; simpl; [reflexivity | now rewrite IH]. Qed.

(** C3. If stage i of the line is the first to tokenize to zero arguments,
    [exec_cmdline] prints "Empty command" and returns i; processes were
    forked for the stages before i only, none for stage i or a later one. *)
Theorem empty_stage_fails_pipeline w fuel line pre e post s :
  tokenize line "|" = pre ++ e :: post ->
  Forall has_args pre -> tokenize e " " = [] ->
  resources_ok w ->
  exists s' new,
    exec_cmdline w (S fuel) line s = Returned (List.length pre + 1)%nat s'
    /\ trace s' = trace s ++ new ++ [Stderr Empty_command]
    /\ filter is_forked (spawn_view new) = map Forked (seq 1 (List.length pre))
    /\ (forall pid cmd child, In (Fork pid cmd child) new ->
        (1 <= cmd <= List.length pre)%nat).
Proof.
  intros Hline Hpre He Hr.
  rewrite exec_cmdline_unfold, Hline.
  destruct (exec_cmds_empty_stage w (exec_cmdline w fuel) pre e post s Hr Hpre He)
    as (s' & new & E & T & V & _).
  exists s', new. split; [exact E|]. split; [exact T|].
  assert (Hpipes : forall k, Forall (fun x => x = Made_pipe)
      (if (List.length pre =? 0)%nat then [] else repeat Made_pipe k)).
  { intros k. destruct (List.length pre =? 0)%nat; [constructor|].
    apply Forall_forall. intros x Hx. now apply repeat_spec in Hx. }
  split.
  - rewrite V, filter_app, filter_forked_pipes, filter_forked_map by apply Hpipes.
    reflexivity.
  - intros pid cmd child Hin. apply fork_in_spawn_view in Hin. rewrite V in Hin.
    eapply forked_in_plan; [apply Hpipes | exact Hin].
Qed.

Lemma empty_stage_fails_pipeline_demo :
  exists s',
    exec_cmdline demo_world 1 "ls | | wc" demo_state = Returned 2%nat s'.
Proof.
  destruct (empty_stage_fails_pipeline demo_world 0 "ls | | wc"
              ["ls "] " " [" wc"] demo_state) as (s' & new & E & _).
  - reflexivity.
  - repeat constructor; discriminate.
  - reflexivity.
  - split; reflexivity.
  - exists s'. exact E.
Defined.

(** ** Background commands *)

Lemma fork_exec_wait_background w args s :
  fork_ok w (next_pid s) = true ->
  fork_exec_wait w args 1 1 true s = Returned 0 (background_spawned w args s).
Proof.
  intros Hf. unfold fork_exec_wait, bind, when, get, sys_fork, stdout, emit, ret.
  simpl. rewrite Hf. simpl. unfold background_spawned, with_trace. simpl.
  now rewrite <- app_assoc.
Qed.

(** C4. A single stage that is not a built-in and ends in the marker "&"
    (with something before it) is spawned without the marker, in background
    mode; the line that is the marker alone fails at stage 1 and forks
    nothing. *)
Theorem background_marker_is_stripped w nested pre s :
  pre <> [] -> builtin_name (arg_str pre 0) = false ->
  fork_ok w (next_pid s) = true ->
  exec_cmd w nested (pre ++ ["&"]) (List.length (pre ++ ["&"])) 1 1 s
  = Returned 0 (background_spawned w pre s)
  /\ exec_cmd w nested ["&"] 1 1 1 s = Returned (-1) s
  /\ (forall fuel line c,
        tokenize line "|" = [c] -> tokenize c " " = ["&"] ->
        exec_cmdline w (S fuel) line s
        = Returned 1%nat (with_trace s (trace s ++ [Stderr (Command_failed "&")]))).
Proof.
  intros Hne Hb Hf. split; [|split].
  - rewrite exec_cmd_background by assumption. now apply fork_exec_wait_background.
  - reflexivity.
  - intros fuel line c Hl Hc. rewrite exec_cmdline_unfold, Hl.
    cbn [exec_cmds List.length Nat.add]. rewrite Hc. reflexivity.
Qed.

Lemma background_marker_is_stripped_demo :
  exec_cmd demo_world (exec_cmdline demo_world 1) ["sleep"; "5"; "&"] 3 1 1 demo_state
  = Returned 0 (background_spawned demo_world ["sleep"; "5"] demo_state).
Proof.
  apply (background_marker_is_stripped demo_world (exec_cmdline demo_world 1)
           ["sleep"; "5"] demo_state); [discriminate | reflexivity | reflexivity].
Defined.

(** C9. A single-stage background command: once the child is forked
    [exec_cmd] returns 0 whatever the child's status is, and it neither
    waits for the child nor reports on it.  The child's state change stays
    with the kernel until a sweep collects it; a child whose [execvp] failed
    is then reported as terminated normally. *)
Theorem background_result_ignores_child w nested pre s :
  pre <> [] -> builtin_name (arg_str pre 0) = false ->
  fork_ok w (next_pid s) = true ->
  exists s' new,
    exec_cmd w nested (pre ++ ["&"]) (List.length (pre ++ ["&"])) 1 1 s = Returned 0 s'
    /\ trace s' = trace s ++ new
    /\ quiet new
    /\ reports_about (next_pid s) new = 0%nat
    /\ pending s' = pending s ++ [(next_pid s, child_status w pre (next_pid s))]
    /\ sigchld_handler s' = Returned tt (swept s')
    /\ trace (swept s')
       = trace s' ++ sweep_reports (pending s)
         ++ report_of (next_pid s) (child_status w pre (next_pid s))
    /\ (execvp_ok w pre = false ->
        report_of (next_pid s) (child_status w pre (next_pid s))
        = [Stdout (Terminated_normally (next_pid s))]).
Proof.
  intros Hne Hb Hf.
  exists (background_spawned w pre s). eexists.
  split. { rewrite exec_cmd_background by assumption. now apply fork_exec_wait_background. }
  split. { reflexivity. }
  split. { repeat constructor. }
  split. { reflexivity. }
  split. { reflexivity. }
  split. { apply sigchld_handler_spec. }
  split.
  { unfold swept, sweep_reports. simpl. rewrite flat_map_app. simpl.
    now rewrite app_nil_r. }
  intros Hx. unfold child_status. rewrite Hx. reflexivity.
Qed.

Lemma background_result_ignores_child_demo :
  exists s',
    exec_cmd demo_world (exec_cmdline demo_world 1) ["nosuch"; "&"] 2 1 1 demo_state
    = Returned 0 s'
    /\ pending s' = [(101, W_EXITCODE EXIT_FAILURE 0)].
Proof.
  destruct (background_result_ignores_child demo_world (exec_cmdline demo_world 1)
              ["nosuch"] demo_state) as (s' & new & E & _ & _ & _ & P & _).
  - discriminate.
  - reflexivity.
  - reflexivity.
  - exists s'. split; [exact E | exact P].
Defined.

(** ** The terminal after a synchronous wait *)

(** C5. [c_wait] always returns, and the last thing it does is to ask for the
    terminal's foreground group to be the shell's own group again: whatever
    the wait delivered (an exit, a signal, a stop, or a failure of the wait
    itself), and whether or not it first continued the child.  When the
    terminal takes the request, the foreground group is the shell's on
    return.  A child that merely stopped is reported as stopped, and the
    reclaim follows all the same. *)
Theorem c_wait_reclaims_terminal w c_pid t0 cont s :
  exists status s' before,
    c_wait w c_pid t0 cont s = Returned status s'
    /\ trace s' = trace s ++ before ++ reclaim_events w
    /\ (tcsetpgrp_ok w (getpgid w (shell_pid w)) = true ->
        tty_fg s' = getpgid w (shell_pid w))
    /\ (forall st q, take_pid c_pid (pending s) = Some (st, q) ->
        WIFSTOPPED st = true ->
        status = st /\ In (Stdout (Stopped c_pid)) before).
Proof.
  destruct (c_wait_spec w c_pid t0 cont s) as (s' & E & T & G & _).
  eexists _, s', _. split; [exact E|]. split; [exact T|]. split; [exact G|].
  intros st q Hq Hst. rewrite Hq. simpl. split; [reflexivity|].
  apply in_or_app. right. right. apply in_or_app. left.
  rewrite (report_of_stopped _ _ Hst). now left.
Qed.

Lemma c_wait_stopped_child :
  exists s',
    c_wait demo_world 101 true false
      (with_pending (with_tty_fg demo_state 101) [(101, W_STOPCODE 20)])
    = Returned (W_STOPCODE 20) s'
    /\ tty_fg s' = 100.
Proof.
  destruct (c_wait_reclaims_terminal demo_world 101 true false
              (with_pending (with_tty_fg demo_state 101) [(101, W_STOPCODE 20)]))
    as (status & s' & before & E & _ & G & S).
  exists s'. split.
  - rewrite E. f_equal. apply (S (W_STOPCODE 20) []); reflexivity.
  - apply G. reflexivity.
Defined.

(** ** Reaping *)

Lemma take_pid_changes pid q :
  match take_pid pid q with
  | Some (_, q') => changes_of pid q = S (changes_of pid q')
  | None => changes_of pid q = 0%nat
  end.
Proof.
  induction q as [|[p st] q IH]; simpl; [reflexivity|].
  unfold changes_of in *. simpl.
  destruct (p =? pid) eqn:E; [reflexivity|].
  destruct (take_pid pid q) as [[st' q']|]; simpl.
  - rewrite E. exact IH.
  - exact IH.
Qed.

(** C6. A sweep always ends; it collects every pending state change and
    reports about a child at most as many times as that child has pending
    changes (so nothing about a child that was already reaped); after it
    nothing is pending, and a further sweep reports nothing at all.  Nor
    does a sweep report about a child whose one pending change a synchronous
    wait has collected. *)
Theorem sweep_reports_each_change_once s :
  sigchld_handler s = Returned tt (swept s)
  /\ trace (swept s) = trace s ++ sweep_reports (pending s)
  /\ pending (swept s) = []
  /\ (forall pid,
        (reports_about pid (sweep_reports (pending s)) <= changes_of pid (pending s))%nat)
  /\ (forall pid, changes_of pid (pending s) = 0%nat ->
        reports_about pid (sweep_reports (pending s)) = 0%nat)
  /\ sigchld_handler (swept s) = Returned tt (swept s)
  /\ (forall w c_pid t0 cont, exists status s1,
        c_wait w c_pid t0 cont s = Returned status s1
        /\ ((changes_of c_pid (pending s) <= 1)%nat ->
            reports_about c_pid (sweep_reports (pending s1)) = 0%nat)).
Proof.
  split; [apply sigchld_handler_spec|].
  split; [reflexivity|]. split; [reflexivity|].
  split; [intros pid; apply sweep_reports_about|].
  split; [|split].
  - intros pid H. pose proof (sweep_reports_about pid (pending s)). lia.
  - rewrite sigchld_handler_spec. now rewrite swept_swept.
  - intros w c_pid t0 cont.
    destruct (c_wait_spec w c_pid t0 cont s) as (s1 & E & _ & _ & P & _).
    eexists _, s1. split; [exact E|]. intros H.
    pose proof (take_pid_changes c_pid (pending s)) as C.
    pose proof (sweep_reports_about c_pid (pending s1)) as B.
    rewrite P in *. destruct (take_pid c_pid (pending s)) as [[st q]|]; lia.
Qed.

(** ** Built-ins *)

(** C7. With a built-in name as the program of the stage: in a pipeline of
    several stages it is spawned like any program; in a pipeline of one
    stage it is run as the built-in when the argument count matches ([cd]:
    1 or 2, [checkEnv]: 1 or 2, [exit]: 1, [fg]: 2), and with any other
    count (at least the name itself) the stage fails with nothing done:
    no fork, no event at all. *)
Theorem builtins_by_argument_count w nested args no_args cmd no_cmds s :
  builtin_name (arg_str args 0) = true ->
  (1 <= no_args)%nat ->
  (no_cmds <> 1%nat ->
   exec_cmd w nested args no_args cmd no_cmds s
   = fork_exec_wait w args cmd no_cmds false s)
  /\ (no_cmds = 1%nat -> recognized (arg_str args 0) no_args = true ->
      exec_cmd w nested args no_args cmd no_cmds s
      = (builtin_action w nested args no_args ;; ret 0) s)
  /\ (no_cmds = 1%nat -> recognized (arg_str args 0) no_args = false ->
      exec_cmd w nested args no_args cmd no_cmds s = Returned (-1) s).
Proof.
  intros Hb Hn. split; [|split].
  - intros H. now rewrite exec_cmd_piping.
  - intros -> Hrec. unfold exec_cmd, builtin_action, recognized, builtin_arities in *.
    cbn [Nat.eqb].
    destruct (String.eqb (arg_str args 0) "cd").
    { destruct no_args as [|[|[|k]]]; try discriminate; try lia; reflexivity. }
    destruct (String.eqb (arg_str args 0) "checkEnv").
    { destruct no_args as [|[|[|k]]]; try discriminate; try lia; reflexivity. }
    destruct (String.eqb (arg_str args 0) "exit").
    { destruct no_args as [|[|k]]; try discriminate; try lia; reflexivity. }
    destruct (String.eqb (arg_str args 0) "fg") eqn:E4.
    { destruct no_args as [|[|[|k]]]; try discriminate; try lia; reflexivity. }
    discriminate.
  - intros -> Hrec. unfold exec_cmd, recognized, builtin_arities, builtin_name in *.
    cbn [Nat.eqb].
    destruct (String.eqb (arg_str args 0) "cd").
    { destruct no_args as [|[|[|k]]]; try discriminate; try lia; reflexivity. }
    destruct (String.eqb (arg_str args 0) "checkEnv").
    { destruct no_args as [|[|[|k]]]; try discriminate; try lia; reflexivity. }
    destruct (String.eqb (arg_str args 0) "exit").
    { destruct no_args as [|[|k]]; try discriminate; try lia; reflexivity. }
    destruct (String.eqb (arg_str args 0) "fg").
    { destruct no_args as [|[|[|k]]]; try discriminate; try lia; reflexivity. }
    discriminate.
Qed.

Lemma builtins_by_argument_count_demo :
  exec_cmd demo_world (exec_cmdline demo_world 1) ["fg"] 1 1 1 demo_state
  = Returned (-1) demo_state
  /\ exec_cmd demo_world (exec_cmdline demo_world 1) ["cd"; "/tmp"] 2 1 1 demo_state
     = Returned 0 (with_trace demo_state [Chdir "/tmp"]).
Proof.
  destruct (builtins_by_argument_count demo_world (exec_cmdline demo_world 1)
              ["fg"] 1 1 1 demo_state) as (_ & _ & H); [reflexivity | lia |].
  destruct (builtins_by_argument_count demo_world (exec_cmdline demo_world 1)
              ["cd"; "/tmp"] 2 1 1 demo_state) as (_ & H2 & _); [reflexivity | lia |].
  split.
  - apply H; reflexivity.
  - rewrite H2; reflexivity.
Defined.

(** ** The pager of the environment listing *)

Lemma strtok_free delim word input tok :
  free_of delim word = true ->
  strtok delim (word ++ input)%string tok = strtok delim input (tok ++ word)%string.
Proof.
  intros H. apply strtok_word. intros c Hc Hin.
  unfold free_of in H. rewrite forallb_forall in H. specialize (H c Hin).
  rewrite Hc in H. discriminate.
Qed.

Lemma string_app_nil_r (s : string) : (s ++ "")%string = s.
Proof. induction s; simpl; congruence. Qed.

Lemma tokenize_env_plain pager :
  free_of "|" pager = true ->
  tokenize ("printenv | sort | " ++ pager) "|"
  = ["printenv "; " sort "; (" " ++ pager)%string].
Proof.
  intros H. unfold tokenize. simpl.
  rewrite <- (string_app_nil_r pager) at 1. rewrite strtok_free by assumption.
  reflexivity.
Qed.

Lemma tokenize_env_filter f pager :
  free_of "|" f = true -> free_of "|" pager = true ->
  tokenize ("printenv | sort | grep " ++ f ++ " | " ++ pager) "|"
  = ["printenv "; " sort "; (" grep " ++ f ++ " ")%string; (" " ++ pager)%string].
Proof.
  intros Hf Hp. unfold tokenize. simpl.
  rewrite strtok_free by assumption. simpl.
  rewrite <- (string_app_nil_r pager) at 1. rewrite strtok_free by assumption.
  simpl. repeat f_equal.
Qed.

Lemma has_args_grep f : has_args (" grep " ++ f ++ " ").
Proof. unfold has_args, tokenize. simpl. destruct (strtok " " (f ++ " ") ""); discriminate. Qed.

(** The listing pipeline, run: its result is decided by the pager stage. *)
Lemma env_pipeline_result w nested args pager s :
  resources_ok w -> filter_ok args ->
  free_of "|" pager = true -> has_args (" " ++ pager) ->
  exists s' st,
    exec_cmds w nested (tokenize (get_env_cmd args pager) "|") 0
      (List.length (tokenize (get_env_cmd args pager) "|")) s
    = Returned (if WEXITSTATUS st =? EXIT_FAILURE then env_stages args else 0%nat) s'
    /\ (well_formed s ->
        st = child_status w (tokenize (" " ++ pager) " ")
               (next_pid s + Z.of_nat (env_stages args - 1))).
Proof.
  intros Hr Hf Hp Ha. unfold get_env_cmd, env_stages, filter_ok in *.
  destruct (arg args 1) as [f|].
  - rewrite tokenize_env_filter by auto.
    destruct (exec_cmds_pipeline w nested
                ["printenv "; " sort "; (" grep " ++ f ++ " ")%string]
                (" " ++ pager)%string s Hr) as (s' & new & st & E & _ & _ & _ & _ & W).
    + discriminate.
    + repeat constructor; try discriminate; apply has_args_grep.
    + assumption.
    + exists s', st. split; [exact E | exact (fun H => proj1 (W H))].
  - rewrite tokenize_env_plain by auto.
    destruct (exec_cmds_pipeline w nested ["printenv "; " sort "]
                (" " ++ pager)%string s Hr) as (s' & new & st & E & _ & _ & _ & _ & W).
    + discriminate.
    + repeat constructor; discriminate.
    + assumption.
    + exists s', st. split; [exact E | exact (fun H => proj1 (W H))].
Qed.

(** C8. [check_env] runs the listing pipeline with the pager named by PAGER
    when it is set, with [less] otherwise.  A pager other than [less] is
    run once, whatever comes of it.  With [less], if the last stage of the
    pipeline (the pager) fails, as it does when [less] cannot be executed,
    the pipeline is run again with [more]; if it does not fail, that is
    all. *)
Theorem check_env_pager_fallback w fuel args s :
  filter_ok args -> resources_ok w -> well_formed s ->
  let announce pager := stdout (Actual_command_line (get_env_cmd args pager)) in
  let run pager := exec_cmdline w (S fuel) (get_env_cmd args pager) in
  let less_status :=
    child_status w ["less"] (next_pid s + Z.of_nat (env_stages args - 1)) in
  (forall p, getenv w "PAGER" = Some p -> pager_of w = p)
  /\ (getenv w "PAGER" = None -> pager_of w = "less")
  /\ (pager_of w <> "less" ->
      check_env w (exec_cmdline w (S fuel)) args s
      = (announce (pager_of w) ;; run (pager_of w) ;; ret tt) s)
  /\ (pager_of w = "less" -> WEXITSTATUS less_status = EXIT_FAILURE ->
      check_env w (exec_cmdline w (S fuel)) args s
      = (announce "less" ;; run "less" ;; announce "more" ;; run "more" ;; ret tt) s)
  /\ (pager_of w = "less" -> WEXITSTATUS less_status <> EXIT_FAILURE ->
      check_env w (exec_cmdline w (S fuel)) args s
      = (announce "less" ;; run "less" ;; ret tt) s)
  /\ (execvp_ok w ["less"] = false -> WEXITSTATUS less_status = EXIT_FAILURE).
Proof.
  intros Hf Hr Hwf announce run less_status.
  split. { intros p H. unfold pager_of. now rewrite H. }
  split. { intros H. unfold pager_of. now rewrite H. }
  assert (Hless : forall k : nat -> M unit,
    (announce "less" ;; r <- run "less" ;; k r) s
    = (announce "less" ;; run "less" ;;
       k (if WEXITSTATUS less_status =? EXIT_FAILURE then env_stages args else 0%nat)) s).
  { intros k. unfold announce, run.
    set (s1 := with_trace s (trace s ++ [Stdout (Actual_command_line
                                                   (get_env_cmd args "less"))])).
    assert (E0 : stdout (Actual_command_line (get_env_cmd args "less")) s
                 = Returned tt s1) by reflexivity.
    step E0. step E0.
    rewrite exec_cmdline_unfold.
    destruct (env_pipeline_result w (exec_cmdline w fuel) args "less" s1
                Hr Hf eq_refl) as (s' & st & E & W); [discriminate|].
    step E. step E.
    rewrite (W Hwf). reflexivity. }
  split.
  { intros Hp. unfold check_env. fold (pager_of w).
    apply String.eqb_neq in Hp. rewrite Hp.
    unfold announce, run, bind. destruct (stdout _ s); try reflexivity.
    destruct (exec_cmdline w (S fuel) _ s0); try reflexivity.
    now rewrite andb_false_r. }
  split.
  { intros Hp Hfail. unfold check_env. fold (pager_of w). rewrite Hp.
    cbn [String.eqb Ascii.eqb Bool.eqb]. fold (env_stages args).
    fold (announce "less") (run "less") (announce "more") (run "more").
    rewrite Hless.
    apply Z.eqb_eq in Hfail. rewrite Hfail, Nat.eqb_refl. reflexivity. }
  split.
  { intros Hp Hfine. unfold check_env. fold (pager_of w). rewrite Hp.
    cbn [String.eqb Ascii.eqb Bool.eqb]. fold (env_stages args).
    fold (announce "less") (run "less") (announce "more") (run "more").
    rewrite Hless.
    apply Z.eqb_neq in Hfine. rewrite Hfine.
    replace (0 =? env_stages args)%nat with false; [reflexivity|].
    unfold env_stages. now destruct (arg args 1). }
  intros Hx. unfold less_status, child_status. rewrite Hx. reflexivity.
Qed.

Lemma check_env_pager_fallback_demo :
  check_env demo_world (exec_cmdline demo_world 1) ["checkEnv"] demo_state
  = (stdout (Actual_command_line "printenv | sort | less") ;;
     exec_cmdline demo_world 1 "printenv | sort | less" ;;
     stdout (Actual_command_line "printenv | sort | more") ;;
     exec_cmdline demo_world 1 "printenv | sort | more" ;;
     ret tt) demo_state.
Proof.
  destruct (check_env_pager_fallback demo_world 0 ["checkEnv"] demo_state)
    as (_ & _ & _ & H & _ & Hx).
  - intros f Hf. discriminate.
  - split; reflexivity.
  - constructor.
  - apply H; [reflexivity | apply Hx; reflexivity].
Defined.

(** C10. The line [check_env] composes is "printenv | sort | <pager>" without
    a filter and "printenv | sort | grep <filter> | <pager>" with one; cut at
    the bars, the filter stage is the third, behind [sort].  A line that is
    the built-in [checkEnv] makes [exec_cmdline] announce the composed line
    and run it through [exec_cmdline] itself, one level down; with a pager
    other than [less] that is all it does. *)
Theorem env_cmd_is_sorted_then_filtered w :
  (forall args pager, arg args 1 = None ->
     get_env_cmd args pager = ("printenv | sort | " ++ pager)%string)
  /\ (forall args f pager, arg args 1 = Some f ->
     get_env_cmd args pager = ("printenv | sort | grep " ++ f ++ " | " ++ pager)%string)
  /\ (forall args pager, arg args 1 = None -> free_of "|" pager = true ->
     tokenize (get_env_cmd args pager) "|"
     = ["printenv "; " sort "; (" " ++ pager)%string])
  /\ (forall args f pager, arg args 1 = Some f ->
     free_of "|" f = true -> free_of "|" pager = true ->
     tokenize (get_env_cmd args pager) "|"
     = ["printenv "; " sort "; (" grep " ++ f ++ " ")%string; (" " ++ pager)%string])
  /\ (forall fuel line c args,
     tokenize line "|" = [c] -> tokenize c " " = args ->
     arg_str args 0 = "checkEnv" -> (List.length args <= 2)%nat ->
     exists k, forall s,
       exec_cmdline w (S fuel) line s
       = (stdout (Actual_command_line (get_env_cmd args (pager_of w))) ;;
          r <- exec_cmdline w fuel (get_env_cmd args (pager_of w)) ;;
          k r) s)
  /\ (forall fuel line c args,
     tokenize line "|" = [c] -> tokenize c " " = args ->
     arg_str args 0 = "checkEnv" -> (List.length args <= 2)%nat ->
     pager_of w <> "less" ->
     forall s,
       exec_cmdline w (S fuel) line s
       = (stdout (Actual_command_line (get_env_cmd args (pager_of w))) ;;
          exec_cmdline w fuel (get_env_cmd args (pager_of w)) ;;
          ret 0%nat) s).
Proof.
  split; [|split; [|split; [|split; [|split]]]].
  - intros args pager H. unfold get_env_cmd. now rewrite H.
  - intros args f pager H. unfold get_env_cmd. now rewrite H.
  - intros args pager H Hp. unfold get_env_cmd. rewrite H.
    now apply tokenize_env_plain.
  - intros args f pager H Hf Hp. unfold get_env_cmd. rewrite H.
    now apply tokenize_env_filter.
  - intros fuel line c args Hl Hc Hname Hlen.
    eexists. intros s. rewrite exec_cmdline_unfold, Hl.
    cbn [exec_cmds List.length Nat.add]. rewrite Hc.
    destruct (Nat.eqb_spec (List.length args) 0) as [E|_].
    { destruct args; [discriminate Hname | discriminate E]. }
    unfold exec_cmd. rewrite Hname. cbn [Nat.eqb String.eqb Ascii.eqb Bool.eqb].
    apply Nat.leb_le in Hlen. rewrite Hlen.
    unfold check_env. fold (pager_of w).
    rewrite !bind_assoc.
    assert (E0 : stdout (Actual_command_line (get_env_cmd args (pager_of w))) s
                 = Returned tt
                     (with_trace s (trace s ++ [Stdout (Actual_command_line
                        (get_env_cmd args (pager_of w)))]))) by reflexivity.
    step E0. step E0.
    rewrite !bind_assoc. reflexivity.
  - intros fuel line c args Hl Hc Hname Hlen Hp s.
    rewrite exec_cmdline_unfold, Hl.
    cbn [exec_cmds List.length Nat.add]. rewrite Hc.
    destruct (Nat.eqb_spec (List.length args) 0) as [E|_].
    { destruct args; [discriminate Hname | discriminate E]. }
    unfold exec_cmd. rewrite Hname. cbn [Nat.eqb String.eqb Ascii.eqb Bool.eqb].
    apply Nat.leb_le in Hlen. rewrite Hlen.
    unfold check_env. fold (pager_of w).
    apply String.eqb_neq in Hp. rewrite Hp.
    unfold bind, stdout, emit, ret.
    match goal with |- context [exec_cmdline w fuel ?l ?x] =>
      destruct (exec_cmdline w fuel l x) end; try reflexivity.
    now rewrite andb_false_r.
Qed.

(** ** Two levels of nesting are enough *)

Section Fuel.

Variable w : world.

Lemma runs_bind {A B : Type} (m : M A) (k : A -> M B) :
  runs m -> (forall a, runs (k a)) -> runs (bind m k).
Proof.
  intros Hm Hk s. unfold bind. specialize (Hm s).
  destruct (m s); [apply Hk | discriminate | congruence | discriminate].
Qed.

Lemma runs_ret {A : Type} (a : A) : runs (ret a).
Proof. intros s. discriminate. Qed.

Lemma runs_emit e : runs (emit e).
Proof. intros s. discriminate. Qed.

Lemma runs_when b m : runs m -> runs (when b m).
Proof. destruct b; [auto | intros _; apply runs_ret]. Qed.

Lemma runs_exit {A : Type} code : runs (@exit A code).
Proof. intros s. discriminate. Qed.

Lemma runs_c_wait c_pid t0 cont : runs (c_wait w c_pid t0 cont).
Proof.
  intros s. destruct (c_wait_spec w c_pid t0 cont s) as (s' & E & _).
  rewrite E. discriminate.
Qed.

Lemma runs_sigchld_handler : runs sigchld_handler.
Proof. intros s. rewrite sigchld_handler_spec. discriminate. Qed.

Lemma runs_alloc_pipes k : runs (alloc_pipes w k).
Proof.
  induction k as [|k IH]; simpl; [apply runs_ret|].
  apply runs_bind.
  - intros s. unfold sys_pipe. destruct (pipe_ok w (next_fd s)); discriminate.
  - intros [fd|].
    + apply runs_bind; [intros s; discriminate | intros _; exact IH].
    + apply runs_bind; [apply runs_emit | intros _; apply runs_exit].
Qed.

Lemma runs_fork_exec_wait args cmd no_cmds background :
  runs (fork_exec_wait w args cmd no_cmds background).
Proof.
  unfold fork_exec_wait.
  apply runs_bind.
  { apply runs_when. apply runs_bind; [intros s; discriminate|]. intros _.
    apply runs_bind; [apply runs_alloc_pipes|]. intros _ s. discriminate. }
  intros _. apply runs_bind.
  { apply runs_when. intros s. discriminate. }
  intros _. apply runs_bind; [intros s; discriminate|]. intros s0.
  apply runs_bind.
  { intros s. unfold sys_fork. destruct (fork_ok w (next_pid s)); discriminate. }
  intros [c_pid|].
  - apply runs_bind; [apply runs_when, runs_emit|]. intros _.
    apply runs_bind.
    + destruct (negb background && LAST_CMD cmd no_cmds).
      * apply runs_bind; [apply runs_emit | intros _; apply runs_c_wait].
      * apply runs_bind; [apply runs_emit | intros _; apply runs_ret].
    + intros status. apply runs_bind; [apply runs_when, runs_emit|].
      intros _. apply runs_ret.
  - apply runs_bind; [apply runs_emit | intros _; apply runs_exit].
Qed.

Lemma runs_kill_children tbl : forall pid ppid, runs (kill_children w tbl pid ppid).
Proof.
  induction tbl as [|[d_name file] tbl IH]; intros pid ppid; simpl; [apply runs_ret|].
  destruct (starts_with_digit d_name); [|apply IH].
  destruct file as [content|]; [|intros s; discriminate].
  apply runs_bind; [|intros _; apply IH].
  apply runs_when. apply runs_bind.
  - unfold sys_kill. apply runs_bind; [apply runs_emit | intros _; apply runs_ret].
  - intros ok. apply runs_when, runs_emit.
Qed.

Lemma runs_term_all : runs (term_all w).
Proof.
  unfold term_all. apply runs_bind; [apply runs_emit|]. intros _.
  destruct (proc w).
  - apply runs_bind; [apply runs_kill_children|]. intros _.
    apply runs_bind; [apply runs_emit|]. intros _.
    apply runs_bind; [apply runs_when, runs_sigchld_handler|]. intros _.
    apply runs_exit.
  - apply runs_bind; [apply runs_emit | intros _; apply runs_exit].
Qed.

Lemma env_line_piping line :
  env_line line -> List.length (tokenize line "|") <> 1%nat.
Proof.
  intros (args & pager & ->). unfold get_env_cmd, tokenize.
  destruct (arg args 1); simpl; discriminate.
Qed.

Section Nested.

Variable nested : string -> M nat.
Hypothesis nested_runs : forall line, env_line line -> runs (nested line).

Lemma runs_check_env args : runs (check_env w nested args).
Proof.
  unfold check_env. apply runs_bind; [apply runs_emit|]. intros _.
  apply runs_bind; [apply nested_runs; now eexists _, _|]. intros r.
  match goal with |- runs (if ?b then _ else _) => destruct b end;
    [|apply runs_ret].
  apply runs_bind; [apply runs_emit|]. intros _.
  apply runs_bind; [apply nested_runs; now eexists _, _|]. intros _. apply runs_ret.
Qed.

Lemma runs_exec_cmd args no_args cmd no_cmds :
  runs (exec_cmd w nested args no_args cmd no_cmds).
Proof.
  unfold exec_cmd.
  repeat match goal with
         | |- runs (if ?b then _ else _) => destruct b
         | |- runs (bind _ _) => apply runs_bind; [|intros _]
         | |- runs (ret _) => apply runs_ret
         | |- runs (fork_exec_wait _ _ _ _ _) => apply runs_fork_exec_wait
         | |- runs (check_env _ _ _) => apply runs_check_env
         | |- runs (term_all _) => apply runs_term_all
         end.
  - unfold change_dir. apply runs_bind; [apply runs_emit|].
    intros _. apply runs_when, runs_emit.
  - unfold change_dir. apply runs_bind; [apply runs_emit|].
    intros _. apply runs_when, runs_emit.
  - unfold put_fg. destruct (child_process w _).
    + apply runs_bind; [apply runs_c_wait | intros _; apply runs_ret].
    + apply runs_emit.
Qed.

Lemma runs_exec_cmds cmds i no_cmds : runs (exec_cmds w nested cmds i no_cmds).
Proof.
  revert i. induction cmds as [|c cmds IH]; intros i; simpl; [apply runs_ret|].
  destruct (List.length (tokenize c " ") =? 0)%nat.
  - apply runs_bind; [apply runs_emit | intros _; apply runs_ret].
  - apply runs_bind; [apply runs_exec_cmd|]. intros r.
    destruct (r =? -1); [|apply IH].
    apply runs_bind; [apply runs_emit | intros _; apply runs_ret].
Qed.

End Nested.

(** In a pipeline of several stages the nested entry point is never
    called. *)
Lemma exec_cmds_piping_any (f1 f2 : string -> M nat) cmds no_cmds :
  no_cmds <> 1%nat ->
  forall i s, exec_cmds w f1 cmds i no_cmds s = exec_cmds w f2 cmds i no_cmds s.
Proof.
  intros H. induction cmds as [|c cmds IH]; intros i s; simpl; [reflexivity|].
  destruct (List.length (tokenize c " ") =? 0)%nat; [reflexivity|].
  rewrite !exec_cmd_piping by assumption. unfold bind.
  destruct (fork_exec_wait w (tokenize c " ") (i + 1) no_cmds false s); try reflexivity.
  destruct (a =? -1); [reflexivity | apply IH].
Qed.

(** With a budget of one, [check_env]'s own lines run to their end. *)
Lemma runs_env_line fuel line : env_line line -> runs (exec_cmdline w (S fuel) line).
Proof.
  intros H s. rewrite exec_cmdline_unfold.
  rewrite (exec_cmds_piping_any _ (fun _ => ret 0%nat)) by now apply env_line_piping.
  apply runs_exec_cmds. intros l _. apply runs_ret.
Qed.

Lemma env_line_any_fuel f1 f2 line s :
  env_line line -> exec_cmdline w (S f1) line s = exec_cmdline w (S f2) line s.
Proof.
  intros H. rewrite !exec_cmdline_unfold.
  apply exec_cmds_piping_any. now apply env_line_piping.
Qed.

Section Agree.

Variables n1 n2 : string -> M nat.
Hypothesis agree : forall line s, env_line line -> n1 line s = n2 line s.

Lemma check_env_agree args s : check_env w n1 args s = check_env w n2 args s.
Proof.
  unfold check_env, bind.
  destruct (stdout _ s) as [u s1| | |]; try reflexivity.
  rewrite agree by now eexists _, _.
  destruct (n2 _ s1) as [r s2| | |]; try reflexivity.
  match goal with |- (if ?b then _ else _) _ = _ => destruct b end; [|reflexivity].
  destruct (stdout _ s2) as [u' s3| | |]; try reflexivity.
  rewrite agree by now eexists _, _. reflexivity.
Qed.

Lemma exec_cmd_agree args no_args cmd no_cmds s :
  exec_cmd w n1 args no_args cmd no_cmds s = exec_cmd w n2 args no_args cmd no_cmds s.
Proof.
  unfold exec_cmd.
  repeat match goal with
         | |- (if ?b then _ else _) _ = _ => destruct b
         end; try reflexivity.
  unfold bind. now rewrite check_env_agree.
Qed.

Lemma exec_cmds_agree cmds no_cmds :
  forall i s, exec_cmds w n1 cmds i no_cmds s = exec_cmds w n2 cmds i no_cmds s.
Proof.
  induction cmds as [|c cmds IH]; intros i s; simpl; [reflexivity|].
  destruct (List.length (tokenize c " ") =? 0)%nat; [reflexivity|].
  unfold bind. rewrite exec_cmd_agree.
  destruct (exec_cmd w n2 _ _ _ _ s) as [r s1| | |]; try reflexivity.
  destruct (r =? -1); [reflexivity | apply IH].
Qed.

End Agree.

(** A larger budget changes nothing: two levels are all that is used. *)
Lemma exec_cmdline_fuel fuel line s :
  exec_cmdline w (S (S fuel)) line s = exec_cmdline w 2 line s.
Proof.
  rewrite !exec_cmdline_unfold. apply exec_cmds_agree.
  intros l s' H. now apply env_line_any_fuel.
Qed.

(** With a budget of two, every line runs to its end: it returns, or the
    shell exits. *)
Lemma exec_cmdline_runs fuel line : runs (exec_cmdline w (S (S fuel)) line).
Proof.
  intros s. rewrite exec_cmdline_unfold.
  apply runs_exec_cmds. intros l Hl. now apply runs_env_line.
Qed.

End Fuel.

(** * Further properties *)

(** ** The tokenizer *)

Lemma list_ascii_app (a b : string) :
  list_ascii_of_string (a ++ b)
  = list_ascii_of_string a ++ list_ascii_of_string b.
Proof. induction a as [|c a IH]; simpl; [reflexivity | now rewrite IH]. Qed.

Lemma free_of_app delim (a b : string) :
  free_of delim (a ++ b) = free_of delim a && free_of delim b.
Proof. unfold free_of. now rewrite list_ascii_app, forallb_app. Qed.

Lemma flush_word tok : tok <> EmptyString -> flush tok = [tok].
Proof. destruct tok; [congruence | reflexivity]. Qed.

Lemma tokenize_word delim t : is_word delim t -> tokenize t delim = [t].
Proof.
  intros [Hne Hf]. unfold tokenize.
  rewrite <- (string_app_nil_r t) at 1. rewrite strtok_free by assumption.
  simpl. now apply flush_word.
Qed.

Lemma strtok_words delim s :
  forall tok, free_of delim tok = true ->
    Forall (is_word delim) (strtok delim s tok).
Proof.
  induction s as [|c s IH]; intros tok Hf; simpl.
  - destruct tok; simpl; repeat constructor; [discriminate | exact Hf].
  - destruct (is_delim delim c) eqn:E.
    + apply Forall_app. split; [|now apply IH].
      destruct tok; simpl; repeat constructor; [discriminate | exact Hf].
    + apply IH. rewrite free_of_app, Hf. unfold free_of. simpl. now rewrite E.
Qed.

(** X1. The tokenizer produces words only: no token is empty, no token
    holds a delimiter, and a token tokenized again is itself. *)
Theorem tokens_are_words delim s :
  Forall (fun t => is_word delim t /\ tokenize t delim = [t]) (tokenize s delim).
Proof.
  eapply Forall_impl; [|apply (strtok_words delim s EmptyString eq_refl)].
  intros t H. split; [exact H | now apply tokenize_word].
Qed.

Lemma strtok_split delim a c b :
  is_delim delim c = true ->
  forall tok,
    strtok delim (a ++ String c b) tok = strtok delim a tok ++ tokenize b delim.
Proof.
  intros Hc. induction a as [|x a IH]; intros tok; simpl.
  - now rewrite Hc.
  - destruct (is_delim delim x); [|apply IH].
    now rewrite IH, app_assoc.
Qed.

(** X2. Tokenizing commutes with cutting at a delimiter: the tokens of
    [a], a delimiter, [b] are those of [a] followed by those of [b]. *)
Theorem tokenize_at_delimiter delim a c b :
  is_delim delim c = true ->
  tokenize (a ++ String c b) delim = tokenize a delim ++ tokenize b delim.
Proof. intros Hc. unfold tokenize at 1 2. now apply strtok_split. Qed.

Lemma tokenize_at_delimiter_demo :
  tokenize ("ls -l" ++ String "|" " wc") "|" = ["ls -l"; " wc"].
Proof.
  rewrite (tokenize_at_delimiter "|" "ls -l" "|" " wc"); reflexivity.
Defined.

Lemma strtok_nil delim s :
  forall tok, strtok delim s tok = [] <-> tok = EmptyString /\ all_delims delim s = true.
Proof.
  unfold all_delims. induction s as [|c s IH]; intros tok; simpl.
  - destruct tok; simpl; split; try tauto; try discriminate. intros [H _]. discriminate.
  - destruct (is_delim delim c) eqn:E; simpl.
    + split.
      * intros H. apply app_eq_nil in H. destruct H as [H1 H2].
        apply IH in H2. split; [|tauto]. destruct tok; [reflexivity | discriminate].
      * intros [-> H]. simpl. apply IH. now split.
    + rewrite IH. split; [|intros [_ H]; discriminate].
      intros [H _]. destruct tok; discriminate.
Qed.

(** X3. A string yields no token exactly when it holds nothing but
    delimiters; the empty string is such a string. *)
Theorem tokenize_nothing delim s :
  tokenize s delim = [] <-> all_delims delim s = true.
Proof.
  unfold tokenize. rewrite strtok_nil. tauto.
Qed.

Lemma tokenize_concat delim sep words :
  is_delim delim sep = true -> Forall (is_word delim) words ->
  tokenize (String.concat (String sep EmptyString) words) delim = words.
Proof.
  intros Hs. induction 1 as [|w [|w' ws] Hw Hws IH]; [reflexivity | |].
  - simpl. now apply tokenize_word.
  - change (String.concat (String sep EmptyString) (w :: w' :: ws))
      with (w ++ String sep (String.concat (String sep EmptyString) (w' :: ws)))%string.
    unfold tokenize at 1. rewrite strtok_split by assumption.
    fold (tokenize w delim). rewrite IH, tokenize_word by assumption. reflexivity.
Qed.

(** X4. The command text of the failure report is the stage with its blanks
    put in order: tokenized again it gives the arguments of the stage. *)
Theorem command_text_round_trip c :
  tokenize (command_text (tokenize c " ")) " " = tokenize c " ".
Proof.
  unfold command_text. apply (tokenize_concat " " " "%char); [reflexivity|].
  apply (strtok_words " " c EmptyString eq_refl).
Qed.

(** ** Lines and their results *)

Lemma blanks_have_no_bar line :
  all_delims " " line = true -> free_of "|" line = true.
Proof.
  unfold all_delims, free_of. rewrite !forallb_forall. intros H c Hc.
  specialize (H c Hc). simpl in H. rewrite orb_false_r in H.
  apply Ascii.eqb_eq in H. subst c. reflexivity.
Qed.

(** X5. Lines without a command.  A line of bars only (the empty line is
    one) has no stage: [exec_cmdline] returns 0 and does nothing at all.  A
    line of blanks only is one stage without arguments: it is refused with
    "Empty command" and the result is 1. *)
Theorem commandless_lines w fuel line s :
  (all_delims "|" line = true -> exec_cmdline w (S fuel) line s = Returned 0%nat s)
  /\ (line <> EmptyString -> all_delims " " line = true ->
      exec_cmdline w (S fuel) line s
      = Returned 1%nat (with_trace s (trace s ++ [Stderr Empty_command]))).
Proof.
  split.
  - intros H. rewrite exec_cmdline_unfold.
    assert (E : tokenize line "|" = []) by (apply strtok_nil; now split).
    rewrite E. reflexivity.
  - intros Hne H. rewrite exec_cmdline_unfold.
    rewrite tokenize_word by (split; [exact Hne | now apply blanks_have_no_bar]).
    cbn [exec_cmds List.length Nat.add].
    assert (E : tokenize line " " = []) by (apply strtok_nil; now split).
    rewrite E. reflexivity.
Qed.

Lemma exec_cmds_result w nested cmds :
  forall i no_cmds s r s',
    exec_cmds w nested cmds i no_cmds s = Returned r s' ->
    r = 0%nat
    \/ ((i < r <= i + List.length cmds)%nat
        /\ exists before,
             trace s' = before ++ [Stderr (failure_report (nth (r - i - 1) cmds ""))]).
Proof.
  induction cmds as [|c cmds IH]; intros i no_cmds s r s' E; simpl in E.
  - left. unfold ret in E. congruence.
  - destruct (tokenize c " ") as [|a args] eqn:Hc.
    + right. inversion E; subst. split; [simpl; lia|].
      exists (trace s). replace (i + 1 - i - 1)%nat with 0%nat by lia.
      simpl. unfold failure_report. now rewrite Hc.
    + cbn [List.length Nat.eqb] in E. unfold bind at 1 in E.
      destruct (exec_cmd w nested (a :: args) _ _ _ s) as [rv s1| | |]; try discriminate.
      destruct (rv =? -1).
      * right. inversion E; subst. split; [simpl; lia|].
        exists (trace s1). replace (i + 1 - i - 1)%nat with 0%nat by lia.
        simpl. unfold failure_report. now rewrite Hc.
      * destruct (IH _ _ _ _ _ E) as [H|[Hr (before & T)]]; [now left | right].
        split; [simpl; lia|]. exists before.
        replace (r - i - 1)%nat with (S (r - (i + 1) - 1)) by lia. exact T.
Qed.

(** X6. Whenever [exec_cmdline] returns, its result is 0 or the number of
    one of the stages of the line, and in the second case the last thing
    printed is the failure report of that very stage: "Empty command" if it
    has no arguments, else its command text. *)
Theorem failure_names_the_stage w fuel line s r s' :
  exec_cmdline w fuel line s = Returned r s' ->
  (r <= List.length (tokenize line "|"))%nat
  /\ (r <> 0%nat ->
      exists before,
        trace s' = before
                   ++ [Stderr (failure_report (nth (r - 1) (tokenize line "|") ""))]).
Proof.
  destruct fuel as [|fuel]; [discriminate|]. rewrite exec_cmdline_unfold. intros E.
  destruct (exec_cmds_result _ _ _ _ _ _ _ _ E) as [->|[Hr (before & T)]].
  - split; [lia | congruence].
  - split; [lia|]. intros _. exists before.
    now replace (r - 1)%nat with (r - 0 - 1)%nat by lia.
Qed.

Lemma failure_names_the_stage_demo :
  exists s' before,
    exec_cmdline demo_world 1 "ls | false" demo_state = Returned 2%nat s'
    /\ trace s' = before ++ [Stderr (Command_failed "false")].
Proof.
  pose proof (failure_names_the_stage demo_world 1 "ls | false" demo_state) as H.
  remember (exec_cmdline demo_world 1 "ls | false" demo_state) as o eqn:E.
  vm_compute in E. subst o.
  destruct (H _ _ eq_refl) as [_ H2].
  destruct H2 as (before & T); [discriminate|].
  eexists _, before. split; [reflexivity | exact T].
Defined.

(** ** A whole pipeline, event by event *)

Section Wiring.

Variable w : world.

Lemma child_branch_stage args fds N k n pid :
  (2 <= N)%nat -> (k < N)%nat ->
  n = (if (S k =? N)%nat then N - 2 else k)%nat ->
  child_branch args (S k) N false fds n pid = stage_child fds N k args pid.
Proof.
  intros HN Hk ->. unfold child_branch, stage_child, PIPING, FIRST_CMD, MIDDLE_CMD, LAST_CMD.
  replace (1 <? N)%nat with true by (symmetry; apply Nat.ltb_lt; lia).
  destruct (Nat.eqb_spec (S k) N) as [E|E].
  - replace (S k =? 1)%nat with false by (symmetry; apply Nat.eqb_neq; lia).
    replace (S k <? N)%nat with false by (symmetry; apply Nat.ltb_ge; lia).
    replace (0 <? k)%nat with true by (symmetry; apply Nat.ltb_lt; lia).
    rewrite andb_false_r. replace (N - 2)%nat with (k - 1)%nat by lia. reflexivity.
  - replace (S k <? N)%nat with true by (symmetry; apply Nat.ltb_lt; lia).
    destruct k as [|k]; [reflexivity|].
    replace (1 <? S (S k))%nat with true by (symmetry; apply Nat.ltb_lt; lia).
    replace (S (S k) - 1)%nat with (S k) by lia.
    cbn [Nat.eqb Nat.ltb Nat.leb andb app]. now rewrite <- !app_assoc.
Qed.

Lemma alloc_pipes_exact k :
  (forall fd, pipe_ok w fd = true) ->
  forall s, exists s',
    alloc_pipes w k s = Returned tt s'
    /\ trace s' = trace s ++ pipe_events (pipes_from (next_fd s) k)
    /\ pipe_fds s' = pipe_fds s ++ pipes_from (next_fd s) k
    /\ next_fd s' = next_fd s + 2 * Z.of_nat k
    /\ pending s' = pending s /\ next_pid s' = next_pid s
    /\ tty_fg s' = tty_fg s.
Proof.
  intros Hp. induction k as [|k IH]; intros s.
  - exists s. simpl. unfold ret. rewrite !app_nil_r. repeat split. lia.
  - cbn [alloc_pipes]. unfold bind at 1. unfold sys_pipe. rewrite Hp.
    unfold bind at 1.
    match goal with |- context [alloc_pipes w k ?s1] =>
      destruct (IH s1) as (s' & E & T & F & D & P & N & G) end.
    exists s'. rewrite E. simpl in T, F, P, N, G.
    cbn [next_fd with_pipe_fds with_trace with_next_fd] in D.
    rewrite T, F, P, N, G, <- !app_assoc.
    split; [reflexivity|]. split; [reflexivity|]. split; [reflexivity|].
    split; [rewrite D; lia|]. repeat split.
Qed.

(** The first stage of several: the pipes, then the child. *)
Lemma fork_exec_wait_first args N s :
  resources_ok w -> (2 <= N)%nat ->
  let fds := pipes_from (next_fd s) (N - 1) in
  exists s',
    fork_exec_wait w args 1 N false s = Returned 0 s'
    /\ trace s' = trace s ++ pipe_events fds ++ spawn_events fds N 0 args (next_pid s)
    /\ pending s' = pending s ++ [(next_pid s, child_status w args (next_pid s))]
    /\ next_pid s' = next_pid s + 1
    /\ pipe_fds s' = fds /\ pipe_n s' = 0%nat.
Proof.
  intros [Hp Hf] HN fds. unfold fork_exec_wait, PIPING, FIRST_CMD, MIDDLE_CMD, LAST_CMD.
  replace (1 <? N)%nat with true by (symmetry; apply Nat.ltb_lt; lia).
  replace (1 =? N)%nat with false by (symmetry; apply Nat.eqb_neq; lia).
  cbn [Nat.eqb Nat.ltb Nat.leb andb orb negb when].
  destruct (alloc_pipes_exact (N - 1) Hp (with_pipe_fds s []))
    as (s1 & E1 & T1 & F1 & _ & P1 & N1 & _).
  simpl in T1, F1, P1, N1. fold fds in T1, F1.
  unfold bind at 1. unfold bind at 1. unfold bind at 1. rewrite E1.
  unfold bind at 1. unfold ret at 1. unfold bind at 1. unfold get.
  unfold bind at 1. unfold sys_fork.
  cbn [next_pid with_pipe_n with_pipe_fds pending trace pipe_fds pipe_n].
  rewrite N1, Hf.
  match goal with |- context [child_effect w ?a ?x] =>
    destruct (child_effect_fields w a x) as (CT & CP & CN & _ & CF & CI);
    set (s2 := child_effect w a x) in * end.
  simpl in CT, CP, CN, CF, CI. clearbody s2.
  unfold bind, when, sys_close, stdout, emit, ret. simpl.
  eexists. split; [reflexivity|]. simpl.
  rewrite CT, CP, CN, CF, CI, T1, P1, F1, <- !app_assoc. simpl.
  unfold spawn_events.
  rewrite (child_branch_stage args fds N 0 0 (next_pid s)) by
    (try lia; now replace (1 =? N)%nat with false by (symmetry; apply Nat.eqb_neq; lia)).
  repeat split.
Qed.

(** A stage between the first and the last. *)
Lemma fork_exec_wait_middle args N k s :
  resources_ok w -> (1 <= k)%nat -> (S k < N)%nat ->
  pipe_n s = (k - 1)%nat ->
  exists s',
    fork_exec_wait w args (S k) N false s = Returned 0 s'
    /\ trace s' = trace s ++ spawn_events (pipe_fds s) N k args (next_pid s)
    /\ pending s' = pending s ++ [(next_pid s, child_status w args (next_pid s))]
    /\ next_pid s' = next_pid s + 1
    /\ pipe_fds s' = pipe_fds s /\ pipe_n s' = k.
Proof.
  intros [Hp Hf] Hk HN Hn. unfold fork_exec_wait, PIPING, FIRST_CMD, MIDDLE_CMD, LAST_CMD.
  replace (1 <? N)%nat with true by (symmetry; apply Nat.ltb_lt; lia).
  replace (S k =? 1)%nat with false by (symmetry; apply Nat.eqb_neq; lia).
  replace (S k =? N)%nat with false by (symmetry; apply Nat.eqb_neq; lia).
  replace (1 <? S k)%nat with true by (symmetry; apply Nat.ltb_lt; lia).
  replace (S k <? N)%nat with true by (symmetry; apply Nat.ltb_lt; lia).
  cbn [andb orb negb when].
  unfold bind at 1. unfold ret at 1. unfold bind at 1. unfold bind at 1. unfold get.
  unfold bind at 1. unfold sys_fork.
  cbn [next_pid with_pipe_n with_pipe_fds pending trace pipe_fds pipe_n].
  rewrite Hf.
  match goal with |- context [child_effect w ?a ?x] =>
    destruct (child_effect_fields w a x) as (CT & CP & CN & _ & CF & CI);
    set (s2 := child_effect w a x) in * end.
  simpl in CT, CP, CN, CF, CI. clearbody s2.
  unfold bind, when, sys_close, stdout, emit, ret. simpl.
  eexists. split; [reflexivity|]. simpl.
  rewrite CT, CP, CN, CF, CI, Hn, <- !app_assoc. simpl.
  unfold spawn_events.
  replace (S (k - 1)) with k by lia.
  rewrite (child_branch_stage args (pipe_fds s) N k k (next_pid s)) by
    (try lia; now replace (S k =? N)%nat with false by (symmetry; apply Nat.eqb_neq; lia)).
  repeat split.
Qed.

(** The stage that is waited for, event by event. *)
Lemma fork_exec_wait_waited args N s :
  resources_ok w -> well_formed s ->
  let pid := next_pid s in
  let status := child_status w args pid in
  exists s',
    fork_exec_wait w args N N false s
    = Returned (if WEXITSTATUS status =? EXIT_FAILURE then -1 else 0) s'
    /\ trace s'
       = trace s
         ++ [Fork pid N (child_branch args N N false (pipe_fds s) (pipe_n s) pid)]
         ++ (if PIPING N then [Close (snd (pipe_at (pipe_fds s) (pipe_n s)))] else [])
         ++ [Stdout (Spawned_in_foreground pid)]
         ++ wait_events pid true (Some status)
         ++ reclaim_events w
         ++ (if PIPING N then [Free_pipe_fds] else [])
    /\ pending s' = pending s
    /\ next_pid s' = next_pid s + 1
    /\ (tcsetpgrp_ok w (getpgid w (shell_pid w)) = true ->
        tty_fg s' = getpgid w (shell_pid w)).
Proof.
  intros [Hp Hf] Hwf pid status. unfold fork_exec_wait.
  assert (EF : PIPING N && FIRST_CMD N = false).
  { unfold PIPING, FIRST_CMD. destruct (Nat.eqb_spec N 1); subst;
      [reflexivity | apply andb_false_r]. }
  assert (EM : PIPING N && MIDDLE_CMD N N = false).
  { unfold MIDDLE_CMD. rewrite Nat.ltb_irrefl. now rewrite !andb_false_r. }
  assert (EL : LAST_CMD N N = true) by apply Nat.eqb_refl.
  rewrite EF, EM, EL. cbn [when negb andb orb].
  unfold bind at 1. unfold ret at 1. unfold bind at 1. unfold ret at 1.
  unfold bind at 1. unfold get. unfold bind at 1. unfold sys_fork. rewrite Hf.
  match goal with |- context [child_effect w ?a ?x] =>
    destruct (child_effect_fields w a x) as (CT & CP & CN & _);
    set (s2 := child_effect w a x) in * end.
  simpl in CT, CP, CN. clearbody s2.
  set (pre := if PIPING N
              then [Close (snd (pipe_at (pipe_fds s) (pipe_n s)))] else []).
  set (s3 := with_trace s2
               (trace s2 ++ pre ++ [Stdout (Spawned_in_foreground (next_pid s))])).
  assert (E3 : forall k : Z -> M Z,
    (when (PIPING N) (sys_close (snd (pipe_at (pipe_fds s) (pipe_n s)))) ;;
     status <- (stdout (Spawned_in_foreground (next_pid s)) ;;
                c_wait w (next_pid s) true false) ;; k status) s2
    = (status <- c_wait w (next_pid s) true false ;; k status) s3).
  { intros k. unfold s3, pre, bind, when, sys_close, stdout, emit, ret.
    destruct (PIPING N); simpl; [now rewrite <- app_assoc | reflexivity]. }
  rewrite E3.
  destruct (c_wait_spec w (next_pid s) true false s3) as (s4 & E4 & T4 & G4 & P4 & N4).
  assert (TK : take_pid (next_pid s) (pending s3) = Some (status, pending s)).
  { unfold s3. simpl. rewrite CP. apply take_pid_fresh. exact Hwf. }
  rewrite TK in E4, T4, P4. simpl in E4, T4, P4.
  step E4.
  unfold bind, when, emit, ret. fold pid in T4 |- *.
  destruct (PIPING N) eqn:EP; simpl;
    eexists; (split; [reflexivity|]); simpl;
    rewrite ?T4, ?P4, ?N4; unfold s3, pre, pid, wait_events, reclaim_events;
    simpl; rewrite ?CT, ?CN, <- ?app_assoc;
    simpl; rewrite <- ?app_assoc, ?app_nil_r; simpl;
    (split; [reflexivity|]); (split; [reflexivity|]); (split; [reflexivity|]);
    exact G4.
Qed.

End Wiring.

Section WholePipeline.

Variable w : world.
Variable nested : string -> M nat.

Lemma early_posted_pids pid stages :
  Forall (fun e => pid <= fst e < pid + Z.of_nat (List.length stages))
    (early_posted w pid stages).
Proof.
  revert pid. induction stages as [|c stages IH]; intros pid; simpl; constructor.
  - simpl. lia.
  - eapply Forall_impl; [|apply IH]. simpl. intros; lia.
Qed.

Lemma exec_cmds_early N mid :
  resources_ok w ->
  forall rest k s,
    (1 <= k)%nat -> (k + List.length mid < N)%nat ->
    Forall has_args mid -> pipe_n s = (k - 1)%nat ->
    exists s1,
      exec_cmds w nested (mid ++ rest) k N s
      = exec_cmds w nested rest (k + List.length mid) N s1
      /\ trace s1 = trace s ++ early_events (pipe_fds s) N k (next_pid s) mid
      /\ pending s1 = pending s ++ early_posted w (next_pid s) mid
      /\ next_pid s1 = next_pid s + Z.of_nat (List.length mid)
      /\ pipe_fds s1 = pipe_fds s
      /\ pipe_n s1 = (k + List.length mid - 1)%nat.
Proof.
  intros Hr. induction mid as [|c mid IH]; intros rest k s Hk Hlt Hargs Hn.
  - exists s. simpl. rewrite Nat.add_0_r, !app_nil_r, Z.add_0_r.
    repeat split. lia.
  - inversion Hargs as [|? ? Hc Hmid]; subst. simpl in Hlt.
    cbn [app exec_cmds].
    destruct (Nat.eqb_spec (List.length (tokenize c " ")) 0) as [E|_].
    { exfalso. apply Hc. now apply tokenize_nil_length. }
    rewrite exec_cmd_piping by lia.
    replace (k + 1)%nat with (S k) by lia.
    destruct (fork_exec_wait_middle w (tokenize c " ") N k s Hr Hk)
      as (s' & E & T & P & Np & F & I); [lia | exact Hn |].
    step E. change (0 =? -1) with false. cbn iota.
    destruct (IH rest (S k) s') as (s1 & E1 & T1 & P1 & N1 & F1 & I1);
      [lia | lia | exact Hmid | rewrite I; lia |].
    exists s1. rewrite E1. split.
    { f_equal. simpl. lia. }
    rewrite T1, T, P1, P, N1, Np, F1, F, I1, <- !app_assoc. simpl.
    split; [reflexivity|]. split; [reflexivity|].
    split; [lia|]. split; [reflexivity | lia].
Qed.

(** A foreground pipeline of two or more stages, event by event. *)
Lemma exec_cmds_pipeline_trace pre cl s :
  resources_ok w -> well_formed s ->
  pre <> [] -> Forall has_args pre -> has_args cl ->
  let N := (List.length pre + 1)%nat in
  let fds := pipes_from (next_fd s) (N - 1) in
  let last_pid := next_pid s + Z.of_nat (List.length pre) in
  exists s',
    exec_cmds w nested (pre ++ [cl]) 0 N s
    = Returned (if WEXITSTATUS (child_status w (tokenize cl " ") last_pid) =? EXIT_FAILURE
                then N else 0%nat) s'
    /\ trace s'
       = trace s ++ pipe_events fds
         ++ early_events fds N 0 (next_pid s) pre
         ++ last_events w fds N last_pid cl
    /\ pending s' = pending s ++ early_posted w (next_pid s) pre
    /\ next_pid s' = next_pid s + Z.of_nat N
    /\ (tcsetpgrp_ok w (getpgid w (shell_pid w)) = true ->
        tty_fg s' = getpgid w (shell_pid w)).
Proof.
  intros Hr Hwf Hne Hpre Hcl N fds last_pid.
  destruct pre as [|c1 mid]; [congruence|]. clear Hne.
  inversion Hpre as [|? ? Hc1 Hmid]; subst.
  assert (HN : N = (List.length mid + 2)%nat) by (unfold N; simpl; lia).
  cbn [app exec_cmds Nat.add].
  destruct (Nat.eqb_spec (List.length (tokenize c1 " ")) 0) as [E|_].
  { exfalso. apply Hc1. now apply tokenize_nil_length. }
  rewrite exec_cmd_piping by lia.
  destruct (fork_exec_wait_first w (tokenize c1 " ") N s Hr)
    as (s1 & E1 & T1 & P1 & N1 & F1 & I1); [lia|]. fold fds in T1, F1.
  step E1. change (0 =? -1) with false. cbn iota.
  destruct (exec_cmds_early N mid Hr [cl] 1 s1)
    as (s2 & E2 & T2 & P2 & N2 & F2 & I2); [lia | lia | exact Hmid | rewrite I1; lia |].
  rewrite E2. cbn [exec_cmds].
  destruct (Nat.eqb_spec (List.length (tokenize cl " ")) 0) as [E|_].
  { exfalso. apply Hcl. now apply tokenize_nil_length. }
  rewrite exec_cmd_piping by lia.
  replace (1 + List.length mid + 1)%nat with N by lia.
  assert (Hwf2 : well_formed s2).
  { unfold well_formed. rewrite P2, P1, N2, N1, <- app_assoc. apply Forall_app. split.
    - eapply Forall_impl; [|exact Hwf]. simpl. intros; lia.
    - constructor; [simpl; lia|].
      eapply Forall_impl; [|apply early_posted_pids]. simpl. intros; lia. }
  destruct (fork_exec_wait_waited w (tokenize cl " ") N s2 Hr Hwf2)
    as (s3 & E3 & T3 & P3 & N3 & G3).
  assert (Epid : next_pid s2 = last_pid).
  { rewrite N2, N1. unfold last_pid. simpl List.length. lia. }
  rewrite Epid in E3, T3.
  assert (CB : child_branch (tokenize cl " ") N N false (pipe_fds s2) (pipe_n s2) last_pid
               = stage_child (pipe_fds s2) N (N - 1) (tokenize cl " ") last_pid).
  { rewrite <- (child_branch_stage (tokenize cl " ") (pipe_fds s2) N (N - 1)
                  (pipe_n s2) last_pid).
    - now replace (S (N - 1)) with N by lia.
    - lia.
    - lia.
    - replace (S (N - 1) =? N)%nat with true by (symmetry; apply Nat.eqb_eq; lia).
      rewrite I2. lia. }
  rewrite CB in T3.
  replace (PIPING N) with true in T3 by (symmetry; apply Nat.ltb_lt; lia).
  rewrite F2, F1 in T3. rewrite I2 in T3.
  replace (1 + List.length mid - 1)%nat with (N - 2)%nat in T3 by lia.
  step E3.
  set (st := child_status w (tokenize cl " ") last_pid) in *.
  assert (T : forall tail,
    trace s3 ++ tail = trace s ++ pipe_events fds
               ++ early_events fds N 0 (next_pid s) (c1 :: mid)
               ++ ([Fork last_pid N (stage_child fds N (N - 1) (tokenize cl " ") last_pid);
                    Close (snd (pipe_at fds (N - 2)));
                    Stdout (Spawned_in_foreground last_pid)]
                   ++ wait_events last_pid true (Some st)
                   ++ reclaim_events w ++ [Free_pipe_fds] ++ tail)).
  { intros tail. rewrite T3, T2, T1, F1, N1. cbn [early_events].
    rewrite <- !app_assoc. reflexivity. }
  assert (Np : next_pid s3 = next_pid s + Z.of_nat N).
  { rewrite N3, Epid. unfold last_pid, N. lia. }
  assert (Pp : pending s3 = pending s ++ early_posted w (next_pid s) (c1 :: mid)).
  { rewrite P3, P2, P1, N1, <- app_assoc. reflexivity. }
  unfold last_events. fold st.
  destruct (WEXITSTATUS st =? EXIT_FAILURE); cbn [Z.eqb Pos.eqb].
  - unfold bind, stderr, emit, ret. eexists. split; [f_equal; lia|].
    cbn [trace pending next_pid tty_fg with_trace].
    split; [apply T|]. split; [exact Pp|]. split; [exact Np | exact G3].
  - exists s3. unfold ret. split; [reflexivity|].
    split; [rewrite <- (app_nil_r (trace s3)) at 1; apply T|].
    split; [exact Pp|]. split; [exact Np | exact G3].
Qed.

End WholePipeline.

Section PipelineViews.

Variable w : world.

Lemma pipe_at_pipes_from n :
  forall fd j, (j < n)%nat ->
    pipe_at (pipes_from fd n) j = (fd + 2 * Z.of_nat j, fd + 2 * Z.of_nat j + 1).
Proof.
  unfold pipe_at. induction n as [|n IH]; intros fd j Hj; [lia|].
  destruct j as [|j]; simpl.
  - f_equal; lia.
  - rewrite IH by lia. f_equal; lia.
Qed.

Lemma report_of_plain pid st :
  Forall (fun e => is_fork e = false /\ is_wait e = false /\ closes_of [e] = [])
    (report_of pid st).
Proof.
  unfold report_of.
  destruct (WIFEXITED st); [|destruct (WIFSIGNALED st); [|destruct (WIFSTOPPED st)]];
    repeat constructor.
Qed.

Lemma filter_none {A : Type} (f : A -> bool) l :
  Forall (fun e => f e = false) l -> filter f l = [].
Proof. induction 1 as [|x l Hx _ IH]; simpl; [reflexivity | now rewrite Hx]. Qed.

Lemma closes_of_app t1 t2 : closes_of (t1 ++ t2) = closes_of t1 ++ closes_of t2.
Proof. apply flat_map_app. Qed.

Lemma closes_none l : Forall (fun e => closes_of [e] = []) l -> closes_of l = [].
Proof.
  induction 1 as [|x l Hx _ IH]; [reflexivity|].
  change (x :: l) with ([x] ++ l). now rewrite closes_of_app, Hx, IH.
Qed.

Lemma pipe_events_plain fds :
  filter is_fork (pipe_events fds) = []
  /\ filter is_wait (pipe_events fds) = []
  /\ closes_of (pipe_events fds) = [].
Proof. induction fds as [|p fds (I1 & I2 & I3)]; simpl; auto. Qed.

Lemma reclaim_events_plain :
  filter is_fork (reclaim_events w) = []
  /\ filter is_wait (reclaim_events w) = []
  /\ closes_of (reclaim_events w) = [].
Proof.
  unfold reclaim_events. now destruct (tcsetpgrp_ok w (getpgid w (shell_pid w))).
Qed.

Lemma early_events_views fds N stages :
  forall k pid,
    filter is_fork (early_events fds N k pid stages) = pipeline_forks fds N k pid stages
    /\ filter is_wait (early_events fds N k pid stages) = []
    /\ closes_of (early_events fds N k pid stages)
       = map (fun j => snd (pipe_at fds j)) (seq k (List.length stages)).
Proof.
  induction stages as [|c stages IH]; intros k pid; simpl; [auto|].
  destruct (IH (S k) (pid + 1)) as (I1 & I2 & I3). now rewrite I1, I2, I3.
Qed.

Lemma pipeline_forks_last fds N stages c :
  forall k pid,
    pipeline_forks fds N k pid (stages ++ [c])
    = pipeline_forks fds N k pid stages
      ++ [Fork (pid + Z.of_nat (List.length stages)) (S (k + List.length stages))
            (stage_child fds N (k + List.length stages) (tokenize c " ")
               (pid + Z.of_nat (List.length stages)))].
Proof.
  induction stages as [|c' stages IH]; intros k pid;
    cbn [pipeline_forks app List.length].
  - now rewrite Z.add_0_r, Nat.add_0_r.
  - rewrite IH.
    replace (pid + 1 + Z.of_nat (List.length stages))
      with (pid + Z.of_nat (S (List.length stages))) by lia.
    replace (S k + List.length stages)%nat with (k + S (List.length stages))%nat by lia.
    reflexivity.
Qed.

Lemma wait_events_views pid t0 st :
  filter is_fork (wait_events pid t0 (Some st)) = []
  /\ filter is_wait (wait_events pid t0 (Some st)) = [Waitpid pid]
  /\ closes_of (wait_events pid t0 (Some st)) = [].
Proof.
  unfold wait_events. pose proof (report_of_plain pid st) as H.
  assert (H1 : filter is_fork (report_of pid st) = []).
  { apply filter_none. eapply Forall_impl; [|exact H]. simpl; tauto. }
  assert (H2 : filter is_wait (report_of pid st) = []).
  { apply filter_none. eapply Forall_impl; [|exact H]. simpl; tauto. }
  assert (H3 : closes_of (report_of pid st) = []).
  { apply closes_none. eapply Forall_impl; [|exact H]. simpl; tauto. }
  change (Waitpid pid :: ?l) with ([Waitpid pid] ++ l).
  cbn [filter is_fork is_wait].
  change (Waitpid pid :: report_of pid st ++ (if t0 then [Stdout Run_time] else []))
    with ([Waitpid pid] ++ report_of pid st ++ (if t0 then [Stdout Run_time] else [])).
  rewrite !closes_of_app, !filter_app, H1, H2, H3. now destruct t0.
Qed.

Lemma last_events_views fds N pid c :
  filter is_fork (last_events w fds N pid c)
  = [Fork pid N (stage_child fds N (N - 1) (tokenize c " ") pid)]
  /\ filter is_wait (last_events w fds N pid c) = [Waitpid pid]
  /\ closes_of (last_events w fds N pid c) = [snd (pipe_at fds (N - 2))].
Proof.
  unfold last_events.
  destruct reclaim_events_plain as (R1 & R2 & R3).
  destruct (wait_events_views pid true (child_status w (tokenize c " ") pid))
    as (W1 & W2 & W3).
  rewrite !closes_of_app, !filter_app, W1, W2, W3, R1, R2, R3.
  destruct (WEXITSTATUS (child_status w (tokenize c " ") pid) =? EXIT_FAILURE);
    repeat split.
Qed.

End PipelineViews.

(** Opens the run of a line that is a pipeline [pre ++ [cl]]. *)
Ltac open_pipeline w fuel pre cl s Hline Hr Hwf Hne Hpre Hcl :=
  rewrite exec_cmdline_unfold, Hline, length_app; cbn [List.length];
  destruct (exec_cmds_pipeline_trace w (exec_cmdline w fuel) pre cl s Hr Hwf Hne Hpre Hcl)
    as (?s' & ?E & ?T & ?P & ?N & ?G).

Section RunRecord.

Variable w : world.

Lemma pipes_from_length n : forall fd, List.length (pipes_from fd n) = n.
Proof. induction n as [|n IH]; intros fd; simpl; [reflexivity | now rewrite IH]. Qed.

Lemma pipe_events_record fds :
  pipes_of (pipe_events fds) = fds
  /\ fork_pids (pipe_events fds) = []
  /\ plumbing (pipe_events fds) = []
  /\ job_view (pipe_events fds) = [].
Proof.
  induction fds as [|[r wr] fds (I1 & I2 & I3 & I4)]; simpl; [auto|].
  now rewrite I1, I2, I3, I4.
Qed.

Lemma early_events_record fds N stages :
  forall k pid,
    pipes_of (early_events fds N k pid stages) = []
    /\ List.length (fork_pids (early_events fds N k pid stages)) = List.length stages
    /\ plumbing (early_events fds N k pid stages)
       = flat_map (fun j => [Fork_of (S j); Close_of (snd (pipe_at fds j))])
           (seq k (List.length stages))
    /\ job_view (early_events fds N k pid stages)
       = map Forked_pid (fork_pids (early_events fds N k pid stages)).
Proof.
  induction stages as [|c stages IH]; intros k pid; simpl; [auto|].
  destruct (IH (S k) (pid + 1)) as (I1 & I2 & I3 & I4). now rewrite I1, I2, I3, I4.
Qed.

Lemma report_of_record pid st :
  pipes_of (report_of pid st) = []
  /\ fork_pids (report_of pid st) = []
  /\ plumbing (report_of pid st) = []
  /\ job_view (report_of pid st) = [].
Proof.
  unfold report_of.
  destruct (WIFEXITED st); [|destruct (WIFSIGNALED st); [|destruct (WIFSTOPPED st)]];
    repeat split.
Qed.

Lemma last_events_record fds N pid c :
  pipes_of (last_events w fds N pid c) = []
  /\ fork_pids (last_events w fds N pid c) = [pid]
  /\ plumbing (last_events w fds N pid c)
     = [Fork_of N; Close_of (snd (pipe_at fds (N - 2)))]
  /\ job_view (last_events w fds N pid c) = [Forked_pid pid; Waited_pid pid].
Proof.
  unfold last_events, wait_events, reclaim_events, pipes_of, fork_pids, plumbing, job_view.
  destruct (report_of_record pid (child_status w (tokenize c " ") pid))
    as (R1 & R2 & R3 & R4).
  unfold pipes_of, fork_pids, plumbing, job_view in R1, R2, R3, R4.
  cbn [app flat_map]. rewrite !flat_map_app, R1, R2, R3, R4.
  destruct (tcsetpgrp_ok w (getpgid w (shell_pid w)));
    destruct (WEXITSTATUS (child_status w (tokenize c " ") pid) =? EXIT_FAILURE);
    repeat split.
Qed.

Lemma fork_pids_filter t : fork_pids (filter is_fork t) = fork_pids t.
Proof.
  unfold fork_pids. induction t as [|e t IH]; [reflexivity|].
  destruct e; simpl; rewrite ?IH; reflexivity.
Qed.

(** The forks of a pipeline are wired by the process ids they carry. *)
Lemma forks_wired_pipeline fds N stages :
  forall k pid,
    forks_wired fds N k stages (fork_pids (pipeline_forks fds N k pid stages))
    = pipeline_forks fds N k pid stages.
Proof.
  induction stages as [|c stages IH]; intros k pid; simpl; [reflexivity|].
  now rewrite IH.
Qed.

End RunRecord.

(** X7. How a pipeline is wired.  In a line of N >= 2 stages the shell makes
    N-1 pipes and forks N processes, one for each stage in the order of the
    stages.  The child of stage k (from 0) makes itself a group, takes the
    terminal, puts the read end of the pipe made (k-1)-th on its standard
    input unless it is the first, the write end of the pipe made k-th on its
    standard output unless it is the last, and executes the arguments of the
    stage as they are (a built-in name or an "&" among them is passed on).
    Pipes and processes are those of the run's own record, whatever numbers
    the kernel gave them. *)
Theorem pipeline_wiring w fuel line pre cl s :
  within_limits line ->
  tokenize line "|" = pre ++ [cl] ->
  pre <> [] -> Forall has_args pre -> has_args cl ->
  resources_ok w -> well_formed s ->
  let N := (List.length pre + 1)%nat in
  exists r s' new,
    exec_cmdline w (S fuel) line s = Returned r s'
    /\ trace s' = trace s ++ new
    /\ List.length (pipes_of new) = (N - 1)%nat
    /\ List.length (fork_pids new) = N
    /\ filter is_fork new
       = forks_wired (pipes_of new) N 0 (pre ++ [cl]) (fork_pids new).
Proof.
  intros _ Hline Hne Hpre Hcl Hr Hwf N.
  open_pipeline w fuel pre cl s Hline Hr Hwf Hne Hpre Hcl.
  fold N in T. set (fds := pipes_from (next_fd s) (N - 1)) in *.
  set (lp := next_pid s + Z.of_nat (List.length pre)) in *.
  destruct (pipe_events_record fds) as (A1 & A2 & _).
  destruct (early_events_record fds N pre 0 (next_pid s)) as (B1 & B2 & _).
  destruct (last_events_record w fds N lp cl) as (C1 & C2 & _).
  assert (F : filter is_fork (pipe_events fds ++ early_events fds N 0 (next_pid s) pre
                              ++ last_events w fds N lp cl)
              = pipeline_forks fds N 0 (next_pid s) (pre ++ [cl])).
  { rewrite !filter_app.
    destruct (pipe_events_plain fds) as (H1 & _).
    destruct (early_events_views fds N pre 0 (next_pid s)) as (H2 & _).
    destruct (last_events_views w fds N lp cl) as (H3 & _).
    rewrite H1, H2, H3, pipeline_forks_last. simpl.
    unfold N, lp. replace (List.length pre + 1 - 1)%nat with (List.length pre) by lia.
    now replace (S (List.length pre)) with (List.length pre + 1)%nat by lia. }
  assert (P0 : pipes_of (pipe_events fds ++ early_events fds N 0 (next_pid s) pre
                         ++ last_events w fds N lp cl) = fds).
  { unfold pipes_of in *. now rewrite !flat_map_app, A1, B1, C1, !app_nil_r. }
  eexists _, s', _. split; [exact E|]. split; [exact T|].
  rewrite P0. split; [apply pipes_from_length|]. split.
  - unfold fork_pids in *. rewrite !flat_map_app, A2, C2, !length_app, B2.
    simpl. unfold N. lia.
  - rewrite <- (fork_pids_filter (pipe_events fds ++ _)), F.
    now rewrite forks_wired_pipeline.
Qed.

Lemma pipeline_wiring_demo :
  exists r s' new,
    exec_cmdline demo_world 1 "ls | sort | wc" demo_state = Returned r s'
    /\ trace s' = trace demo_state ++ new
    /\ filter is_fork new
       = forks_wired (pipes_of new) 3 0 ["ls "; " sort "; " wc"] (fork_pids new).
Proof.
  destruct (pipeline_wiring demo_world 0 "ls | sort | wc" ["ls "; " sort "] " wc"
              demo_state) as (r & s' & new & E & T & _ & _ & F).
  - in_limits.
  - reflexivity.
  - discriminate.
  - repeat constructor; discriminate.
  - discriminate.
  - split; reflexivity.
  - constructor.
  - exists r, s', new. split; [exact E|]. split; [exact T|]. exact F.
Defined.

(** X8. What the shell closes, and when.  While it runs a line of N >= 2
    stages the shell closes one descriptor after each fork and none
    otherwise: after the fork of stage k (from 0) the write end of the pipe
    in slot k of [pipe_fds], and after the fork of the last stage the write
    end of slot N-2 again, the slot it closed after the fork before.  Every
    descriptor it closes is a write end as [pipe] returned it. *)
Theorem pipeline_closes w fuel line pre cl s :
  within_limits line ->
  tokenize line "|" = pre ++ [cl] ->
  pre <> [] -> Forall has_args pre -> has_args cl ->
  resources_ok w -> well_formed s ->
  let N := (List.length pre + 1)%nat in
  exists r s' new,
    exec_cmdline w (S fuel) line s = Returned r s'
    /\ trace s' = trace s ++ new
    /\ plumbing new
       = flat_map (fun k => [Fork_of (S k);
                             Close_of (snd (pipe_at (pipes_of new) (closed_slot N k)))])
           (seq 0 N).
Proof.
  intros _ Hline Hne Hpre Hcl Hr Hwf N.
  open_pipeline w fuel pre cl s Hline Hr Hwf Hne Hpre Hcl.
  assert (Hlen : (1 <= List.length pre)%nat).
  { destruct pre; [congruence | simpl; lia]. }
  fold N in T. set (fds := pipes_from (next_fd s) (N - 1)) in *.
  set (lp := next_pid s + Z.of_nat (List.length pre)) in *.
  destruct (pipe_events_record fds) as (A1 & _ & A3 & _).
  destruct (early_events_record fds N pre 0 (next_pid s)) as (B1 & _ & B3 & _).
  destruct (last_events_record w fds N lp cl) as (C1 & _ & C3 & _).
  assert (P0 : pipes_of (pipe_events fds ++ early_events fds N 0 (next_pid s) pre
                         ++ last_events w fds N lp cl) = fds).
  { unfold pipes_of in *. now rewrite !flat_map_app, A1, B1, C1, !app_nil_r. }
  eexists _, s', _. split; [exact E|]. split; [exact T|].
  rewrite P0. unfold plumbing in *. rewrite !flat_map_app, A3, B3, C3. cbn [app].
  replace N with (List.length pre + 1)%nat at 3 by reflexivity.
  rewrite seq_app, flat_map_app. cbn [seq flat_map Nat.add app]. f_equal.
  - rewrite !flat_map_concat_map. f_equal. apply map_ext_in.
    intros k Hk. apply in_seq in Hk. unfold closed_slot, N.
    now replace (Nat.min k (List.length pre + 1 - 2)) with k by lia.
  - unfold closed_slot, N.
    replace (Nat.min (List.length pre) (List.length pre + 1 - 2))
      with (List.length pre + 1 - 2)%nat by lia.
    now replace (S (List.length pre)) with (List.length pre + 1)%nat by lia.
Qed.

Lemma pipeline_closes_demo :
  exists r s' new,
    exec_cmdline demo_world 1 "ls | sort | wc" demo_state = Returned r s'
    /\ trace s' = trace demo_state ++ new
    /\ pipes_of new = [(3, 4); (5, 6)]
    /\ plumbing new
       = [Fork_of 1; Close_of 4; Fork_of 2; Close_of 6; Fork_of 3; Close_of 6].
Proof.
  destruct (pipeline_closes demo_world 0 "ls | sort | wc" ["ls "; " sort "] " wc"
              demo_state) as (r & s' & new & E & T & C).
  - in_limits.
  - reflexivity.
  - discriminate.
  - repeat constructor; discriminate.
  - discriminate.
  - split; reflexivity.
  - constructor.
  - exists r, s', new. split; [exact E|]. split; [exact T|].
    vm_compute in E. injection E as _ <-. cbn [trace demo_state app] in T. subst new.
    split; [reflexivity | exact C].
Defined.



(** ** The terminal *)

(** X10. The terminal comes back.  After a foreground line of external
    commands (a pipeline, or one command that does not end in "&") has run,
    the foreground group of the terminal is the shell's own group again,
    although every child had asked for the terminal when it was created;
    provided the terminal takes the shell's request. *)
Theorem terminal_back_after_foreground w fuel line pre cl s :
  tokenize line "|" = pre ++ [cl] ->
  Forall has_args pre -> has_args cl ->
  (pre = [] ->
   builtin_name (arg_str (tokenize cl " ") 0) = false
   /\ String.eqb (arg_str (tokenize cl " ") (List.length (tokenize cl " ") - 1)) "&"
      = false) ->
  resources_ok w -> well_formed s ->
  tcsetpgrp_ok w (getpgid w (shell_pid w)) = true ->
  exists r s',
    exec_cmdline w (S fuel) line s = Returned r s'
    /\ tty_fg s' = getpgid w (shell_pid w).
Proof.
  intros Hline Hpre Hcl Hone Hr Hwf Hg.
  destruct pre as [|c1 mid].
  - destruct (Hone eq_refl) as [Hb Hm].
    rewrite exec_cmdline_unfold, Hline. cbn [app exec_cmds List.length Nat.add].
    destruct (Nat.eqb_spec (List.length (tokenize cl " ")) 0) as [E|_].
    { exfalso. apply Hcl. now apply tokenize_nil_length. }
    rewrite exec_cmd_foreground by assumption.
    destruct (fork_exec_wait_waited w (tokenize cl " ") 1 s Hr Hwf)
      as (s1 & E1 & _ & _ & _ & G1).
    step E1.
    destruct (WEXITSTATUS _ =? EXIT_FAILURE); cbn [Z.eqb Pos.eqb].
    + unfold bind, stderr, emit, ret. eexists _, _. split; [reflexivity|]. now apply G1.
    + eexists _, s1. split; [reflexivity|]. now apply G1.
  - assert (Hne : c1 :: mid <> []) by discriminate.
    open_pipeline w fuel (c1 :: mid) cl s Hline Hr Hwf Hne Hpre Hcl.
    eexists _, s'. split; [exact E | now apply G].
Qed.

Lemma terminal_back_after_foreground_demo :
  exists r s',
    exec_cmdline demo_world 1 "ls -l" demo_state = Returned r s'
    /\ tty_fg s' = 100.
Proof.
  apply (terminal_back_after_foreground demo_world 0 "ls -l" [] "ls -l" demo_state).
  - reflexivity.
  - constructor.
  - discriminate.
  - intros _. split; reflexivity.
  - split; reflexivity.
  - constructor.
  - reflexivity.
Defined.

(** ** When the kernel refuses *)

Section Refusals.

Variable w : world.

Lemma alloc_pipes_fails k :
  forall j s,
    (j < k)%nat ->
    (forall i, (i < j)%nat -> pipe_ok w (next_fd s + 2 * Z.of_nat i) = true) ->
    pipe_ok w (next_fd s + 2 * Z.of_nat j) = false ->
    exists s',
      alloc_pipes w k s = Exited EXIT_FAILURE s'
      /\ trace s' = trace s ++ pipe_events (pipes_from (next_fd s) j)
                    ++ [Stderr Could_not_pipe]
      /\ pending s' = pending s /\ next_pid s' = next_pid s.
Proof.
  induction k as [|k IH]; intros j s Hj Hok Hbad; [lia|].
  cbn [alloc_pipes]. unfold bind at 1. unfold sys_pipe.
  destruct j as [|j].
  - replace (next_fd s + 2 * Z.of_nat 0) with (next_fd s) in Hbad by lia.
    rewrite Hbad. unfold bind, stderr, emit, exit. eexists. split; [reflexivity|].
    simpl. repeat split.
  - pose proof (Hok 0%nat ltac:(lia)) as H0.
    replace (next_fd s + 2 * Z.of_nat 0) with (next_fd s) in H0 by lia.
    rewrite H0. unfold bind at 1.
    match goal with |- context [alloc_pipes w k ?s1] =>
      destruct (IH j s1) as (s' & E & T & P & N) end.
    + lia.
    + intros i Hi. cbn [next_fd with_pipe_fds with_trace with_next_fd].
      replace (next_fd s + 2 + 2 * Z.of_nat i)
        with (next_fd s + 2 * Z.of_nat (S i)) by lia.
      apply Hok. lia.
    + cbn [next_fd with_pipe_fds with_trace with_next_fd].
      now replace (next_fd s + 2 + 2 * Z.of_nat j)
        with (next_fd s + 2 * Z.of_nat (S j)) by lia.
    + exists s'. rewrite E. simpl in T, P, N.
      rewrite T, P, N, <- !app_assoc. repeat split.
Qed.

End Refusals.

(** X11. A pipe that cannot be made ends the shell.  If, for a line of
    N >= 2 stages, the kernel refuses one of the N-1 pipes, the shell prints
    "Could not pipe" and exits with [EXIT_FAILURE]; the pipes before that one
    were made, and no process was forked. *)
Theorem pipe_failure_is_fatal w fuel line c1 rest j s :
  tokenize line "|" = c1 :: rest ->
  has_args c1 ->
  (j < List.length rest)%nat ->
  (forall i, (i < j)%nat -> pipe_ok w (next_fd s + 2 * Z.of_nat i) = true) ->
  pipe_ok w (next_fd s + 2 * Z.of_nat j) = false ->
  exists s',
    exec_cmdline w (S fuel) line s = Exited EXIT_FAILURE s'
    /\ trace s' = trace s ++ pipe_events (pipes_from (next_fd s) j)
                  ++ [Stderr Could_not_pipe]
    /\ pending s' = pending s /\ next_pid s' = next_pid s.
Proof.
  intros Hline Hc Hj Hok Hbad.
  rewrite exec_cmdline_unfold, Hline. cbn [exec_cmds Nat.add].
  destruct (Nat.eqb_spec (List.length (tokenize c1 " ")) 0) as [E|_].
  { exfalso. apply Hc. now apply tokenize_nil_length. }
  rewrite exec_cmd_piping by (simpl; lia).
  unfold fork_exec_wait, PIPING, FIRST_CMD.
  replace (1 <? List.length (c1 :: rest))%nat with true
    by (symmetry; apply Nat.ltb_lt; simpl; lia).
  cbn [Nat.eqb andb when].
  destruct (alloc_pipes_fails w (List.length (c1 :: rest) - 1) j (with_pipe_fds s []))
    as (s' & E & T & P & N); [simpl; lia | exact Hok | exact Hbad |].
  exists s'. unfold bind. simpl in E |- *. rewrite E. auto.
Qed.

Lemma pipe_failure_is_fatal_demo :
  exists s',
    exec_cmdline scarce_world 1 "ls | sort | wc" demo_state = Exited EXIT_FAILURE s'
    /\ trace s' = [Pipe 3 4; Stderr Could_not_pipe].
Proof.
  destruct (pipe_failure_is_fatal scarce_world 0 "ls | sort | wc" "ls " [" sort "; " wc"]
              1 demo_state) as (s' & E & T & _).
  - reflexivity.
  - discriminate.
  - simpl. lia.
  - intros i Hi. assert (i = 0%nat) by lia. subst i. reflexivity.
  - reflexivity.
  - exists s'. split; [exact E | exact T].
Defined.

(** X12. A process that cannot be created ends the shell.  Whenever [fork]
    fails in [fork_exec_wait] (the pipes, if this is the first stage of
    several, having been made), the shell prints "Could not fork" and exits
    with [EXIT_FAILURE]: nothing is forked, nothing is waited for, the
    kernel's table is as it was.  So it is for a line that is one external
    command. *)
Theorem fork_failure_is_fatal w args cmd no_cmds background s :
  (forall fd, pipe_ok w fd = true) ->
  fork_ok w (next_pid s) = false ->
  (exists s',
     fork_exec_wait w args cmd no_cmds background s = Exited EXIT_FAILURE s'
     /\ trace s'
        = trace s
          ++ (if PIPING no_cmds && FIRST_CMD cmd
              then pipe_events (pipes_from (next_fd s) (no_cmds - 1)) else [])
          ++ [Stderr Could_not_fork]
     /\ pending s' = pending s /\ next_pid s' = next_pid s)
  /\ (forall fuel line c,
        tokenize line "|" = [c] -> has_args c -> external_command (tokenize c " ") ->
        exec_cmdline w (S fuel) line s
        = Exited EXIT_FAILURE (with_trace s (trace s ++ [Stderr Could_not_fork]))).
Proof.
  intros Hp Hf.
  assert (Single : forall a bg,
    fork_exec_wait w a 1 1 bg s
    = Exited EXIT_FAILURE (with_trace s (trace s ++ [Stderr Could_not_fork]))).
  { intros a bg. unfold fork_exec_wait, bind, when, get, sys_fork, stderr, emit, exit.
    simpl. now rewrite Hf. }
  split.
  - unfold fork_exec_wait.
    destruct (PIPING no_cmds && FIRST_CMD cmd).
    + cbn [when]. unfold bind at 1. unfold bind at 1. unfold bind at 1.
      destruct (alloc_pipes_exact w (no_cmds - 1) Hp (with_pipe_fds s []))
        as (s1 & E1 & T1 & _ & _ & P1 & N1 & _).
      rewrite E1. simpl in T1, P1, N1.
      set (s2 := if PIPING no_cmds && MIDDLE_CMD cmd no_cmds
                 then with_pipe_n (with_pipe_n s1 0) 1 else with_pipe_n s1 0).
      unfold bind, when, get, sys_fork, stderr, emit, exit.
      destruct (PIPING no_cmds && MIDDLE_CMD cmd no_cmds); simpl;
        rewrite N1, Hf; eexists; (split; [reflexivity|]); simpl;
        rewrite T1, P1, N1, <- app_assoc; repeat split.
    + unfold bind, when, get, sys_fork, stderr, emit, exit, ret.
      destruct (PIPING no_cmds && MIDDLE_CMD cmd no_cmds); simpl;
        rewrite Hf; eexists; (split; [reflexivity|]); simpl; repeat split.
  - intros fuel line c Hline Hc [Hb Hlone].
    rewrite exec_cmdline_unfold, Hline. cbn [exec_cmds List.length Nat.add].
    destruct (Nat.eqb_spec (List.length (tokenize c " ")) 0) as [E|_].
    { exfalso. apply Hc. now apply tokenize_nil_length. }
    destruct (String.eqb (arg_str (tokenize c " ") (List.length (tokenize c " ") - 1)) "&")
      eqn:Hm.
    + destruct (ends_in_marker (tokenize c " ") Hc Hlone Hm) as (pre & Hpre & Eq).
      rewrite Eq in *. rewrite arg_str_head in Hb by assumption.
      rewrite exec_cmd_background by assumption.
      unfold bind. now rewrite Single.
    + rewrite exec_cmd_foreground by assumption.
      unfold bind. now rewrite Single.
Qed.

Lemma fork_failure_is_fatal_demo :
  exec_cmdline crowded_world 1 "ls -l" (with_next_pid demo_state 102)
  = Exited EXIT_FAILURE
      (with_trace (with_next_pid demo_state 102) [Stderr Could_not_fork]).
Proof.
  destruct (fork_failure_is_fatal crowded_world ["ls"; "-l"] 1 1 false
              (with_next_pid demo_state 102)) as [_ H];
    [reflexivity | reflexivity |].
  apply (H 0%nat "ls -l" "ls -l");
    [reflexivity | discriminate | split; [reflexivity | discriminate]].
Defined.

(** ** Reading a stat file *)

Lemma string_app_assoc (a b c : string) : ((a ++ b) ++ c = a ++ (b ++ c))%string.
Proof. induction a as [|x a IH]; simpl; [reflexivity | now rewrite IH]. Qed.

Lemma all_chars_app p (a b : string) :
  all_chars p (a ++ b) = all_chars p a && all_chars p b.
Proof.
  induction a as [|x a IH]; simpl; [reflexivity|]. now rewrite IH, andb_assoc.
Qed.

Lemma scan_d_digit_head c t :
  is_digit c = true ->
  scan_d (String c t)
  = Some (to_int (to_long (scan_digits (String c t) 0)), skip_digits (String c t)).
Proof.
  destruct c as [[] [] [] [] [] [] [] []]; intros H;
    try (vm_compute in H; discriminate H); reflexivity.
Qed.


Lemma scan_d_space c t : is_space c = true -> scan_d (String c t) = scan_d t.
Proof. intros H. unfold scan_d. cbn [skip_spaces]. now rewrite H. Qed.

Lemma scan_digits_app d r :
  all_chars is_digit d = true -> no_digit r = true ->
  forall acc, scan_digits (d ++ r) acc = scan_digits d acc.
Proof.
  intros Hd Hr. induction d as [|c d IH]; intros acc; cbn [append scan_digits].
  - destruct r as [|x r]; [reflexivity|]. cbn [scan_digits].
    unfold no_digit, is_digit in Hr. now destruct (digit_of x).
  - cbn [all_chars] in Hd. apply andb_prop in Hd. destruct Hd as [Hc Hd].
    unfold is_digit in Hc. destruct (digit_of c); [now apply IH | discriminate].
Qed.

Lemma skip_digits_app d r :
  all_chars is_digit d = true -> no_digit r = true -> skip_digits (d ++ r) = r.
Proof.
  intros Hd Hr. induction d as [|c d IH]; cbn [append skip_digits].
  - destruct r as [|x r]; [reflexivity|]. cbn [skip_digits].
    unfold no_digit, is_digit in Hr. now destruct (digit_of x).
  - cbn [all_chars] in Hd. apply andb_prop in Hd. destruct Hd as [Hc Hd].
    unfold is_digit in Hc. destruct (digit_of c); [now apply IH | discriminate].
Qed.

Lemma scan_d_numeral d r :
  numeral d = true -> no_digit r = true -> scan_d (d ++ r) = Some (number d, r).
Proof.
  intros Hd Hr. destruct d as [|c d]; [discriminate|]. unfold numeral in Hd.
  assert (Hc : is_digit c = true) by (cbn [all_chars] in Hd; now apply andb_prop in Hd).
  change (String c d ++ r)%string with (String c (d ++ r)).
  rewrite scan_d_digit_head by assumption.
  change (String c (d ++ r)) with (String c d ++ r)%string.
  now rewrite scan_digits_app, skip_digits_app.
Qed.

Lemma skip_word_app t r :
  plain t = true -> skip_word (t ++ String " " r) = String " " r.
Proof.
  intros Ht. induction t as [|c t IH]; [reflexivity|].
  unfold plain in Ht. cbn [all_chars] in Ht. apply andb_prop in Ht.
  destruct Ht as [Hc Ht]. cbn [append skip_word].
  apply negb_true_iff in Hc. rewrite Hc. now apply IH.
Qed.

Lemma scan_s_word c t r :
  is_space c = false -> plain t = true ->
  scan_s (String " " (String c (t ++ String " " r))) = Some (String " " r).
Proof.
  intros Hc Ht. unfold scan_s. cbn [skip_spaces].
  change (is_space " ") with true. cbn iota. rewrite Hc.
  cbn [skip_word]. rewrite Hc. now rewrite skip_word_app.
Qed.

Lemma scan_c_char x r :
  is_space x = false -> scan_c (String " " (String x r)) = Some r.
Proof.
  intros Hx. unfold scan_c. cbn [skip_spaces].
  change (is_space " ") with true. cbn iota. now rewrite Hx.
Qed.

(** The stat file of a process whose name has no blank is read in full. *)
Lemma scan_stat_well_formed f :
  well_formed_stat f ->
  scan_stat (stat_text f) = (Some (number (f_pid f)), Some (number (f_ppid f))).
Proof.
  intros (Hp & Hc & Hs & Hpp). unfold scan_stat, stat_text.
  rewrite scan_d_numeral by (assumption || reflexivity).
  replace (" (" ++ f_comm f ++ ") "
           ++ String (f_state f) (" " ++ f_ppid f ++ " " ++ f_rest f))%string
    with (String " " (String "("
            ((f_comm f ++ ")")
             ++ String " " (String (f_state f) (" " ++ f_ppid f ++ " " ++ f_rest f)))))%string
    by (rewrite string_app_assoc; reflexivity).
  rewrite scan_s_word;
    [|reflexivity | unfold plain in *; now rewrite all_chars_app, Hc].
  rewrite scan_c_char by assumption.
  change (" " ++ f_ppid f ++ " " ++ f_rest f)%string
    with (String " " (f_ppid f ++ String " " (f_rest f))).
  rewrite scan_d_space by reflexivity.
  now rewrite scan_d_numeral by (assumption || reflexivity).
Qed.


(** ** The built-in commands *)

Section BuiltIns.

Variable w : world.

Lemma sweep_reports_plain q :
  kills_of (sweep_reports q) = [] /\ filter is_fork (sweep_reports q) = [].
Proof.
  unfold sweep_reports, kills_of. induction q as [|[p st] q [I1 I2]]; [now split|].
  cbn [flat_map fst snd]. rewrite flat_map_app, filter_app, I1, I2, !app_nil_r.
  unfold report_of.
  destruct (WIFEXITED st); [now split|].
  destruct (WIFSIGNALED st); [now split|].
  destruct (WIFSTOPPED st); now split.
Qed.

(** The test and the kill of one entry. *)
Lemma kill_step (b : bool) pid s :
  exists s' new,
    when b (ok <- sys_kill w pid SIGKILL ;; when (negb ok) (perror "kill")) s
    = Returned tt s'
    /\ trace s' = trace s ++ new
    /\ kills_of new = (if b then [(pid, SIGKILL)] else [])
    /\ filter is_fork new = [].
Proof.
  destruct b; cbn [when].
  - unfold sys_kill, perror, stderr, emit, bind, ret.
    destruct (kill_ok w pid SIGKILL); cbn [negb when]; unfold ret.
    + eexists _, [Kill pid SIGKILL]. repeat split.
    + eexists _, [Kill pid SIGKILL; Stderr (Perror "kill")]. cbn [trace with_trace].
      rewrite <- app_assoc. repeat split.
  - exists s, []. unfold ret. rewrite app_nil_r. repeat split.
Qed.


(** Over well-formed stat files the loop kills the children and only them. *)
Lemma kill_children_regular es :
  Forall regular es ->
  forall pid ppid s, exists s' new,
    kill_children w (map entry_text es) pid ppid s = Returned tt s'
    /\ trace s' = trace s ++ new
    /\ kills_of new = map (fun p => (p, SIGKILL)) (children_in w es)
    /\ filter is_fork new = [].
Proof.
  induction 1 as [|e es He _ IH]; intros pid ppid s; cbn [map kill_children].
  - exists s, []. unfold ret. rewrite app_nil_r. repeat split.
  - destruct e as [name f|name file]; cbn [entry_text regular children_in flat_map] in *.
    + destruct He as [Hn Hf]. rewrite Hn, (scan_stat_well_formed f Hf).
      cbn [fst snd stored].
      destruct (kill_step (shell_pid w =? number (f_ppid f)) (number (f_pid f)) s)
        as (s1 & new1 & E1 & T1 & K1 & F1).
      step E1.
      destruct (IH (number (f_pid f)) (number (f_ppid f)) s1) as (s' & new & E & T & K & F).
      exists s', (new1 ++ new). rewrite E, T, T1, filter_app, F1, F, <- app_assoc.
      split; [reflexivity|]. split; [reflexivity|]. split; [|reflexivity].
      unfold kills_of in *. rewrite flat_map_app, K1, K. fold (children_in w es).
      rewrite map_app. now destruct (shell_pid w =? number (f_ppid f)).
    + rewrite He. apply IH.
Qed.


(** [term_all] once the loop is through. *)
Lemma term_all_after tbl s s1 new :
  proc w = Some tbl ->
  kill_children w tbl (uninit_pid w) (uninit_ppid w)
    (with_trace s (trace s ++ [Stdout Closing])) = Returned tt s1 ->
  trace s1 = (trace s ++ [Stdout Closing]) ++ new ->
  exists s' tail,
    term_all w s = Exited EXIT_SUCCESS s'
    /\ trace s' = trace s ++ Stdout Closing :: new ++ tail
    /\ kills_of tail = [] /\ filter is_fork tail = [].
Proof.
  intros Hp E T. unfold term_all. rewrite Hp.
  assert (E0 : stdout Closing s
               = Returned tt (with_trace s (trace s ++ [Stdout Closing]))) by reflexivity.
  step E0. step E.
  assert (E1 : emit Sleep s1 = Returned tt (with_trace s1 (trace s1 ++ [Sleep])))
    by reflexivity.
  step E1.
  destruct (sigdet w); cbn [negb when].
  - unfold bind, ret, exit. eexists _, [Sleep]. split; [reflexivity|].
    cbn [trace with_trace]. rewrite T, <- !app_assoc. repeat split.
  - unfold bind. rewrite sigchld_handler_spec. unfold exit, swept.
    eexists _, (Sleep :: sweep_reports _). split; [reflexivity|].
    cbn [trace with_trace with_pending pending]. rewrite T, <- !app_assoc.
    split; [reflexivity|].
    destruct (sweep_reports_plain (pending s1)) as [K F].
    split; [exact K | exact F].
Qed.

Lemma term_all_never_returns s : forall a s', term_all w s <> Returned a s'.
Proof.
  intros a s'. unfold term_all.
  assert (E0 : stdout Closing s
               = Returned tt (with_trace s (trace s ++ [Stdout Closing]))) by reflexivity.
  step E0.
  destruct (proc w) as [tbl|]; [|discriminate].
  unfold bind at 1.
  destruct (kill_children w tbl _ _ _) as [[] s1| | |]; try discriminate.
  unfold bind at 1. unfold emit at 1. unfold bind at 1.
  destruct (sigdet w); cbn [negb when]; [discriminate|].
  rewrite sigchld_handler_spec. discriminate.
Qed.

Lemma multi_stage_returns (nested : string -> M nat) no_cmds :
  resources_ok w -> no_cmds <> 1%nat ->
  forall cmds i s, exists r s' new,
    exec_cmds w nested cmds i no_cmds s = Returned r s' /\ trace s' = trace s ++ new.
Proof.
  intros Hr Hn. induction cmds as [|c cmds IH]; intros i s; cbn [exec_cmds].
  - unfold ret. exists 0%nat, s, []. now rewrite app_nil_r.
  - destruct (List.length (tokenize c " ") =? 0)%nat.
    + unfold bind, stderr, emit, ret. eexists _, _, _. split; reflexivity.
    + rewrite exec_cmd_piping by assumption.
      assert (R : exists r s1 new,
        fork_exec_wait w (tokenize c " ") (i + 1) no_cmds false s = Returned r s1
        /\ trace s1 = trace s ++ new).
      { destruct (LAST_CMD (i + 1) no_cmds) eqn:L.
        - apply Nat.eqb_eq in L. rewrite L.
          destruct (fork_exec_wait_last w (tokenize c " ") no_cmds s Hr)
            as (s1 & new & st & E & T & _). rewrite E.
          eexists _, _, _. split; [reflexivity | exact T].
        - destruct (fork_exec_wait_spawn w (tokenize c " ") (i + 1) no_cmds false s Hr)
            as (s1 & new & E & T & _); [exact L|]. rewrite E.
          eexists _, _, _. split; [reflexivity | exact T]. }
      destruct R as (r & s1 & new & E & T). step E.
      destruct (r =? -1).
      * unfold bind, stderr, emit, ret. eexists _, _, _. split; [reflexivity|].
        cbn [trace with_trace]. rewrite T, <- app_assoc. reflexivity.
      * destruct (IH (i + 1)%nat s1) as (r' & s' & new' & E' & T').
        exists r', s', (new ++ new'). split; [exact E'|].
        now rewrite T', T, <- app_assoc.
Qed.

End BuiltIns.

(** X13. [exit] never returns.  [term_all] prints its closing message and
    then: when /proc cannot be opened, ends the shell with [EXIT_FAILURE]
    without a signal sent; when the stat file of every process directory is
    there and well formed (no blank in the process name), sends [SIGKILL] to
    exactly the processes whose stat file names the shell as parent, in the
    order of the directory, and to no other, forks nothing, and ends the
    shell with [EXIT_SUCCESS].  In no case does it return, and a line that
    is the one word [exit] ends as [term_all] does. *)
Theorem exit_kills_the_children w s :
  (proc w = None ->
   term_all w s
   = Exited EXIT_FAILURE
       (with_trace s (trace s ++ [Stdout Closing; Stderr Could_not_open_proc])))
  /\ (forall es, proc w = Some (map entry_text es) -> Forall regular es ->
      exists s' new,
        term_all w s = Exited EXIT_SUCCESS s'
        /\ trace s' = trace s ++ Stdout Closing :: new
        /\ kills_of new = map (fun p => (p, SIGKILL)) (children_in w es)
        /\ filter is_fork new = [])
  /\ (forall a s', term_all w s <> Returned a s')
  /\ (forall fuel line c,
      within_limits line ->
      tokenize line "|" = [c] -> tokenize c " " = ["exit"] ->
      (forall r s', exec_cmdline w (S fuel) line s <> Returned r s')
      /\ (forall code s',
            term_all w s = Exited code s' ->
            exec_cmdline w (S fuel) line s = Exited code s')).
Proof.
  split; [|split; [|split]].
  - intros Hp. unfold term_all. rewrite Hp.
    unfold bind, stdout, stderr, emit, exit. f_equal.
    destruct s; unfold with_trace; cbn. now rewrite <- app_assoc.
  - intros es Hp Hes.
    destruct (kill_children_regular w es Hes (uninit_pid w) (uninit_ppid w)
                (with_trace s (trace s ++ [Stdout Closing])))
      as (s1 & new & E & T & K & F).
    destruct (term_all_after w (map entry_text es) s s1 new Hp E T)
      as (s' & tail & E' & T' & K' & F').
    exists s', (new ++ tail). split; [exact E'|]. split; [exact T'|].
    unfold kills_of in *. now rewrite flat_map_app, filter_app, K, K', F, F', app_nil_r.
  - apply term_all_never_returns.
  - intros fuel line c _ Hline Hc.
    assert (L : exec_cmdline w (S fuel) line s
                = (r <- (term_all w ;; ret 0) ;;
                   if r =? -1
                   then stderr (Command_failed (command_text ["exit"])) ;; ret 1%nat
                   else ret 0%nat) s).
    { rewrite exec_cmdline_unfold, Hline. cbn [exec_cmds List.length Nat.add].
      rewrite Hc. reflexivity. }
    rewrite L. unfold bind.
    pose proof (term_all_never_returns w s) as Nr.
    destruct (term_all w s) as [a s1|code0 s1| |].
    + now elim (Nr a s1).
    + split; [intros; discriminate | intros code s' H; now injection H as <- <-].
    + split; intros; discriminate.
    + split; intros; discriminate.
Qed.

Lemma exit_kills_the_children_demo :
  exists s' new,
    term_all demo_world demo_state = Exited EXIT_SUCCESS s'
    /\ trace s' = Stdout Closing :: new
    /\ kills_of new = [(101, SIGKILL)].
Proof.
  destruct (exit_kills_the_children demo_world demo_state) as (_ & H & _).
  destruct (H [Process_dir "1" {| f_pid := "1"; f_comm := "init"; f_state := "S";
                                  f_ppid := "0"; f_rest := "1 1" |};
               Process_dir "100" {| f_pid := "100"; f_comm := "tjsh"; f_state := "S";
                                    f_ppid := "1"; f_rest := "100 100" |};
               Process_dir "101" {| f_pid := "101"; f_comm := "sleep"; f_state := "S";
                                    f_ppid := "100"; f_rest := "101 101" |};
               Other_entry "self" None])
    as (s' & new & E & T & K & _).
  - reflexivity.
  - repeat constructor.
  - exists s', new. split; [exact E|]. split; [exact T | exact K].
Defined.



(** X14. [fg] refuses what is not a child.  When the stat file of the
    process whose number is given to [fg] (read as an [int]) cannot be
    opened, or is well formed and names another parent than the shell, the
    shell only says so: no terminal hand-over, no signal, no wait; and the
    line succeeds. *)
Theorem fg_refuses_strangers w fuel line c a pid s :
  within_limits line ->
  tokenize line "|" = [c] -> tokenize c " " = ["fg"; a] ->
  sscanf_d a = Some pid ->
  (forall content, proc_stat w pid = Some content ->
     exists f, content = stat_text f /\ well_formed_stat f
               /\ number (f_ppid f) <> shell_pid w) ->
  exec_cmdline w (S fuel) line s
  = Returned 0%nat (with_trace s (trace s ++ [Stderr No_such_child])).
Proof.
  intros _ Hline Hc Ha Hno.
  rewrite exec_cmdline_unfold, Hline. cbn [exec_cmds List.length Nat.add].
  rewrite Hc. cbn -[sscanf_d]. unfold put_fg. rewrite Ha.
  assert (C : child_process w pid = false).
  { unfold child_process. destruct (proc_stat w pid) as [content|]; [|reflexivity].
    destruct (Hno content eq_refl) as (f & -> & Hf & Hpp).
    rewrite (scan_stat_well_formed f Hf). cbn [snd stored]. now apply Z.eqb_neq. }
  rewrite C. reflexivity.
Qed.

Lemma fg_refuses_strangers_demo :
  exec_cmdline scarce_world 1 "fg 4294967398" demo_state
  = Returned 0%nat (with_trace demo_state [Stderr No_such_child]).
Proof.
  apply (fg_refuses_strangers scarce_world 0 "fg 4294967398" "fg 4294967398"
           "4294967398" 102 demo_state).
  - in_limits.
  - reflexivity.
  - reflexivity.
  - reflexivity.
  - intros content H. injection H as <-.
    exists {| f_pid := "102"; f_comm := "cron"; f_state := "S";
              f_ppid := "1"; f_rest := "102 102" |}.
    split; [reflexivity|]. split; [repeat split | discriminate].
Defined.

(** X15. [fg] on a child.  When the stat file of the process whose number
    is given to [fg] is well formed and names the shell as parent, the shell
    hands the terminal to the child's group, then sends [SIGCONT], then waits
    for that child, and at the end asks for the terminal back; no run time is
    printed, nothing is forked, and the line succeeds whatever the child's
    status is. *)
Theorem fg_resumes_a_child w fuel line c a pid f s :
  within_limits line ->
  tokenize line "|" = [c] -> tokenize c " " = ["fg"; a] ->
  sscanf_d a = Some pid ->
  proc_stat w pid = Some (stat_text f) -> well_formed_stat f ->
  number (f_ppid f) = shell_pid w ->
  exists s' report,
    exec_cmdline w (S fuel) line s = Returned 0%nat s'
    /\ trace s' = trace s ++ resume_events w pid true ++ [Waitpid pid] ++ report
                  ++ reclaim_events w
    /\ ~ In (Stdout Run_time) report
    /\ filter is_fork report = [] /\ filter is_wait report = []
    /\ (tcsetpgrp_ok w (getpgid w (shell_pid w)) = true ->
        tty_fg s' = getpgid w (shell_pid w)).
Proof.
  intros _ Hline Hc Ha Hp Hf Hchild.
  rewrite exec_cmdline_unfold, Hline. cbn [exec_cmds List.length Nat.add].
  rewrite Hc. cbn -[sscanf_d]. unfold put_fg. rewrite Ha.
  assert (C : child_process w pid = true).
  { unfold child_process. rewrite Hp, (scan_stat_well_formed f Hf).
    cbn [snd stored]. rewrite Hchild. apply Z.eqb_refl. }
  rewrite C.
  destruct (c_wait_spec w pid false true s) as (s' & E & T & G & _).
  unfold bind at 1. unfold bind at 1. unfold bind at 1. rewrite E.
  unfold ret. cbn.
  exists s', (match option_map fst (take_pid pid (pending s)) with
              | Some st => report_of pid st
              | None => []
              end).
  split; [reflexivity|]. split; [|split; [|split; [|split]]].
  - rewrite T. unfold wait_events, resume_events.
    destruct (option_map fst (take_pid pid (pending s)));
      rewrite ?app_nil_r; repeat (cbn [app]; rewrite <- ?app_assoc); reflexivity.
  - destruct (option_map fst (take_pid pid (pending s))) as [st|]; [|intros []].
    unfold report_of.
    destruct (WIFEXITED st); [intros [H|[]]; discriminate|].
    destruct (WIFSIGNALED st); [intros [H|[]]; discriminate|].
    destruct (WIFSTOPPED st); [intros [H|[]]; discriminate | intros []].
  - destruct (option_map fst (take_pid pid (pending s))) as [st|]; [|reflexivity].
    apply filter_none. eapply Forall_impl; [|apply report_of_plain]. now intros e [H _].
  - destruct (option_map fst (take_pid pid (pending s))) as [st|]; [|reflexivity].
    apply filter_none. eapply Forall_impl; [|apply report_of_plain]. now intros e (_ & H & _).
  - exact G.
Qed.

Lemma fg_resumes_a_child_demo :
  exists s' report,
    exec_cmdline scarce_world 1 "fg 103" demo_state = Returned 0%nat s'
    /\ trace s' = [Tcsetpgrp 103; Kill 103 SIGCONT; Waitpid 103] ++ report
                  ++ [Tcsetpgrp 100]
    /\ tty_fg s' = 100.
Proof.
  destruct (fg_resumes_a_child scarce_world 0 "fg 103" "fg 103" "103" 103
              {| f_pid := "103"; f_comm := "cat"; f_state := "T";
                 f_ppid := "100"; f_rest := "103 103" |} demo_state)
    as (s' & report & E & T & _ & _ & _ & G);
    [in_limits | reflexivity | reflexivity | reflexivity | reflexivity
    | repeat split | reflexivity |].
  exists s', report. split; [exact E|]. split; [exact T | now apply G].
Defined.



(** X16. [cd] never fails the line.  With no argument [cd] goes where
    [cd ~] goes; a leading tilde stands for the value of HOME; and when the
    directory cannot be entered the shell says so, but the line still
    succeeds.  Nothing is forked and the kernel's table is untouched. *)
Theorem cd_never_fails_the_line w fuel line c rest s :
  tokenize line "|" = [c] -> tokenize c " " = "cd" :: rest ->
  (List.length rest <= 1)%nat ->
  let path := match rest with [] => "~" | p :: _ => p end in
  exists target,
    exec_cmdline w (S fuel) line s
    = Returned 0%nat
        (with_trace s
           (trace s ++ Chdir target
                       :: (if chdir_ok w target then [] else [Stderr No_such_directory])))
    /\ (starts_with_tilde path = false -> target = path)
    /\ (forall h, starts_with_tilde path = true -> getenv w "HOME" = Some h ->
        target = (h ++ string_tail path)%string).
Proof.
  intros Hline Hc Hlen path.
  rewrite exec_cmdline_unfold, Hline. cbn [exec_cmds List.length Nat.add].
  rewrite Hc.
  assert (R : forall p,
    exists target,
      change_dir w p s
      = Returned tt
          (with_trace s
             (trace s ++ Chdir target
                :: (if chdir_ok w target then [] else [Stderr No_such_directory])))
      /\ (starts_with_tilde p = false -> target = p)
      /\ (forall h, starts_with_tilde p = true -> getenv w "HOME" = Some h ->
          target = (h ++ string_tail p)%string)).
  { intros p. unfold change_dir.
    set (target := if starts_with_tilde p then _ else p).
    exists target. split; [|split].
    - unfold bind, emit, when, stderr, emit, ret.
      destruct (chdir_ok w target); cbn [negb].
      + reflexivity.
      + f_equal. destruct s; unfold with_trace; cbn. now rewrite <- app_assoc.
    - intros H. unfold target. now rewrite H.
    - intros h H Hh. unfold target. now rewrite H, Hh. }
  destruct rest as [|p [|q rest]]; [| |simpl in Hlen; lia].
  - destruct (R "~") as (target & E & H1 & H2). exists target.
    split; [|split; assumption].
    cbn -[change_dir]. unfold bind. now rewrite E.
  - destruct (R p) as (target & E & H1 & H2). exists target.
    split; [|split; assumption].
    cbn -[change_dir]. unfold bind. now rewrite E.
Qed.

Lemma cd_never_fails_the_line_demo :
  exec_cmdline scarce_world 1 "cd ~/src" demo_state
  = Returned 0%nat
      (with_trace demo_state [Chdir "/home/tj/src"; Stderr No_such_directory]).
Proof.
  destruct (cd_never_fails_the_line scarce_world 0 "cd ~/src" "cd ~/src" ["~/src"]
              demo_state) as (target & E & _ & H);
    [reflexivity | reflexivity | simpl; lia |].
  rewrite (H "/home/tj" eq_refl eq_refl) in E. exact E.
Defined.

(** X17. [checkEnv] succeeds whatever its pipeline does.  When pipes and
    processes can be had, a line that is [checkEnv] with at most one argument
    returns 0, after it printed the line it composed, also when stages of
    that line fail. *)
Theorem check_env_line_succeeds w fuel line c s :
  resources_ok w ->
  tokenize line "|" = [c] ->
  arg_str (tokenize c " ") 0 = "checkEnv" ->
  (List.length (tokenize c " ") <= 2)%nat ->
  exists s' rest,
    exec_cmdline w (S (S fuel)) line s = Returned 0%nat s'
    /\ trace s'
       = trace s
         ++ Stdout (Actual_command_line (get_env_cmd (tokenize c " ") (pager_of w)))
            :: rest.
Proof.
  intros Hr Hline Hname Hlen.
  rewrite exec_cmdline_unfold, Hline. cbn [exec_cmds List.length Nat.add].
  destruct (Nat.eqb_spec (List.length (tokenize c " ")) 0) as [E0|_].
  { apply tokenize_nil_length in E0. rewrite E0 in Hname. discriminate. }
  unfold exec_cmd. rewrite Hname. cbn [Nat.eqb String.eqb Ascii.eqb Bool.eqb].
  apply Nat.leb_le in Hlen. rewrite Hlen.
  set (args := tokenize c " ").
  assert (Run : forall l s0, env_line l ->
            exists r s1, exec_cmdline w (S fuel) l s0 = Returned r s1
                         /\ exists new, trace s1 = trace s0 ++ new).
  { intros l s0 Hl. rewrite exec_cmdline_unfold.
    destruct (multi_stage_returns w (exec_cmdline w fuel) (List.length (tokenize l "|"))
                Hr (env_line_piping l Hl) (tokenize l "|") 0%nat s0)
      as (r & s1 & new & E & T).
    exists r, s1. split; [exact E | now exists new]. }
  assert (CE : exists s' rest,
    check_env w (exec_cmdline w (S fuel)) args s = Returned tt s'
    /\ trace s'
       = trace s ++ Stdout (Actual_command_line (get_env_cmd args (pager_of w))) :: rest).
  { unfold check_env. fold (pager_of w).
    set (l := get_env_cmd args (pager_of w)).
    assert (E0 : stdout (Actual_command_line l) s
                 = Returned tt (with_trace s (trace s ++ [Stdout (Actual_command_line l)])))
      by reflexivity.
    step E0.
    destruct (Run l (with_trace s (trace s ++ [Stdout (Actual_command_line l)])))
      as (r & s1 & E & new & T); [now eexists _, _|].
    step E. cbn [trace with_trace] in T.
    destruct ((r =? _)%nat && String.eqb (pager_of w) "less").
    - set (l2 := get_env_cmd args "more").
      assert (E1 : stdout (Actual_command_line l2) s1
                   = Returned tt
                       (with_trace s1 (trace s1 ++ [Stdout (Actual_command_line l2)])))
        by reflexivity.
      step E1.
      destruct (Run l2 (with_trace s1 (trace s1 ++ [Stdout (Actual_command_line l2)])))
        as (r2 & s2 & E2 & new2 & T2); [now eexists _, _|].
      step E2. cbn [trace with_trace] in T2. unfold ret.
      eexists s2, _. split; [reflexivity|].
      rewrite T2, T, <- !app_assoc. reflexivity.
    - unfold ret. eexists s1, _. split; [reflexivity|].
      rewrite T, <- !app_assoc. reflexivity. }
  destruct CE as (s' & rest & E & T).
  exists s', rest. split; [|exact T].
  unfold bind. now rewrite E.
Qed.

Lemma check_env_line_succeeds_demo :
  exists s' rest,
    exec_cmdline demo_world 2 "checkEnv" demo_state = Returned 0%nat s'
    /\ trace s' = Stdout (Actual_command_line "printenv | sort | less") :: rest.
Proof.
  apply (check_env_line_succeeds demo_world 0 "checkEnv" "checkEnv" demo_state).
  - split; reflexivity.
  - reflexivity.
  - reflexivity.
  - simpl. lia.
Defined.

(** ** The depth of the nesting *)

(** X18. The nesting of [exec_cmdline] is two deep at most.  The lines
    [check_env] composes have several stages, where no built-in is
    recognized: the nested call runs such a line without reaching
    [check_env] again, the same whatever stands in for the recursive call.
    So two levels give what any deeper nesting gives, and the budget of two
    levels is never used up, in [prompt]'s call either.  This bounds the
    depth of the nesting only; whether the waits of a run return is no part
    of it. *)
Theorem nesting_is_two_deep w fuel line s :
  (forall (stand_in : string -> M nat) l,
     env_line l ->
     exec_cmdline w (S fuel) l s
     = exec_cmds w stand_in (tokenize l "|") 0 (List.length (tokenize l "|")) s)
  /\ exec_cmdline w (S (S fuel)) line s = exec_cmdline w 2 line s
  /\ exec_cmdline w 2 line s <> Out_of_fuel
  /\ prompt w line s <> Out_of_fuel.
Proof.
  split; [|split; [apply exec_cmdline_fuel | split; [apply exec_cmdline_runs|]]].
  - intros stand_in l Hl. rewrite exec_cmdline_unfold.
    apply exec_cmds_piping_any. now apply env_line_piping.
  - unfold prompt. destruct (0 <? String.length line)%nat; [|discriminate].
    unfold bind. pose proof (exec_cmdline_runs w 0 line s) as R.
    destruct (exec_cmdline w 2 line s);
      [discriminate | discriminate | now elim R | discriminate].
Qed.
